(** * weapon-message-service: authentication, presence and chat relay

    A shallow embedding of the NestJS message service:
    - [AuthService] (auth/auth.service.ts): [parseTokenLocally],
      [verifyToken], [verifyTokenFast];
    - [RedisService] (redis/redis.service.ts): presence keys;
    - [MessagesService] (messages/messages.service.ts): the SQL the
      gateway relies on, run against an in-memory image of the tables;
    - [ChatGateway] (gateway/chat.gateway.ts): the socket handlers.

    Conventions.  JavaScript numbers that carry user ids and epoch
    seconds are integers, modelled in [Z].  [Date.now()] is an explicit
    argument [now] in milliseconds.  An [await] is a sequencing point:
    each handler runs to completion on the state it is given.  The
    collaborators (Redis, PostgreSQL) answer every command; the outcome
    of the one HTTP call to the identity service is an explicit
    argument. *)

From Stdlib Require Import ZArith NArith List Bool String Lia.
From stdpp Require Import base gmap strings list fin_maps fin_sets sorting.

#[local] Open Scope string_scope.
#[local] Open Scope Z_scope.

(** ** JavaScript values *)

(** Truthiness of a JavaScript number: [0] is falsy. *)
Definition truthy (n : Z) : bool := negb (n =? 0).

(** Truthiness of a JavaScript string: the empty string is falsy. *)
Definition truthy_str (s : string) : bool :=
  match s with EmptyString => false | _ => true end.

(** The result of running a piece of code: it returns or it throws. *)
Inductive Exception := UnauthorizedException (message : string).

Inductive Completion (A : Type) :=
| Return (a : A)
| Throw (e : Exception).
Arguments Return {A} a.
Arguments Throw {A} e.

(** ** The shared cache (Redis)

    The service uses three key families.  Each is a map of its own here:
    - [token:${token}:user]  (SETEX 600, value [userId.toString()]);
    - [user:${userId}:online] (SETEX 300, value the socket id);
    - the set [online:users] of [userId.toString()].
    An entry carries the instant (ms) at which Redis drops it.  Values
    of the token family are written as the decimal text of an integer
    and read back with [parseInt(_, 10)]; the map stores the integer. *)

Record Redis := mkRedis {
  tokenUser : gmap string (Z * Z);
  userOnline : gmap Z (string * Z);
  onlineUsers : gset Z
}.

Definition emptyRedis : Redis := mkRedis ∅ ∅ ∅.

(** [GET]/[EXISTS] see an entry only before its expiry. *)
Definition live {A} (now : Z) (e : option (A * Z)) : option A :=
  match e with
  | Some (v, expires) => if now <? expires then Some v else None
  | None => None
  end.

Definition redis_get_tokenUser (now : Z) (token : string) (r : Redis) : option Z :=
  live now (tokenUser r !! token).

Definition redis_setex_tokenUser (now : Z) (token : string) (ttl : Z) (v : Z)
    (r : Redis) : Redis :=
  mkRedis (<[token := (v, now + ttl * 1000)]> (tokenUser r)) (userOnline r) (onlineUsers r).

Definition redis_del_tokenUser (token : string) (r : Redis) : Redis :=
  mkRedis (delete token (tokenUser r)) (userOnline r) (onlineUsers r).

Definition redis_setex_userOnline (now : Z) (userId : Z) (ttl : Z) (v : string)
    (r : Redis) : Redis :=
  mkRedis (tokenUser r) (<[userId := (v, now + ttl * 1000)]> (userOnline r)) (onlineUsers r).

Definition redis_del_userOnline (userId : Z) (r : Redis) : Redis :=
  mkRedis (tokenUser r) (delete userId (userOnline r)) (onlineUsers r).

Definition redis_exists_userOnline (now : Z) (userId : Z) (r : Redis) : Z :=
  match live now (userOnline r !! userId) with Some _ => 1 | None => 0 end.

Definition redis_sadd_onlineUsers (userId : Z) (r : Redis) : Redis :=
  mkRedis (tokenUser r) (userOnline r) ({[userId]} ∪ onlineUsers r).

Definition redis_srem_onlineUsers (userId : Z) (r : Redis) : Redis :=
  mkRedis (tokenUser r) (userOnline r) (onlineUsers r ∖ {[userId]}).

(** ** RedisService *)

Module RedisService.

Definition setUserOnline (now : Z) (userId : Z) (socketId : string) (r : Redis) : Redis :=
  redis_sadd_onlineUsers userId (redis_setex_userOnline now userId 300 socketId r).

Definition removeUserOnline (userId : Z) (r : Redis) : Redis :=
  redis_srem_onlineUsers userId (redis_del_userOnline userId r).

Definition isUserOnline (now : Z) (userId : Z) (r : Redis) : bool :=
  redis_exists_userOnline now userId r =? 1.

End RedisService.

(** ** AuthService *)

Record UserInfo := mkUserInfo {
  ui_id : Z;
  ui_email : string;
  ui_username : string
}.

(** The claims of a decoded token; [id] may be missing at run time. *)
Record JWTPayload := mkJWTPayload {
  p_id : option Z;
  p_iat : option Z;
  p_exp : option Z
}.

(** What [jwt.decode(token)] does: a payload, [null], or an exception. *)
Inductive Decoded :=
| DecodedPayload (d : JWTPayload)
| DecodedNull
| DecodeThrows.

(** The body of a 2xx answer of [GET /api/users/me]. *)
Record ResponseData := mkResponseData {
  rd_id : option Z;
  rd_email : string;
  rd_username : string
}.

(** The fields of an [AxiosError] the service reads: [error.code] and
    [error.response?.status]. *)
Record AxiosError := mkAxiosError {
  err_code : option string;
  err_status : option Z
}.

(** How the [axios.get] call ends. *)
Inductive AxiosResult :=
| AxiosResponse (data : option ResponseData)
| AxiosRejected (e : AxiosError)
| ErrorRejected
| UnknownRejected.

Definition code_is (c : option string) (s : string) : bool :=
  match c with Some c' => String.eqb c' s | None => false end.

Definition status_is (st : option Z) (n : Z) : bool :=
  match st with Some s => s =? n | None => false end.

(** The test of line 144: the four error codes of a network failure. *)
Definition networkError (errorCode : option string) : bool :=
  code_is errorCode "ECONNREFUSED" || code_is errorCode "ETIMEDOUT"
  || code_is errorCode "ENOTFOUND" || code_is errorCode "ECONNABORTED".

Definition minimalUser (userId : Z) : UserInfo := mkUserInfo userId "" "".

Module AuthService.
Section WithDecoder.

(** [jwt.decode] of the jsonwebtoken package. *)
Variable jwt_decode : string -> Decoded.

Definition tokenCacheTTL : Z := 600.

Definition parseTokenLocally (now : Z) (token : string) : option Z :=
  match jwt_decode token with
  | DecodeThrows => None
  | DecodedNull => None
  | DecodedPayload decoded =>
      match p_id decoded with
      | None => None
      | Some uid =>
          if negb (truthy uid) then None
          else
            let expired :=
              match p_exp decoded with
              | Some exp =>
                  if truthy exp then exp <? now / 1000 else false
              | None => false
              end in
            if expired then None else Some uid
      end
  end.

(** The [catch] block of [verifyToken], reached with the local id. *)
Definition verifyToken_catch (remote : AxiosResult) (localUserId : Z)
    : Completion (option UserInfo) :=
  let fallback :=
    if truthy localUserId then Return (Some (minimalUser localUserId))
    else Return None in
  match remote with
  | AxiosRejected error =>
      let status := err_status error in
      let errorCode := err_code error in
      if networkError errorCode then
        if truthy localUserId then Return (Some (minimalUser localUserId))
        else Throw (UnauthorizedException "Authentication service unavailable")
      else if status_is status 401 then Return None
      else if status_is status 403 then Return None
      else if status_is status 500 || status_is status 502
              || status_is status 503 || status_is status 504 then
        if truthy localUserId then Return (Some (minimalUser localUserId))
        else Return None
      else fallback
  | _ => fallback
  end.

Definition verifyToken (now : Z) (remote : AxiosResult) (token : string)
    (useCache : bool) (r : Redis) : Completion (option UserInfo) * Redis :=
  if negb (truthy_str token) then (Return None, r)
  else
    match (if useCache then redis_get_tokenUser now token r else None) with
    | Some cachedUserId => (Return (Some (minimalUser cachedUserId)), r)
    | None =>
        match parseTokenLocally now token with
        | None => (Return None, r)
        | Some localUserId =>
            if negb (truthy localUserId) then (Return None, r)
            else
              match remote with
              | AxiosResponse (Some data) =>
                  match rd_id data with
                  | Some uid =>
                      if truthy uid then
                        let userInfo := mkUserInfo uid (rd_email data) (rd_username data) in
                        (Return (Some userInfo),
                         if useCache
                         then redis_setex_tokenUser now token tokenCacheTTL uid r
                         else r)
                      else (Return None, r)
                  | None => (Return None, r)
                  end
              | AxiosResponse None => (Return None, r)
              | _ => (verifyToken_catch remote localUserId, r)
              end
        end
    end.

Definition verifyTokenFast (now : Z) (token : string) (r : Redis) : option Z :=
  if negb (truthy_str token) then None
  else
    match redis_get_tokenUser now token r with
    | Some cachedUserId => Some cachedUserId
    | None => parseTokenLocally now token
    end.

Definition isTokenExpired (now : Z) (token : string) (r : Redis) : bool :=
  match verifyTokenFast now token r with None => true | Some _ => false end.

Definition invalidateTokenCache (token : string) (r : Redis) : Redis :=
  redis_del_tokenUser token r.

End WithDecoder.
End AuthService.

(** ** JavaScript strings of message text

    A message text is a sequence of UTF-16 code units.  [trim] removes
    the WhiteSpace and LineTerminator code points of ECMAScript at both
    ends. *)

Definition jsstring := list N.

Definition isWhiteSpace (c : N) : bool :=
  ((c =? 9) || (c =? 10) || (c =? 11) || (c =? 12) || (c =? 13) || (c =? 32)
   || (c =? 160) || (c =? 5760) || ((8192 <=? c) && (c <=? 8202))
   || (c =? 8232) || (c =? 8233) || (c =? 8239) || (c =? 8287)
   || (c =? 12288) || (c =? 65279))%N.

Fixpoint trimStart (s : jsstring) : jsstring :=
  match s with
  | [] => []
  | c :: s' => if isWhiteSpace c then trimStart s' else s
  end.

Definition trim (s : jsstring) : jsstring := rev (trimStart (rev (trimStart s))).

(** ** The durable store (PostgreSQL, schema [chat])

    Tables as the migrations declare them.  A UUID is an opaque
    identifier; [gen_random_uuid()] is the counter [next_uuid], so every
    row gets an identifier no other row has.  [chat.read_messages] has
    [UNIQUE(message_id, user_id)] and the service never reads its other
    columns: it is the set of those pairs. *)

Definition uuid := N.

Record Chat := mkChat {
  chat_id : uuid;
  buyer_id : Z;
  seller_id : Z;
  chat_created_at : Z
}.

Record Message := mkMessage {
  msg_id : uuid;
  msg_chat_id : uuid;
  sender_id : Z;
  content : jsstring;
  product_id : option Z;
  msg_created_at : Z
}.

Record ChatContext := mkChatContext {
  ctx_chat_id : uuid;
  current_product_id : option Z;
  ctx_updated_at : Z
}.

Record Database := mkDatabase {
  chats : list Chat;
  messages : list Message;
  read_messages : gset (uuid * Z);
  chat_context : list ChatContext;
  next_uuid : N
}.

Definition emptyDatabase : Database := mkDatabase [] [] ∅ [] 0%N.

Definition truthy_opt (o : option Z) : bool :=
  match o with Some n => truthy n | None => false end.

Module MessagesService.

Definition getChatById (chatId : uuid) (d : Database) : option Chat :=
  find (fun c => (chat_id c =? chatId)%N) (chats d).

Definition getChatByUsers (buyerId sellerId : Z) (d : Database) : option Chat :=
  find (fun c => ((buyer_id c =? buyerId) && (seller_id c =? sellerId))
                 || ((buyer_id c =? sellerId) && (seller_id c =? buyerId)))
       (chats d).

Definition getChatContext (chatId : uuid) (d : Database) : option ChatContext :=
  find (fun x => (ctx_chat_id x =? chatId)%N) (chat_context d).

(** [INSERT INTO chat.chat_context ... ON CONFLICT (chat_id) DO UPDATE]. *)
Fixpoint upsertContext (row : ChatContext) (l : list ChatContext) : list ChatContext :=
  match l with
  | [] => [row]
  | x :: l' =>
      if (ctx_chat_id x =? ctx_chat_id row)%N then row :: l'
      else x :: upsertContext row l'
  end.

Definition updateChatContext (now : Z) (chatId : uuid) (newProductId : Z)
    (d : Database) : Database :=
  let messagesCount :=
    Z.of_nat (length (List.filter (fun m => (msg_chat_id m =? chatId)%N) (messages d))) in
  let hasMessages := 0 <? messagesCount in
  if hasMessages then d
  else
    let fresh :=
      match getChatContext chatId d with
      | Some existingContext => negb (truthy_opt (current_product_id existingContext))
      | None => true
      end in
    if fresh then
      mkDatabase (chats d) (messages d) (read_messages d)
        (upsertContext (mkChatContext chatId (Some newProductId) now) (chat_context d))
        (next_uuid d)
    else d.

(** [ORDER BY created_at DESC LIMIT 1]: a row of greatest [created_at]
    (of equal ones, the one inserted last). *)
Definition latest (l : list Message) : option Message :=
  fold_left (fun best m =>
               match best with
               | None => Some m
               | Some b => if msg_created_at b <=? msg_created_at m then Some m else Some b
               end) l None.

Definition insertMessage (now : Z) (chatId : uuid) (senderId : Z) (text : jsstring)
    (productId : option Z) (d : Database) : Message * Database :=
  let row := mkMessage (next_uuid d) chatId senderId text productId now in
  (row, mkDatabase (chats d) (messages d ++ [row]) (read_messages d)
                   (chat_context d) (N.succ (next_uuid d))).

Definition createProductContextMessage (now : Z) (chatId : uuid) (senderId productId : Z)
    (d : Database) : Database :=
  let lastProduct :=
    latest (List.filter (fun m => (msg_chat_id m =? chatId)%N
                             && match product_id m with Some _ => true | None => false end)
                   (messages d)) in
  let same :=
    match lastProduct with
    | Some m => match product_id m with Some p => p =? productId | None => false end
    | None => false
    end in
  if same then d else snd (insertMessage now chatId senderId [] (Some productId) d).

(** [INSERT INTO chat.chats (buyer_id, seller_id) VALUES ($1, $2)
     ON CONFLICT (buyer_id, seller_id) DO UPDATE SET buyer_id = EXCLUDED.buyer_id
     RETURNING *]: the conflict target is the constraint
    [UNIQUE(buyer_id, seller_id)] of the base schema; on conflict the
    row is rewritten with the value it has and returned. *)
Definition insertChat (now : Z) (buyerId sellerId : Z) (d : Database) : Chat * Database :=
  match find (fun c => (buyer_id c =? buyerId) && (seller_id c =? sellerId)) (chats d) with
  | Some c => (c, d)
  | None =>
      let row := mkChat (next_uuid d) buyerId sellerId now in
      (row, mkDatabase (chats d ++ [row]) (messages d) (read_messages d)
                       (chat_context d) (N.succ (next_uuid d)))
  end.

Definition createChat (now : Z) (buyerId sellerId : Z) (productId : option Z)
    (d : Database) : Chat * Database :=
  let '(chat, d1) := insertChat now buyerId sellerId d in
  match productId with
  | Some p =>
      if truthy p then
        let context := getChatContext (chat_id chat) d1 in
        let noProduct :=
          match context with
          | Some x => negb (truthy_opt (current_product_id x))
          | None => true
          end in
        if noProduct then (chat, updateChatContext now (chat_id chat) p d1)
        else (chat, createProductContextMessage now (chat_id chat) buyerId p d1)
      else (chat, d1)
  | None => (chat, d1)
  end.

(** [productId || null] is stored. *)
Definition createMessage (now : Z) (chatId : uuid) (senderId : Z) (text : jsstring)
    (productId : option Z) (d : Database) : Message * Database :=
  insertMessage now chatId senderId text
    (if truthy_opt productId then productId else None) d.

(** The chats of a user; callers here only iterate over them, so the
    [ORDER BY] and the joined settings columns are left out. *)
Definition getUserChats (userId : Z) (d : Database) : list Chat :=
  List.filter (fun c => (buyer_id c =? userId) || (seller_id c =? userId)) (chats d).

Definition messageExists (messageId : uuid) (d : Database) : bool :=
  existsb (fun m => (msg_id m =? messageId)%N) (messages d).

Definition insertRead (messageId : uuid) (userId : Z) (d : Database) : Database :=
  mkDatabase (chats d) (messages d) ({[(messageId, userId)]} ∪ read_messages d)
             (chat_context d) (next_uuid d).

(** [INSERT INTO chat.read_messages ... ON CONFLICT DO NOTHING]; the
    foreign key on [message_id] rejects an unknown message. *)
Definition markMessageAsRead (messageId : uuid) (userId : Z) (d : Database)
    : bool * Database :=
  if messageExists messageId d then (true, insertRead messageId userId d)
  else (false, d).

Definition markChatMessagesAsRead (chatId : uuid) (userId : Z) (d : Database) : Database :=
  fold_left (fun acc m => insertRead (msg_id m) userId acc)
    (List.filter (fun m => (msg_chat_id m =? chatId)%N && negb (sender_id m =? userId))
            (messages d))
    d.

Definition unread (chatId : uuid) (userId : Z) (d : Database) (m : Message) : bool :=
  (msg_chat_id m =? chatId)%N && negb (sender_id m =? userId)
  && negb (bool_decide ((msg_id m, userId) ∈ read_messages d)).

Definition getUnreadCountForChat (chatId : uuid) (userId : Z) (d : Database) : Z :=
  Z.of_nat (length (List.filter (unread chatId userId d) (messages d))).

End MessagesService.

(** ** ChatGateway *)

(** socket.io rooms.  A socket is in the room named by its own id from
    the moment it connects; the gateway names two further families of
    rooms, [chat:${chatId}] and [user:${userId}]. *)
Inductive Room :=
| SocketRoom (socketId : string)
| ChatRoom (chatId : uuid)
| UserRoom (userId : Z).

#[global] Instance Room_eq_dec : EqDecision Room.
Proof. solve_decision. Defined.

#[global] Instance Room_countable : Countable Room.
Proof.
  refine (inj_countable'
    (fun r => match r with
              | SocketRoom s => inl s
              | ChatRoom c => inr (inl c)
              | UserRoom u => inr (inr u)
              end)
    (fun x => match x with
              | inl s => SocketRoom s
              | inr (inl c) => ChatRoom c
              | inr (inr u) => UserRoom u
              end) _).
  intros []; reflexivity.
Defined.

(** [AuthenticatedSocket]: the two session fields, and the rooms the
    socket is in. *)
Record Socket := mkSocket {
  userId : option Z;
  token : option string;
  rooms : gset Room
}.

Definition newSocket (socketId : string) : Socket :=
  mkSocket None None {[SocketRoom socketId]}.

Inductive Event :=
| auth_error (error code : string)
| auth_token_expired (error code : string)
| user_online (userId : Z)
| user_offline (userId : Z)
| message_new (id chatId : uuid) (senderId : Z) (text : jsstring)
              (productId : option Z) (createdAt : Z)
| unread_updated (chatId : uuid) (unreadCount : Z)
| message_read (chatId : uuid) (userId : Z)
| chat_created (id : uuid) (buyerId sellerId : Z) (createdAt : Z).

(** The argument of [notificationsService.sendOfflineChatEmail]. *)
Record OfflineChatEmail := mkOfflineChatEmail {
  recipientId : Z;
  senderId : Z;
  email_chatId : uuid;
  messageText : jsstring;
  email_productId : option Z
}.

(** What a handler returns to the caller. *)
Inductive Ack :=
| ack_undefined
| ack_error (error : string) (code : option string)
| ack_message (message : Message)
| ack_chat (chat : Chat)
| ack_userId (userId : Z)
| ack_unreadCount (unreadCount : Z).

(** The gateway with everything it acts on: its registry [userSockets],
    the sockets the server holds, Redis, the store, the events delivered
    so far (socket id, event; oldest first) and the notification calls
    made so far (oldest first). *)
Record Gateway := mkGateway {
  userSockets : gmap Z (gset string);
  sockets : gmap string Socket;
  redis : Redis;
  db : Database;
  delivered : list (string * Event);
  notifications : list OfflineChatEmail
}.

Definition emptyGateway : Gateway := mkGateway ∅ ∅ emptyRedis emptyDatabase [] [].

Definition set_userSockets (f : gmap Z (gset string) -> gmap Z (gset string)) (g : Gateway) :=
  mkGateway (f (userSockets g)) (sockets g) (redis g) (db g) (delivered g) (notifications g).
Definition set_sockets (f : gmap string Socket -> gmap string Socket) (g : Gateway) :=
  mkGateway (userSockets g) (f (sockets g)) (redis g) (db g) (delivered g) (notifications g).
Definition set_redis (f : Redis -> Redis) (g : Gateway) :=
  mkGateway (userSockets g) (sockets g) (f (redis g)) (db g) (delivered g) (notifications g).
Definition set_db (d : Database) (g : Gateway) :=
  mkGateway (userSockets g) (sockets g) (redis g) d (delivered g) (notifications g).
Definition deliver (l : list (string * Event)) (g : Gateway) :=
  mkGateway (userSockets g) (sockets g) (redis g) (db g) (delivered g ++ l) (notifications g).
Definition notify (e : OfflineChatEmail) (g : Gateway) :=
  mkGateway (userSockets g) (sockets g) (redis g) (db g) (delivered g) (notifications g ++ [e]).

(** The socket object a handler is called with. *)
Definition client (socketId : string) (g : Gateway) : Socket :=
  default (newSocket socketId) (sockets g !! socketId).

(** The sockets in a room, and the four ways of emitting. *)
Definition roomMembers (room : Room) (g : Gateway) : list string :=
  (List.filter (fun p => bool_decide (room ∈ rooms (snd p))) (map_to_list (sockets g))).*1.

Definition client_emit (socketId : string) (e : Event) (g : Gateway) : Gateway :=
  deliver [(socketId, e)] g.

Definition server_emit (e : Event) (g : Gateway) : Gateway :=
  deliver (List.map (fun p => (fst p, e)) (map_to_list (sockets g))) g.

Definition server_to_emit (room : Room) (e : Event) (g : Gateway) : Gateway :=
  deliver (List.map (fun s => (s, e)) (roomMembers room g)) g.

Definition socket_join (socketId : string) (room : Room) (g : Gateway) : Gateway :=
  set_sockets (alter (fun s => mkSocket (userId s) (token s) ({[room]} ∪ rooms s)) socketId) g.

(** [client.disconnect()] on a socket whose [userId] is not set: the
    server drops the socket; [handleDisconnect] then returns at its
    first test. *)
Definition client_disconnect (socketId : string) (g : Gateway) : Gateway :=
  set_sockets (delete socketId) g.

Definition set_session (socketId : string) (uid : Z) (tok : string) (g : Gateway) : Gateway :=
  set_sockets (fun m => <[socketId := mkSocket (Some uid) (Some tok) (rooms (client socketId g))]> m) g.

Record SendMessageDto := mkSendMessageDto {
  sm_chatId : uuid;
  sm_text : jsstring;
  sm_productId : option Z
}.

Record CreateChatDto := mkCreateChatDto {
  buyerId : Z;
  sellerId : Z
}.

Record MarkReadDto := mkMarkReadDto {
  mr_chatId : uuid;
  mr_messageIds : option (list uuid)
}.

(** The test every action handler starts with. *)
Inductive SessionCheck :=
| Unauthorized
| TokenExpired
| Authorized (uid : Z) (tok : string).

Module ChatGateway.
Section WithDecoder.

Variable jwt_decode : string -> Decoded.

Definition checkSession (now : Z) (socketId : string) (g : Gateway) : SessionCheck :=
  match userId (client socketId g), token (client socketId g) with
  | Some uid, Some tok =>
      if negb (truthy uid) || negb (truthy_str tok) then Unauthorized
      else
        match AuthService.verifyTokenFast jwt_decode now tok (redis g) with
        | Some fast =>
            if negb (truthy fast) || negb (fast =? uid) then TokenExpired
            else Authorized uid tok
        | None => TokenExpired
        end
  | _, _ => Unauthorized
  end.

Definition requireToken (socketId : string) (g : Gateway) : Gateway * Ack :=
  (client_emit socketId (auth_error "Authentication required" "TOKEN_REQUIRED") g,
   ack_error "Unauthorized" None).

Definition tokenExpired (socketId : string) (g : Gateway) : Gateway * Ack :=
  (client_emit socketId (auth_token_expired "Token expired" "TOKEN_EXPIRED") g,
   ack_error "Token expired" (Some "TOKEN_EXPIRED")).

Definition registerSocket (uid : Z) (socketId : string) (m : gmap Z (gset string))
    : gmap Z (gset string) :=
  <[uid := {[socketId]} ∪ default ∅ (m !! uid)]> m.

Definition handleConnection (now : Z) (remote : AxiosResult) (socketId : string)
    (handshakeToken : option string) (g : Gateway) : Gateway :=
  let tok := default "" handshakeToken in
  if negb (truthy_str tok) then
    client_disconnect socketId
      (client_emit socketId (auth_error "Authentication token required" "TOKEN_REQUIRED") g)
  else
    let '(res, r) := AuthService.verifyToken jwt_decode now remote tok true (redis g) in
    let g := set_redis (fun _ => r) g in
    match res with
    | Throw _ =>
        client_disconnect socketId
          (client_emit socketId (auth_error "Authentication service error" "AUTH_SERVICE_ERROR") g)
    | Return None =>
        client_disconnect socketId
          (client_emit socketId (auth_error "Invalid or expired token" "TOKEN_INVALID") g)
    | Return (Some userInfo) =>
        let uid := ui_id userInfo in
        let g := set_session socketId uid tok g in
        let g := set_userSockets (registerSocket uid socketId) g in
        let g := set_redis (RedisService.setUserOnline now uid socketId) g in
        let g := server_emit (user_online uid) g in
        fold_left (fun g chat => socket_join socketId (ChatRoom (chat_id chat)) g)
                  (MessagesService.getUserChats uid (db g)) g
    end.

(** A transport connection: the server creates the socket, then the
    gateway's [handleConnection] runs on it. *)
Definition connect (now : Z) (remote : AxiosResult) (socketId : string)
    (handshakeToken : option string) (g : Gateway) : Gateway :=
  handleConnection now remote socketId handshakeToken
    (set_sockets (fun m => <[socketId := newSocket socketId]> m) g).

(** The socket has left the server when [handleDisconnect] runs; the
    handler still reads the session fields of the socket object. *)
Definition handleDisconnect (socketId : string) (g : Gateway) : Gateway :=
  let c := client socketId g in
  let g := set_sockets (delete socketId) g in
  match userId c with
  | None => g
  | Some uid =>
      if negb (truthy uid) then g
      else
        match userSockets g !! uid with
        | Some userSocketSet =>
            let remaining := userSocketSet ∖ {[socketId]} in
            if decide (size remaining = 0%nat) then
              server_emit (user_offline uid)
                (set_redis (RedisService.removeUserOnline uid)
                   (set_userSockets (delete uid) g))
            else set_userSockets (fun m => <[uid := remaining]> m) g
        | None => g
        end
  end.

Definition otherParticipant (chat : Chat) (uid : Z) : Z :=
  if buyer_id chat =? uid then seller_id chat else buyer_id chat.

Definition isParticipant (chat : Chat) (uid : Z) : bool :=
  (buyer_id chat =? uid) || (seller_id chat =? uid).

Definition handleMessage (now : Z) (data : SendMessageDto) (socketId : string)
    (g : Gateway) : Gateway * Ack :=
  match checkSession now socketId g with
  | Unauthorized => requireToken socketId g
  | TokenExpired => tokenExpired socketId g
  | Authorized uid _ =>
      match MessagesService.getChatById (sm_chatId data) (db g) with
      | None => (g, ack_error "Chat not found" None)
      | Some chat =>
          if negb (isParticipant chat uid) then (g, ack_error "Access denied" None)
          else
            let recipient := otherParticipant chat uid in
            let '(message, d) :=
              MessagesService.createMessage now (sm_chatId data) uid (sm_text data)
                (sm_productId data) (db g) in
            let g := set_db d g in
            let recipientUnreadCount :=
              MessagesService.getUnreadCountForChat (sm_chatId data) recipient (db g) in
            let g :=
              server_to_emit (ChatRoom (sm_chatId data))
                (message_new (msg_id message) (msg_chat_id message) (sender_id message)
                   (content message) (product_id message) (msg_created_at message)) g in
            let g :=
              match userSockets g !! recipient with
              | Some recipientSockets =>
                  fold_left (fun g sid =>
                               server_to_emit (SocketRoom sid)
                                 (unread_updated (sm_chatId data) recipientUnreadCount) g)
                            (elements recipientSockets) g
              | None => g
              end in
            let isRecipientOnline := RedisService.isUserOnline now recipient (redis g) in
            let g :=
              if negb isRecipientOnline
                 && match sm_text data with [] => false | _ => true end
                 && (0 <? Z.of_nat (length (trim (sm_text data))))
              then notify (mkOfflineChatEmail recipient uid (sm_chatId data)
                             (sm_text data) (sm_productId data)) g
              else g in
            (g, ack_message message)
      end
  end.

Definition joinAll (room : Room) (socketIds : option (gset string)) (g : Gateway) : Gateway :=
  match socketIds with
  | Some ids => fold_left (fun g sid => socket_join sid room g) (elements ids) g
  | None => g
  end.

Definition handleCreateChat (now : Z) (data : CreateChatDto) (socketId : string)
    (g : Gateway) : Gateway * Ack :=
  match checkSession now socketId g with
  | Unauthorized => requireToken socketId g
  | TokenExpired => tokenExpired socketId g
  | Authorized uid _ =>
      if negb (uid =? buyerId data) && negb (uid =? sellerId data)
      then (g, ack_error "Access denied" None)
      else
        let '(chat, d) :=
          MessagesService.createChat now (buyerId data) (sellerId data) None (db g) in
        let g := set_db d g in
        let buyerSockets := userSockets g !! buyerId data in
        let sellerSockets := userSockets g !! sellerId data in
        let g := joinAll (ChatRoom (chat_id chat)) buyerSockets g in
        let g := joinAll (ChatRoom (chat_id chat)) sellerSockets g in
        let g :=
          server_to_emit (ChatRoom (chat_id chat))
            (chat_created (chat_id chat) (buyer_id chat) (seller_id chat)
               (chat_created_at chat)) g in
        (g, ack_chat chat)
  end.

Definition handleRefreshToken (now : Z) (remote : AxiosResult) (newToken : string)
    (socketId : string) (g : Gateway) : Gateway * Ack :=
  if negb (truthy_str newToken) then (g, ack_error "Token required" None)
  else
    let '(res, r) := AuthService.verifyToken jwt_decode now remote newToken true (redis g) in
    let g := set_redis (fun _ => r) g in
    match res with
    | Throw _ => (g, ack_error "Failed to refresh token" None)
    | Return None => (g, ack_error "Invalid token" None)
    | Return (Some userInfo) =>
        let g := set_session socketId (ui_id userInfo) newToken g in
        let g := set_redis (RedisService.setUserOnline now (ui_id userInfo) socketId) g in
        (g, ack_userId (ui_id userInfo))
    end.

(** [Promise.all] over [markMessageAsRead]: every insert is issued;
    the whole rejects when one of them does. *)
Definition markEach (messageIds : list uuid) (uid : Z) (d : Database) : bool * Database :=
  fold_left (fun acc msgId =>
               let '(ok, d') := MessagesService.markMessageAsRead msgId uid (snd acc) in
               (fst acc && ok, d'))
            messageIds (true, d).

Definition handleMarkMessagesAsRead (now : Z) (data : MarkReadDto) (socketId : string)
    (g : Gateway) : Gateway * Ack :=
  match checkSession now socketId g with
  | Unauthorized => requireToken socketId g
  | TokenExpired => tokenExpired socketId g
  | Authorized uid _ =>
      match MessagesService.getChatById (mr_chatId data) (db g) with
      | None => (g, ack_error "Access denied" None)
      | Some chat =>
          if negb (isParticipant chat uid) then (g, ack_error "Access denied" None)
          else
            let '(ok, d) :=
              match mr_messageIds data with
              | Some (msgId :: ids) => markEach (msgId :: ids) uid (db g)
              | _ => (true, MessagesService.markChatMessagesAsRead (mr_chatId data) uid (db g))
              end in
            let g := set_db d g in
            if negb ok then (g, ack_error "Failed to mark messages as read" None)
            else
              let unreadCount :=
                MessagesService.getUnreadCountForChat (mr_chatId data) uid (db g) in
              let g := client_emit socketId (unread_updated (mr_chatId data) unreadCount) g in
              let recipient := otherParticipant chat uid in
              let g :=
                server_to_emit (UserRoom recipient) (message_read (mr_chatId data) uid) g in
              (g, ack_unreadCount unreadCount)
      end
  end.

End WithDecoder.
End ChatGateway.

(** [verifyToken] reaches its [axios.get] call: a token was given, the
    cache did not answer, and the local check passed. *)
Definition callsRemote (jwt_decode : string -> Decoded) (now : Z) (token : string)
    (useCache : bool) (r : Redis) : bool :=
  truthy_str token
  && match (if useCache then redis_get_tokenUser now token r else None) with
     | Some _ => false
     | None => match AuthService.parseTokenLocally jwt_decode now token with
               | Some _ => true
               | None => false
               end
     end.

(** A decoder for the examples: a few tokens with known claims, one
    on which decoding throws, every other string undecodable. *)
Definition sampleDecode (token : string) : Decoded :=
  if String.eqb token "alice.valid" then DecodedPayload (mkJWTPayload (Some 7) None (Some 2000))
  else if String.eqb token "alice.expiring" then DecodedPayload (mkJWTPayload (Some 7) None (Some 1000))
  else if String.eqb token "bob.valid" then DecodedPayload (mkJWTPayload (Some 8) None None)
  else if String.eqb token "alice.exp0" then DecodedPayload (mkJWTPayload (Some 7) None (Some 0))
  else if String.eqb token "zero.valid" then DecodedPayload (mkJWTPayload (Some 0) None (Some 2000))
  else if String.eqb token "anonymous" then DecodedPayload (mkJWTPayload None None (Some 2000))
  else if String.eqb token "throws" then DecodeThrows
  else DecodedNull.

(** Two gateways that differ at most in the rooms of their sockets and
    in the events delivered. *)
Definition sameButRoomsAndEvents (g g' : Gateway) : Prop :=
  userSockets g' = userSockets g /\ redis g' = redis g /\ db g' = db g
  /\ notifications g' = notifications g
  /\ (forall sid, userId (client sid g') = userId (client sid g)
                  /\ token (client sid g') = token (client sid g))
  /\ dom (sockets g') = dom (sockets g).

(** ** The gateway as a machine

    One inbound event of the transport.  The server creates a socket at
    a connection under an identifier no live socket has, and dispatches
    the events of live sockets only. *)
Inductive Action :=
| Connection (now : Z) (remote : AxiosResult) (socketId : string)
             (handshakeToken : option string)
| Disconnection (socketId : string)
| MessageSend (now : Z) (data : SendMessageDto) (socketId : string)
| ChatCreate (now : Z) (data : CreateChatDto) (socketId : string)
| AuthRefreshToken (now : Z) (remote : AxiosResult) (newToken : string) (socketId : string)
| MessageMarkRead (now : Z) (data : MarkReadDto) (socketId : string).

Definition isLive (socketId : string) (g : Gateway) : bool :=
  match sockets g !! socketId with Some _ => true | None => false end.

Definition run (jwt_decode : string -> Decoded) (g : Gateway) (a : Action) : Gateway :=
  match a with
  | Connection now remote sid tok =>
      if isLive sid g then g else ChatGateway.connect jwt_decode now remote sid tok g
  | Disconnection sid =>
      if isLive sid g then ChatGateway.handleDisconnect sid g else g
  | MessageSend now data sid =>
      if isLive sid g then fst (ChatGateway.handleMessage jwt_decode now data sid g) else g
  | ChatCreate now data sid =>
      if isLive sid g then fst (ChatGateway.handleCreateChat jwt_decode now data sid g) else g
  | AuthRefreshToken now remote tok sid =>
      if isLive sid g
      then fst (ChatGateway.handleRefreshToken jwt_decode now remote tok sid g) else g
  | MessageMarkRead now data sid =>
      if isLive sid g
      then fst (ChatGateway.handleMarkMessagesAsRead jwt_decode now data sid g) else g
  end.

Definition runAll (jwt_decode : string -> Decoded) (l : list Action) (g : Gateway) : Gateway :=
  fold_left (run jwt_decode) l g.

(** The states the service can be in: those a sequence of events leads
    to from the start. *)
Definition reachable (jwt_decode : string -> Decoded) (g : Gateway) : Prop :=
  exists l, g = runAll jwt_decode l emptyGateway.

(** No socket is in a room [user:${id}]. *)
Definition noUserRoom (g : Gateway) : Prop :=
  forall sid s u, sockets g !! sid = Some s -> UserRoom u ∉ rooms s.

Definition isMessageRead (p : string * Event) : bool :=
  match snd p with message_read _ _ => true | _ => false end.


(** The local sessions of a user, as the registry has them. *)
Definition localSessions (uid : Z) (g : Gateway) : gset string :=
  default ∅ (userSockets g !! uid).

(** A 2xx answer of the identity service for a user id. *)
Definition identityOf (uid : Z) : AxiosResult :=
  AxiosResponse (Some (mkResponseData (Some uid) "" "")).

(** No socket is in a [user:] room and no [message:read] event has been
    delivered to any socket. *)
Definition neverRead (g : Gateway) : Prop :=
  noUserRoom g /\ Forall (fun p => isMessageRead p = false) (delivered g).

Definition isRead (e : Event) : bool :=
  match e with message_read _ _ => true | _ => false end.

Definition isUserRoom (room : Room) : bool :=
  match room with UserRoom _ => true | _ => false end.

(** The scenario of the examples: alice (7) opens socket [sA], bob (8)
    opens [sB], alice creates their chat (it gets the first UUID) and
    sends ["hi"]. *)
Definition aliceAndBob : list Action :=
  [ Connection 100000 (identityOf 7) "sA" (Some "alice.valid");
    Connection 100000 (identityOf 8) "sB" (Some "bob.valid");
    ChatCreate 100001 (mkCreateChatDto 7 8) "sA";
    MessageSend 100002 (mkSendMessageDto 0%N [104%N; 105%N] None) "sA" ].

(** The conflict test of [createChat]: a row with this buyer and this
    seller, in this order. *)
Definition chatOf (buyerId sellerId : Z) (d : Database) : option Chat :=
  find (fun c => (buyer_id c =? buyerId) && (seller_id c =? sellerId)) (chats d).

(** Connect-time authentication of a token succeeds with user [uid]. *)
Definition authenticatesAs (jwt_decode : string -> Decoded) (now : Z) (remote : AxiosResult)
    (tok : string) (r : Redis) (uid : Z) : Prop :=
  tok <> ""
  /\ exists userInfo r',
       AuthService.verifyToken jwt_decode now remote tok true r = (Return (Some userInfo), r')
       /\ ui_id userInfo = uid.

(** Two gateways with the same registry, the same Redis and the same
    session fields on every socket. *)
Definition sameSessions (g g' : Gateway) : Prop :=
  userSockets g' = userSockets g /\ redis g' = redis g
  /\ (forall sid, userId (client sid g') = userId (client sid g)
                  /\ token (client sid g') = token (client sid g)).

(** An [auth:refresh-token] that succeeds with a user id other than the
    one the session carries. *)
Definition rebinds (jwt_decode : string -> Decoded) (g : Gateway) (a : Action) : Prop :=
  match a with
  | AuthRefreshToken now remote tok sid =>
      exists uid,
        snd (ChatGateway.handleRefreshToken jwt_decode now remote tok sid g) = ack_userId uid
        /\ userId (client sid g) <> Some uid
  | _ => False
  end.

(** The states reached from the start without such a refresh. *)
Inductive reachableUnrebound (jwt_decode : string -> Decoded) : Gateway -> Prop :=
| unrebound_start : reachableUnrebound jwt_decode emptyGateway
| unrebound_step g a :
    reachableUnrebound jwt_decode g -> ~ rebinds jwt_decode g a ->
    reachableUnrebound jwt_decode (run jwt_decode g a).

(** No cached token resolves to the falsy id 0. *)
Definition cacheNonzero (r : Redis) : Prop :=
  forall tok v e, tokenUser r !! tok = Some (v, e) -> v <> 0.

(** The registry files a socket under the user id its session carries. *)
Definition filedUnderSessionUser (g : Gateway) : Prop :=
  forall uid ids sid, userSockets g !! uid = Some ids -> sid ∈ ids ->
                      uid <> 0 /\ userId (client sid g) = Some uid.

Definition registryAgrees (g : Gateway) : Prop :=
  filedUnderSessionUser g /\ cacheNonzero (redis g).

(** ** RedisService, the remaining operations on the keys above *)

Module RedisServiceRest.

(** [getOnlineUsers]: every member of [online:users] is tested with
    [isUserOnline]; a live one is pushed on the result, a stale one is
    removed from the set.  [SMEMBERS] gives the members in no fixed
    order; [elements] stands for it. *)
Definition getOnlineUsers (now : Z) (r : Redis) : list Z * Redis :=
  fold_left (fun acc uid =>
               if RedisService.isUserOnline now uid (snd acc)
               then ((fst acc ++ [uid])%list, snd acc)
               else (fst acc, redis_srem_onlineUsers uid (snd acc)))
            (elements (onlineUsers r)) ([], r).

Definition cacheTokenVerification (now : Z) (token : string) (uid : Z) (ttl : Z)
    (r : Redis) : Redis :=
  redis_setex_tokenUser now token ttl uid r.

Definition getCachedTokenUserId (now : Z) (token : string) (r : Redis) : option Z :=
  redis_get_tokenUser now token r.

Definition invalidateTokenCache (token : string) (r : Redis) : Redis :=
  redis_del_tokenUser token r.

End RedisServiceRest.

(** ** MessagesService, the remaining queries *)

(** [ORDER BY created_at]: rows of equal [created_at] come in an order
    PostgreSQL does not fix; the sort used here fixes one. *)
Definition createdNotAfter (a b : Message) : Prop := msg_created_at a <= msg_created_at b.

#[global] Instance createdNotAfter_dec a b : Decision (createdNotAfter a b).
Proof. unfold createdNotAfter. apply _. Defined.

#[global] Instance createdNotAfter_total : Total createdNotAfter.
Proof. intros a b. unfold createdNotAfter. lia. Qed.

#[global] Instance createdNotAfter_trans : Transitive createdNotAfter.
Proof. intros a b c. unfold createdNotAfter. lia. Qed.

(** [ORDER BY created_at]: SQL leaves the order of rows of equal
    [created_at] open; the sort here keeps them in table order. *)
Definition orderByCreatedAt (l : list Message) : list Message :=
  merge_sort createdNotAfter l.

Definition inChat (chatId : uuid) (m : Message) : bool := (msg_chat_id m =? chatId)%N.

(** The table [chat.user_chat_settings]: one row of two flags for a
    chat and a user, [UNIQUE(chat_id, user_id)]. *)
Record ChatSettings := mkChatSettings {
  is_archived : bool;
  is_favorite : bool
}.

Definition UserChatSettings := gmap (uuid * Z) ChatSettings.

Module MessagesServiceRest.

(** [SELECT ... WHERE chat_id = $1 ORDER BY created_at DESC LIMIT $2
    OFFSET $3], then [rows.reverse()].  PostgreSQL refuses a negative
    LIMIT or OFFSET: the query then fails. *)
Definition getMessages (chatId : uuid) (limit offset : Z) (d : Database)
    : option (list Message) :=
  if (limit <? 0) || (offset <? 0) then None
  else
    let rows := rev (orderByCreatedAt (List.filter (inChat chatId) (messages d))) in
    Some (rev (firstn (Z.to_nat limit) (skipn (Z.to_nat offset) rows))).

Definition getChatMessages (chatId : uuid) (limit offset : Z) (d : Database)
    : option (list Message) :=
  getMessages chatId limit offset d.

Definition getLastMessage (chatId : uuid) (d : Database) : option Message :=
  MessagesService.latest (List.filter (inChat chatId) (messages d)).

(** The chat with its latest 100 messages, for a participant only. *)
Definition getChatWithMessages (chatId : uuid) (uid : Z) (d : Database)
    : option (Chat * list Message) :=
  match find (fun c => (chat_id c =? chatId)%N
                       && ((buyer_id c =? uid) || (seller_id c =? uid))) (chats d) with
  | None => None
  | Some c =>
      match getMessages chatId 100 0 d with
      | Some msgs => Some (c, msgs)
      | None => None
      end
  end.

(** The legacy [UPDATE chat.messages SET created_at = created_at WHERE
    chat_id = $1 AND sender_id != $2]. *)
Definition markChatAsRead (chatId : uuid) (uid : Z) (d : Database) : Database :=
  mkDatabase (chats d)
    (List.map (fun m =>
                 if (msg_chat_id m =? chatId)%N && negb (sender_id m =? uid)
                 then mkMessage (msg_id m) (msg_chat_id m) (sender_id m) (content m)
                                (product_id m) (msg_created_at m)
                 else m) (messages d))
    (read_messages d) (chat_context d) (next_uuid d).

(** The legacy [UPDATE chat.messages SET created_at = created_at WHERE
    id = ANY($1) AND sender_id != $2]; no query for an empty list. *)
Definition markMessagesAsRead (messageIds : list uuid) (uid : Z) (d : Database) : Database :=
  match messageIds with
  | [] => d
  | _ =>
      mkDatabase (chats d)
        (List.map (fun m =>
                     if existsb (fun i => (msg_id m =? i)%N) messageIds
                        && negb (sender_id m =? uid)
                     then mkMessage (msg_id m) (msg_chat_id m) (sender_id m) (content m)
                                    (product_id m) (msg_created_at m)
                     else m) (messages d))
        (read_messages d) (chat_context d) (next_uuid d)
  end.

(** The [status] argument is not used: the chat is read back. *)
Definition updateChatStatus (chatId : uuid) (status : string) (d : Database) : option Chat :=
  find (fun c => (chat_id c =? chatId)%N) (chats d).

Definition isMessageRead (messageId : uuid) (uid : Z) (d : Database) : bool :=
  bool_decide ((messageId, uid) ∈ read_messages d).

Definition getUnreadMessageIds (chatId : uuid) (uid : Z) (d : Database) : list uuid :=
  List.map msg_id
    (orderByCreatedAt (List.filter (MessagesService.unread chatId uid d) (messages d))).

(** The rows of [getUnreadCountsForUserChats] before grouping: the
    messages of chats the user takes part in, not sent by the user and
    without a receipt of the user. *)
Definition unreadOfUser (uid : Z) (d : Database) (m : Message) : bool :=
  match MessagesService.getChatById (msg_chat_id m) d with
  | Some c => (buyer_id c =? uid) || (seller_id c =? uid)
  | None => false
  end
  && negb (sender_id m =? uid)
  && negb (bool_decide ((msg_id m, uid) ∈ read_messages d)).

(** [GROUP BY m.chat_id] with [COUNT( * )], collected in a [Map]. *)
Definition getUnreadCountsForUserChats (uid : Z) (d : Database) : gmap uuid Z :=
  fold_left (fun acc m =>
               <[msg_chat_id m := default 0 (acc !! msg_chat_id m) + 1]> acc)
            (List.filter (unreadOfUser uid d) (messages d)) ∅.

(** Every id starts as unread; the ids with a receipt of the user are
    then set to read.  An empty list asks nothing. *)
Definition getMessagesReadStatus (messageIds : list uuid) (uid : Z) (d : Database)
    : gmap uuid bool :=
  match messageIds with
  | [] => ∅
  | _ =>
      let rows := List.filter (fun i => isMessageRead i uid d) messageIds in
      let readStatus := fold_left (fun acc i => <[i := false]> acc) messageIds ∅ in
      fold_left (fun acc i => <[i := true]> acc) rows readStatus
  end.

(** The greatest [created_at] of a chat: [MAX(created_at) ... GROUP BY
    chat_id]. *)
Definition maxCreatedAt (chatId : uuid) (d : Database) : option Z :=
  fold_left (fun acc m =>
               match acc with
               | None => Some (msg_created_at m)
               | Some t => Some (Z.max t (msg_created_at m))
               end)
            (List.filter (inChat chatId) (messages d)) None.

(** The rows of the asked chats that carry their chat's greatest
    [created_at], collected in a [Map] keyed by chat: of several rows
    of one chat the one set last stays.  The rows come in table order
    here; SQL leaves their order open. *)
Definition getLastMessagesForChats (chatIds : list uuid) (d : Database)
    : gmap uuid Message :=
  match chatIds with
  | [] => ∅
  | _ =>
      let rows :=
        List.filter (fun m =>
                       existsb (fun c => (msg_chat_id m =? c)%N) chatIds
                       && match maxCreatedAt (msg_chat_id m) d with
                          | Some t => msg_created_at m =? t
                          | None => false
                          end) (messages d) in
      fold_left (fun acc row => <[msg_chat_id row := row]> acc) rows ∅
  end.

(** [INSERT INTO chat.user_chat_settings (chat_id, user_id, is_archived)
    ... ON CONFLICT (chat_id, user_id) DO UPDATE SET is_archived = $3]:
    a new row takes the column default [FALSE] for the other flag, an
    existing row keeps it.  The foreign key on [chat_id] rejects an
    unknown chat. *)
Definition toggleChatArchive (chatId : uuid) (uid : Z) (isArchived : bool)
    (d : Database) (s : UserChatSettings) : option UserChatSettings :=
  match MessagesService.getChatById chatId d with
  | None => None
  | Some _ =>
      Some (<[(chatId, uid) :=
               mkChatSettings isArchived
                 (match s !! (chatId, uid) with
                  | Some row => is_favorite row
                  | None => false
                  end)]> s)
  end.

Definition toggleChatFavorite (chatId : uuid) (uid : Z) (isFavorite : bool)
    (d : Database) (s : UserChatSettings) : option UserChatSettings :=
  match MessagesService.getChatById chatId d with
  | None => None
  | Some _ =>
      Some (<[(chatId, uid) :=
               mkChatSettings
                 (match s !! (chatId, uid) with
                  | Some row => is_archived row
                  | None => false
                  end)
                 isFavorite]> s)
  end.

(** [result.rows[0] || { is_archived: false, is_favorite: false }]. *)
Definition getChatSettings (chatId : uuid) (uid : Z) (s : UserChatSettings) : ChatSettings :=
  default (mkChatSettings false false) (s !! (chatId, uid)).

End MessagesServiceRest.

(** ** ChatsController (HTTP)

    Every endpoint runs behind [HttpAuthGuard]; [userId] is the id the
    guard attached to the request. *)

Inductive HttpException :=
| BadRequestException (message : string)
| NotFoundException (message : string)
| InternalServerError (message : string).

Inductive Response (A : Type) :=
| Ok (a : A)
| Fail (e : HttpException).
Arguments Ok {A} a.
Arguments Fail {A} e.

Module ChatsController.

(** [POST /api/chats]: the caller is the buyer; the seller is the first
    participant id that is not the caller's. *)
Definition createChat (now : Z) (userId : Z) (participantIds : option (list Z))
    (productId : option Z) (d : Database) : Response Chat * Database :=
  match participantIds with
  | None | Some [] =>
      (Fail (BadRequestException "At least one participant is required"), d)
  | Some ids =>
      match find (fun id => negb (id =? userId)) ids with
      | Some otherParticipantId =>
          if negb (truthy otherParticipantId)
          then (Fail (BadRequestException "Cannot create chat with yourself"), d)
          else
            let '(chat, d') :=
              MessagesService.createChat now userId otherParticipantId productId d in
            (Ok chat, d')
      | None => (Fail (BadRequestException "Cannot create chat with yourself"), d)
      end
  end.

(** [GET /api/chats/:chatId]: the chat, [context?.current_product_id ||
    null] and the messages. *)
Definition getChat (userId : Z) (chatId : uuid) (d : Database)
    : Response (Chat * option Z * list Message) :=
  match MessagesServiceRest.getChatWithMessages chatId userId d with
  | None => Fail (NotFoundException "Chat not found")
  | Some (chat, msgs) =>
      let current :=
        match MessagesService.getChatContext chatId d with
        | Some context =>
            if truthy_opt (current_product_id context) then current_product_id context
            else None
        | None => None
        end in
      Ok (chat, current, msgs)
  end.

(** [GET /api/chats/:chatId/messages]: each message with [is_read].
    A failing query is not caught: the framework answers 500. *)
Definition getChatMessages (userId : Z) (chatId : uuid) (limit offset : Z) (d : Database)
    : Response (list (Message * bool)) :=
  match MessagesService.getChatById chatId d with
  | None => Fail (NotFoundException "Chat not found or access denied")
  | Some chat =>
      if negb (buyer_id chat =? userId) && negb (seller_id chat =? userId)
      then Fail (NotFoundException "Chat not found or access denied")
      else
        match MessagesServiceRest.getChatMessages chatId limit offset d with
        | None => Fail (InternalServerError "Internal server error")
        | Some messages =>
            let messageIds := List.map msg_id messages in
            let readStatus :=
              MessagesServiceRest.getMessagesReadStatus messageIds userId d in
            let recipientId :=
              if buyer_id chat =? userId then seller_id chat else buyer_id chat in
            let ownMessagesReadStatus :=
              MessagesServiceRest.getMessagesReadStatus
                (List.filter (fun id =>
                                match find (fun m => (msg_id m =? id)%N) messages with
                                | Some msg => sender_id msg =? userId
                                | None => false
                                end) messageIds)
                recipientId d in
            Ok (List.map (fun msg =>
                            let isOwnMessage := sender_id msg =? userId in
                            let isRead :=
                              if isOwnMessage
                              then default false (ownMessagesReadStatus !! msg_id msg)
                              else default false (readStatus !! msg_id msg) in
                            (msg, isRead)) messages)
        end
  end.

(** [PUT /api/chats/:chatId/mark-read]: answers the unread count read
    back after marking. *)
Definition markChatAsRead (userId : Z) (chatId : uuid) (d : Database)
    : Response Z * Database :=
  match MessagesService.getChatById chatId d with
  | None => (Fail (NotFoundException "Chat not found or access denied"), d)
  | Some chat =>
      if negb (buyer_id chat =? userId) && negb (seller_id chat =? userId)
      then (Fail (NotFoundException "Chat not found or access denied"), d)
      else
        let d' := MessagesService.markChatMessagesAsRead chatId userId d in
        (Ok (MessagesService.getUnreadCountForChat chatId userId d'), d')
  end.

(** [PUT /api/chats/messages/mark-read]: always [{ success: true }]. *)
Definition markMessagesAsRead (userId : Z) (messageIds : option (list uuid))
    (d : Database) : Response unit * Database :=
  match messageIds with
  | None | Some [] => (Ok tt, d)
  | Some ids => (Ok tt, MessagesServiceRest.markMessagesAsRead ids userId d)
  end.

(** [PUT /api/chats/:chatId/archive] and [.../favorite]: answer the
    value that was set. *)
Definition toggleArchive (userId : Z) (chatId : uuid) (value : bool)
    (d : Database) (s : UserChatSettings) : Response bool * UserChatSettings :=
  match MessagesService.getChatById chatId d with
  | None => (Fail (NotFoundException "Chat not found or access denied"), s)
  | Some chat =>
      if negb (buyer_id chat =? userId) && negb (seller_id chat =? userId)
      then (Fail (NotFoundException "Chat not found or access denied"), s)
      else
        match MessagesServiceRest.toggleChatArchive chatId userId value d s with
        | Some s' => (Ok value, s')
        | None => (Fail (InternalServerError "Internal server error"), s)
        end
  end.

Definition toggleFavorite (userId : Z) (chatId : uuid) (value : bool)
    (d : Database) (s : UserChatSettings) : Response bool * UserChatSettings :=
  match MessagesService.getChatById chatId d with
  | None => (Fail (NotFoundException "Chat not found or access denied"), s)
  | Some chat =>
      if negb (buyer_id chat =? userId) && negb (seller_id chat =? userId)
      then (Fail (NotFoundException "Chat not found or access denied"), s)
      else
        match MessagesServiceRest.toggleChatFavorite chatId userId value d s with
        | Some s' => (Ok value, s')
        | None => (Fail (InternalServerError "Internal server error"), s)
        end
  end.

End ChatsController.

(** ** HttpAuthGuard *)

Module HttpAuthGuard.
Section WithDecoder.

Variable jwt_decode : string -> Decoded.

(** [canActivate]: the user info it attaches to the request, or the
    exception it throws.  [authorization] is the request header. *)
Definition canActivate (now : Z) (remote : AxiosResult) (authorization : option string)
    (r : Redis) : Completion UserInfo * Redis :=
  match authorization with
  | None => (Throw (UnauthorizedException "Missing or invalid authorization header"), r)
  | Some authHeader =>
      if negb (truthy_str authHeader) || negb (String.prefix "Bearer " authHeader)
      then (Throw (UnauthorizedException "Missing or invalid authorization header"), r)
      else
        let token := String.substring 7 (String.length authHeader - 7) authHeader in
        let '(res, r') := AuthService.verifyToken jwt_decode now remote token true r in
        match res with
        | Return (Some userInfo) => (Return userInfo, r')
        | Return None => (Throw (UnauthorizedException "Invalid or expired token"), r')
        | Throw e => (Throw e, r')
        end
  end.

End WithDecoder.
End HttpAuthGuard.

(** ** ChatGateway: joining a chat, listing who is online *)

Inductive JoinAck :=
| join_error (error : string) (code : option string)
| join_success (messages : list Message).

Inductive OnlineUsersAck :=
| online_error (error : string) (code : option string)
| online_success (users : list Z).

Module ChatGatewayRest.
Section WithDecoder.

Variable jwt_decode : string -> Decoded.

(** [chat:join]; [getMessages(data.chatId)] takes the defaults, limit
    50 and offset 0. *)
Definition handleJoinChat (now : Z) (chatId : uuid) (socketId : string) (g : Gateway)
    : Gateway * JoinAck :=
  match ChatGateway.checkSession jwt_decode now socketId g with
  | Unauthorized =>
      (client_emit socketId (auth_error "Authentication required" "TOKEN_REQUIRED") g,
       join_error "Unauthorized" None)
  | TokenExpired =>
      (client_emit socketId (auth_token_expired "Token expired" "TOKEN_EXPIRED") g,
       join_error "Token expired" (Some "TOKEN_EXPIRED"))
  | Authorized uid _ =>
      match MessagesService.getChatById chatId (db g) with
      | None => (g, join_error "Chat not found" None)
      | Some chat =>
          if negb (buyer_id chat =? uid) && negb (seller_id chat =? uid)
          then (g, join_error "Access denied" None)
          else
            let g := socket_join socketId (ChatRoom chatId) g in
            match MessagesServiceRest.getMessages chatId 50 0 (db g) with
            | Some messages => (g, join_success messages)
            | None => (g, join_error "Failed to join chat" None)
            end
      end
  end.

(** [users:online]. *)
Definition handleGetOnlineUsers (now : Z) (socketId : string) (g : Gateway)
    : Gateway * OnlineUsersAck :=
  match ChatGateway.checkSession jwt_decode now socketId g with
  | Unauthorized =>
      (client_emit socketId (auth_error "Authentication required" "TOKEN_REQUIRED") g,
       online_error "Unauthorized" None)
  | TokenExpired =>
      (client_emit socketId (auth_token_expired "Token expired" "TOKEN_EXPIRED") g,
       online_error "Token expired" (Some "TOKEN_EXPIRED"))
  | Authorized _ _ =>
      let '(onlineUsers, r) := RedisServiceRest.getOnlineUsers now (redis g) in
      (set_redis (fun _ => r) g, online_success onlineUsers)
  end.

End WithDecoder.
End ChatGatewayRest.

(** ** Table constraints

    What the schema guarantees of the store: message ids are a primary
    key, drawn from the fresh ids, and a receipt refers to a message
    (the foreign key of [chat.read_messages]). *)
Definition wellFormed (d : Database) : Prop :=
  List.NoDup (List.map msg_id (messages d))
  /\ (forall m, In m (messages d) -> (msg_id m < next_uuid d)%N)
  /\ (forall i u, (i, u) ∈ read_messages d -> exists m, In m (messages d) /\ msg_id m = i).

(** The second store differs from the first at most by receipts of the
    given user, for messages the first store holds. *)
Definition onlyReceiptsOf (uid : Z) (d d' : Database) : Prop :=
  chats d' = chats d /\ messages d' = messages d /\ chat_context d' = chat_context d
  /\ next_uuid d' = next_uuid d
  /\ forall i u, (i, u) ∈ read_messages d' ->
                 (i, u) ∈ read_messages d
                 \/ (u = uid /\ MessagesService.messageExists i d = true).

(** * Properties of AuthService *)

Section AuthFacts.

Variable jwt_decode : string -> Decoded.

Abbreviation parseTokenLocally := (AuthService.parseTokenLocally jwt_decode).
Abbreviation verifyToken := (AuthService.verifyToken jwt_decode).
Abbreviation verifyTokenFast := (AuthService.verifyTokenFast jwt_decode).

Lemma truthy_true n : truthy n = true <-> n <> 0.
Proof. unfold truthy. rewrite negb_true_iff, Z.eqb_neq. tauto. Qed.

Lemma truthy_false n : truthy n = false <-> n = 0.
Proof. unfold truthy. rewrite negb_false_iff, Z.eqb_eq. tauto. Qed.

Lemma truthy_str_true s : truthy_str s = true <-> s <> "".
Proof. destruct s; simpl; split; congruence. Qed.

(** The local check never yields the falsy id [0]. *)
Lemma parseTokenLocally_truthy now token uid :
  parseTokenLocally now token = Some uid -> truthy uid = true.
Proof.
  unfold AuthService.parseTokenLocally.
  destruct (jwt_decode token) as [d| |]; try discriminate.
  destruct (p_id d) as [i|]; try discriminate.
  destruct (truthy i) eqn:Hi; simpl; try discriminate.
  destruct (match p_exp d with Some _ => _ | None => _ end); try discriminate.
  intros [= <-]. exact Hi.
Qed.

(** When it answers, the local check answers with the [id] claim. *)
Lemma parseTokenLocally_Some now token uid :
  parseTokenLocally now token = Some uid <->
  exists d, jwt_decode token = DecodedPayload d /\ p_id d = Some uid /\ uid <> 0
            /\ (forall exp, p_exp d = Some exp -> exp <> 0 -> now / 1000 <= exp).
Proof.
  unfold AuthService.parseTokenLocally. split.
  - destruct (jwt_decode token) as [d| |]; try discriminate.
    destruct (p_id d) as [i|] eqn:Hid; try discriminate.
    destruct (truthy i) eqn:Hi; simpl; try discriminate.
    apply truthy_true in Hi.
    destruct (p_exp d) as [e|] eqn:He.
    + destruct (truthy e) eqn:Hte.
      * destruct (e <? now / 1000) eqn:Hlt; try discriminate.
        intros [= <-]. exists d. repeat split; auto.
        intros exp Hx _. rewrite He in Hx. injection Hx as <-.
        apply Z.ltb_ge in Hlt. exact Hlt.
      * intros [= <-]. exists d. repeat split; auto.
        intros exp Hx Hne. rewrite He in Hx. injection Hx as <-.
        apply truthy_false in Hte. contradiction.
    + intros [= <-]. exists d. repeat split; auto.
      intros exp Hx. rewrite He in Hx. discriminate.
  - intros (d & -> & -> & Hne & Hexp).
    apply truthy_true in Hne. rewrite Hne. simpl.
    destruct (p_exp d) as [e|]; [|reflexivity].
    destruct (truthy e) eqn:Hte; [|reflexivity].
    apply truthy_true in Hte. specialize (Hexp e eq_refl Hte).
    apply Z.ltb_ge in Hexp. rewrite Hexp. reflexivity.
Qed.

(** A token whose non-zero [exp] is before the current second is
    refused by the local check. *)
Lemma parseTokenLocally_expired now token d exp :
  jwt_decode token = DecodedPayload d -> p_exp d = Some exp -> exp <> 0 ->
  exp < now / 1000 -> parseTokenLocally now token = None.
Proof.
  intros Hd He Hne Hlt.
  destruct (parseTokenLocally now token) as [uid|] eqn:Hp; [|reflexivity].
  apply parseTokenLocally_Some in Hp as (d' & Hd' & _ & _ & Hexp).
  rewrite Hd in Hd'. injection Hd' as <-.
  specialize (Hexp exp He Hne). lia.
Qed.

(** Without a cache hit, a token the local check refuses is refused
    by the full check before any remote call. *)
Lemma verifyToken_local_reject now remote token useCache r :
  (useCache = false \/ redis_get_tokenUser now token r = None) ->
  parseTokenLocally now token = None ->
  verifyToken now remote token useCache r = (Return None, r).
Proof.
  intros Hmiss Hp. unfold AuthService.verifyToken.
  destruct (truthy_str token); simpl; [|reflexivity].
  replace (if useCache then redis_get_tokenUser now token r else None)
    with (@None Z) by (destruct Hmiss as [-> | ->]; [reflexivity | destruct useCache; reflexivity]).
  rewrite Hp. reflexivity.
Qed.

(** Without a cache hit and with a local id, the full check is
    decided by the remote outcome. *)
Lemma verifyToken_remote now remote token useCache r uid :
  token <> "" ->
  (useCache = false \/ redis_get_tokenUser now token r = None) ->
  parseTokenLocally now token = Some uid ->
  fst (verifyToken now remote token useCache r) =
    match remote with
    | AxiosResponse (Some data) =>
        match rd_id data with
        | Some i => if truthy i
                    then Return (Some (mkUserInfo i (rd_email data) (rd_username data)))
                    else Return None
        | None => Return None
        end
    | AxiosResponse None => Return None
    | _ => AuthService.verifyToken_catch remote uid
    end.
Proof.
  intros Htok Hmiss Hp. unfold AuthService.verifyToken.
  apply truthy_str_true in Htok. rewrite Htok. simpl.
  replace (if useCache then redis_get_tokenUser now token r else None)
    with (@None Z) by (destruct Hmiss as [-> | ->]; [reflexivity | destruct useCache; reflexivity]).
  rewrite Hp. rewrite (parseTokenLocally_truthy _ _ _ Hp). simpl.
  destruct remote as [[data|]|e| |]; try reflexivity.
  destruct (rd_id data) as [i|]; [|reflexivity].
  destruct (truthy i); reflexivity.
Qed.

(** A live cache entry decides both checks. *)
Lemma verifyToken_cache_hit now remote token r uid :
  token <> "" -> redis_get_tokenUser now token r = Some uid ->
  verifyToken now remote token true r = (Return (Some (minimalUser uid)), r).
Proof.
  intros Htok Hhit. unfold AuthService.verifyToken.
  apply truthy_str_true in Htok. rewrite Htok. simpl. rewrite Hhit. reflexivity.
Qed.

Lemma verifyTokenFast_cache_hit now token r uid :
  token <> "" -> redis_get_tokenUser now token r = Some uid ->
  verifyTokenFast now token r = Some uid.
Proof.
  intros Htok Hhit. unfold AuthService.verifyTokenFast.
  apply truthy_str_true in Htok. rewrite Htok. simpl. rewrite Hhit. reflexivity.
Qed.

Lemma verifyTokenFast_cache_miss now token r :
  redis_get_tokenUser now token r = None ->
  verifyTokenFast now token r = if truthy_str token then parseTokenLocally now token else None.
Proof.
  intros Hmiss. unfold AuthService.verifyTokenFast.
  destruct (truthy_str token); simpl; [|reflexivity]. rewrite Hmiss. reflexivity.
Qed.

(** The redis state changes only by caching a remote success. *)
Lemma verifyToken_redis now remote token useCache r :
  snd (verifyToken now remote token useCache r) = r \/
  exists uid, snd (verifyToken now remote token useCache r)
              = redis_setex_tokenUser now token AuthService.tokenCacheTTL uid r.
Proof.
  unfold AuthService.verifyToken.
  destruct (truthy_str token); simpl; [|auto].
  destruct (if useCache then redis_get_tokenUser now token r else None); simpl; [auto|].
  destruct (parseTokenLocally now token) as [l|]; simpl; [|auto].
  destruct (truthy l); simpl; [|auto].
  destruct remote as [[data|]|e| |]; simpl; auto.
  destruct (rd_id data) as [i|]; simpl; [|auto].
  destruct (truthy i); simpl; [|auto].
  destruct useCache; simpl; eauto.
Qed.

(** Without a cache hit and with a local id, a rejected remote call
    leads to the [catch] block and caches nothing. *)
Lemma verifyToken_rejected now token useCache r uid e :
  token <> "" ->
  (useCache = false \/ redis_get_tokenUser now token r = None) ->
  parseTokenLocally now token = Some uid ->
  verifyToken now (AxiosRejected e) token useCache r
  = (AuthService.verifyToken_catch (AxiosRejected e) uid, r).
Proof.
  intros Htok Hmiss Hp. unfold AuthService.verifyToken.
  apply truthy_str_true in Htok. rewrite Htok. cbn [negb].
  replace (if useCache then redis_get_tokenUser now token r else None)
    with (@None Z) by (destruct Hmiss as [-> | ->]; [reflexivity | destruct useCache; reflexivity]).
  rewrite Hp. rewrite (parseTokenLocally_truthy _ _ _ Hp). reflexivity.
Qed.

End AuthFacts.

Section AuthClaims.

Variable jwt_decode : string -> Decoded.

Abbreviation parseTokenLocally := (AuthService.parseTokenLocally jwt_decode).
Abbreviation verifyToken := (AuthService.verifyToken jwt_decode).
Abbreviation verifyTokenFast := (AuthService.verifyTokenFast jwt_decode).


Lemma verifyToken_catch_rejected e localUserId :
  networkError (err_code e) = false ->
  err_status e = Some 401 \/ err_status e = Some 403 ->
  AuthService.verifyToken_catch (AxiosRejected e) localUserId = Return None.
Proof.
  intros Hnet Hst. unfold AuthService.verifyToken_catch. rewrite Hnet.
  destruct Hst as [-> | ->]; reflexivity.
Qed.

(** C2.  When full verify makes its remote call and the identity
    service answers 401 or 403, the result is null and nothing is
    cached: there is no fallback to the locally decoded id.  (An
    answered request carries no network error code.) *)
Theorem verifyToken_401_403_is_null now token useCache r e :
  callsRemote jwt_decode now token useCache r = true ->
  networkError (err_code e) = false ->
  err_status e = Some 401 \/ err_status e = Some 403 ->
  verifyToken now (AxiosRejected e) token useCache r = (Return None, r).
Proof.
  intros Hcall Hnet Hst. unfold callsRemote in Hcall.
  apply andb_true_iff in Hcall as [Htok Hcall].
  apply truthy_str_true in Htok.
  assert (Hmiss : useCache = false \/ redis_get_tokenUser now token r = None).
  { destruct useCache; [right|left; reflexivity].
    destruct (redis_get_tokenUser now token r); [discriminate|reflexivity]. }
  replace (if useCache then redis_get_tokenUser now token r else None)
    with (@None Z) in Hcall
    by (destruct Hmiss as [-> | ->]; [reflexivity | destruct useCache; reflexivity]).
  destruct (parseTokenLocally now token) as [l|] eqn:Hp; [|discriminate].
  rewrite (verifyToken_rejected jwt_decode now token useCache r l e Htok Hmiss Hp).
  rewrite verifyToken_catch_rejected by assumption. reflexivity.
Qed.

Lemma verifyToken_catch_network e localUserId :
  networkError (err_code e) = true -> truthy localUserId = true ->
  AuthService.verifyToken_catch (AxiosRejected e) localUserId
  = Return (Some (minimalUser localUserId)).
Proof.
  intros Hnet Hl. unfold AuthService.verifyToken_catch. rewrite Hnet, Hl. reflexivity.
Qed.

(** C3.  With no token-cache hit and a remote call that fails with a
    network-class error code, full verify returns the minimal
    identity of the locally decoded id when the local check succeeds
    and null otherwise; it returns the identity of [uid] exactly when
    the local check yields [uid]; it does not throw and caches
    nothing. *)
Theorem verifyToken_network_failure_uses_local_id now token useCache r e :
  token <> "" ->
  useCache = false \/ redis_get_tokenUser now token r = None ->
  networkError (err_code e) = true ->
  verifyToken now (AxiosRejected e) token useCache r
    = (match parseTokenLocally now token with
       | Some uid => Return (Some (minimalUser uid))
       | None => Return None
       end, r)
  /\ (forall uid,
        fst (verifyToken now (AxiosRejected e) token useCache r)
          = Return (Some (minimalUser uid))
        <-> parseTokenLocally now token = Some uid).
Proof.
  intros Htok Hmiss Hnet.
  assert (Heq : verifyToken now (AxiosRejected e) token useCache r
                = (match parseTokenLocally now token with
                   | Some uid => Return (Some (minimalUser uid))
                   | None => Return None
                   end, r)).
  { destruct (parseTokenLocally now token) as [l|] eqn:Hp.
    - rewrite (verifyToken_rejected jwt_decode now token useCache r l e Htok Hmiss Hp).
      rewrite verifyToken_catch_network; [reflexivity|assumption|].
      exact (parseTokenLocally_truthy jwt_decode now token l Hp).
    - apply verifyToken_local_reject; assumption. }
  split; [exact Heq|].
  intros uid. rewrite Heq. simpl.
  destruct (parseTokenLocally now token) as [l|]; split.
  - intros [= ->]. reflexivity.
  - intros [= ->]. reflexivity.
  - discriminate.
  - discriminate.
Qed.

End AuthClaims.

(** C4 (as amended).  When the decoded claims hold a non-zero subject
    id and an [exp] claim in the future, [parseTokenLocally] returns
    that id; when the non-zero [exp] claim is before the current
    second, or the subject id is missing or [0], or the token cannot be
    decoded ([jwt.decode] gives [null] or throws), it returns absent.
    It is a total function: no input makes it raise. *)
Theorem parseTokenLocally_correct (jwt_decode : string -> Decoded) now token :
  (forall d uid exp,
      jwt_decode token = DecodedPayload d -> p_id d = Some uid -> uid <> 0 ->
      p_exp d = Some exp -> now / 1000 < exp ->
      AuthService.parseTokenLocally jwt_decode now token = Some uid)
  /\ (forall d exp,
        jwt_decode token = DecodedPayload d -> p_exp d = Some exp -> exp <> 0 ->
        exp < now / 1000 ->
        AuthService.parseTokenLocally jwt_decode now token = None)
  /\ (forall d,
        jwt_decode token = DecodedPayload d -> p_id d = None \/ p_id d = Some 0 ->
        AuthService.parseTokenLocally jwt_decode now token = None)
  /\ (jwt_decode token = DecodedNull \/ jwt_decode token = DecodeThrows ->
      AuthService.parseTokenLocally jwt_decode now token = None).
Proof.
  repeat split.
  - intros d uid exp Hd Hid Hne He Hfut.
    apply parseTokenLocally_Some. exists d. repeat split; auto.
    intros exp' He' _. rewrite He in He'. injection He' as <-. lia.
  - intros d exp. apply parseTokenLocally_expired.
  - intros d Hd Hid. unfold AuthService.parseTokenLocally. rewrite Hd.
    destruct Hid as [-> | ->]; reflexivity.
  - intros Hd. unfold AuthService.parseTokenLocally.
    destruct Hd as [-> | ->]; reflexivity.
Qed.

Lemma parseTokenLocally_correct_witness :
  AuthService.parseTokenLocally sampleDecode 1500000 "alice.valid" = Some 7
  /\ AuthService.parseTokenLocally sampleDecode 1500000 "alice.expiring" = None
  /\ AuthService.parseTokenLocally sampleDecode 1500000 "anonymous" = None
  /\ AuthService.parseTokenLocally sampleDecode 1500000 "not a token" = None.
Proof.
  destruct (parseTokenLocally_correct sampleDecode 1500000 "alice.valid") as (H1 & _).
  destruct (parseTokenLocally_correct sampleDecode 1500000 "alice.expiring") as (_ & H2 & _).
  destruct (parseTokenLocally_correct sampleDecode 1500000 "anonymous") as (_ & _ & H3 & _).
  destruct (parseTokenLocally_correct sampleDecode 1500000 "not a token") as (_ & _ & _ & H4).
  split; [|split; [|split]].
  - apply (H1 (mkJWTPayload (Some 7) None (Some 2000)) 7 2000);
      [reflexivity | reflexivity | lia | reflexivity | reflexivity].
  - apply (H2 (mkJWTPayload (Some 7) None (Some 1000)) 1000);
      [reflexivity | reflexivity | lia | reflexivity].
  - apply (H3 (mkJWTPayload None None (Some 2000))); [reflexivity | left; reflexivity].
  - apply H4. left. reflexivity.
Defined.

(** C4, the claim as stated fails on the falsy claims: a token with
    [exp = 0] (1970, in the past) and subject 7 is accepted, and a token
    with subject id [0] and an [exp] in the future is refused. *)
Lemma parseTokenLocally_falsy_claims_counterexample :
  sampleDecode "alice.exp0" = DecodedPayload (mkJWTPayload (Some 7) None (Some 0))
  /\ 0 < 1500000 / 1000
  /\ AuthService.parseTokenLocally sampleDecode 1500000 "alice.exp0" = Some 7
  /\ sampleDecode "zero.valid" = DecodedPayload (mkJWTPayload (Some 0) None (Some 2000))
  /\ 1500000 / 1000 < 2000
  /\ AuthService.parseTokenLocally sampleDecode 1500000 "zero.valid" = None.
Proof. repeat split. Qed.



Lemma verifyToken_401_403_is_null_witness :
  AuthService.verifyToken sampleDecode 1500000
    (AxiosRejected (mkAxiosError (Some "ERR_BAD_REQUEST") (Some 401)))
    "alice.valid" true emptyRedis
  = (Return None, emptyRedis).
Proof.
  apply (verifyToken_401_403_is_null sampleDecode 1500000 "alice.valid" true emptyRedis
           (mkAxiosError (Some "ERR_BAD_REQUEST") (Some 401))).
  - reflexivity.
  - reflexivity.
  - left. reflexivity.
Defined.

Lemma verifyToken_network_failure_uses_local_id_witness :
  AuthService.verifyToken sampleDecode 1500000
    (AxiosRejected (mkAxiosError (Some "ECONNREFUSED") None))
    "alice.valid" true emptyRedis
  = (Return (Some (minimalUser 7)), emptyRedis).
Proof.
  apply (verifyToken_network_failure_uses_local_id sampleDecode 1500000 "alice.valid" true
           emptyRedis (mkAxiosError (Some "ECONNREFUSED") None)).
  - discriminate.
  - right. reflexivity.
  - reflexivity.
Defined.

(** * Properties of the gateway *)

(** A presence key is seen for 300 s from the moment it is written. *)
Lemma isUserOnline_within_ttl now t uid socketId r :
  t < now + 300 * 1000 ->
  RedisService.isUserOnline t uid (RedisService.setUserOnline now uid socketId r) = true.
Proof.
  intros Ht.
  unfold RedisService.isUserOnline, RedisService.setUserOnline, redis_exists_userOnline.
  simpl. rewrite lookup_insert_eq. simpl.
  replace (t <? now + 300 * 1000) with true by (symmetry; apply Z.ltb_lt; exact Ht).
  reflexivity.
Qed.

Lemma isUserOnline_setUserOnline now uid socketId r :
  RedisService.isUserOnline now uid (RedisService.setUserOnline now uid socketId r) = true.
Proof. apply isUserOnline_within_ttl. lia. Qed.

Lemma isUserOnline_removeUserOnline now uid r :
  RedisService.isUserOnline now uid (RedisService.removeUserOnline uid r) = false.
Proof.
  unfold RedisService.isUserOnline, RedisService.removeUserOnline, redis_exists_userOnline.
  simpl. rewrite lookup_delete_eq. reflexivity.
Qed.

(** C10.  [handleRefreshToken] leaves the registry [userSockets] as it
    was, whatever the token resolves to; it touches no other socket, no
    table, and emits nothing.  When it succeeds with user [uid], the
    session of the calling socket holds [uid] and the new token, in the
    rooms it was in, and the presence key of [uid] is live; when it does
    not succeed, no session changes. *)
Theorem handleRefreshToken_registry_unchanged
    (jwt_decode : string -> Decoded) now remote newToken socketId g :
  let res := ChatGateway.handleRefreshToken jwt_decode now remote newToken socketId g in
  userSockets (fst res) = userSockets g
  /\ db (fst res) = db g
  /\ delivered (fst res) = delivered g
  /\ notifications (fst res) = notifications g
  /\ (forall other, other <> socketId -> sockets (fst res) !! other = sockets g !! other)
  /\ (forall uid, snd res = ack_userId uid ->
        sockets (fst res) !! socketId
          = Some (mkSocket (Some uid) (Some newToken) (rooms (client socketId g)))
        /\ RedisService.isUserOnline now uid (redis (fst res)) = true)
  /\ ((forall uid, snd res <> ack_userId uid) -> sockets (fst res) = sockets g).
Proof.
  unfold ChatGateway.handleRefreshToken.
  destruct (truthy_str newToken); simpl.
  2:{ split_and!; try reflexivity; try discriminate; auto. }
  destruct (AuthService.verifyToken jwt_decode now remote newToken true (redis g))
    as [[[userInfo|]|e] r]; simpl.
  - split_and!; try reflexivity.
    + intros other Hne. rewrite lookup_insert_ne by congruence. reflexivity.
    + intros uid [= <-]. split.
      * rewrite lookup_insert_eq. reflexivity.
      * apply isUserOnline_setUserOnline.
    + intros Hno. exfalso. apply (Hno (ui_id userInfo)). reflexivity.
  - split_and!; try reflexivity; try discriminate; auto.
  - split_and!; try reflexivity; try discriminate; auto.
Qed.

(** A session opened by user 7 and refreshed with a token of user 8:
    the session now belongs to 8, the registry still files the socket
    under 7 and has no entry for 8. *)
Lemma handleRefreshToken_registry_unchanged_witness :
  let ok7 := AxiosResponse (Some (mkResponseData (Some 7) "alice@example.org" "alice")) in
  let ok8 := AxiosResponse (Some (mkResponseData (Some 8) "bob@example.org" "bob")) in
  let g := ChatGateway.connect sampleDecode 100000 ok7 "s1" (Some "alice.valid") emptyGateway in
  let res := ChatGateway.handleRefreshToken sampleDecode 160000 ok8 "bob.valid" "s1" g in
  snd res = ack_userId 8
  /\ userId (client "s1" (fst res)) = Some 8
  /\ userSockets (fst res) = userSockets g
  /\ userSockets g !! 7 = Some {[ "s1" ]}
  /\ userSockets g !! 8 = None.
Proof.
  intros ok7 ok8 g res.
  pose proof (handleRefreshToken_registry_unchanged sampleDecode 160000 ok8 "bob.valid" "s1" g)
    as (Hreg & _).
  split; [reflexivity|]. split; [reflexivity|]. split; [exact Hreg|].
  split; reflexivity.
Defined.

(** ** Read receipts *)

Section ReadReceipts.

Import MessagesService.

(** Inserting receipts touches the receipts table only. *)
Lemma insertReads_spec (uid : Z) (l : list Message) : forall d,
  let d' := fold_left (fun acc m => insertRead (msg_id m) uid acc) l d in
  chats d' = chats d /\ messages d' = messages d
  /\ chat_context d' = chat_context d /\ next_uuid d' = next_uuid d
  /\ (forall p, p ∈ read_messages d'
                <-> p ∈ read_messages d \/ exists m, In m l /\ p = (msg_id m, uid)).
Proof.
  induction l as [|m l IH]; intros d; simpl.
  - split_and!; try reflexivity. intros p. split; [auto|].
    intros [H | (m & [] & _)]. exact H.
  - destruct (IH (insertRead (msg_id m) uid d)) as (Hc & Hm & Hx & Hn & Hr).
    split_and!; try assumption.
    intros p. rewrite Hr. unfold insertRead at 1. simpl.
    rewrite elem_of_union, elem_of_singleton. split.
    + intros [[-> | H] | (m' & Hin & ->)]; eauto 6.
    + intros [H | (m' & [<- | Hin] & ->)]; eauto 6.
Qed.

Lemma markChatMessagesAsRead_tables chatId uid d :
  chats (markChatMessagesAsRead chatId uid d) = chats d
  /\ messages (markChatMessagesAsRead chatId uid d) = messages d
  /\ chat_context (markChatMessagesAsRead chatId uid d) = chat_context d
  /\ next_uuid (markChatMessagesAsRead chatId uid d) = next_uuid d.
Proof.
  unfold markChatMessagesAsRead.
  destruct (insertReads_spec uid
              (List.filter (fun m => (msg_chat_id m =? chatId)%N && negb (sender_id m =? uid))
                           (messages d)) d) as (? & ? & ? & ? & _).
  auto.
Qed.

Lemma markChatMessagesAsRead_receipts chatId uid d p :
  p ∈ read_messages (markChatMessagesAsRead chatId uid d)
  <-> p ∈ read_messages d
      \/ exists m, In m (messages d) /\ msg_chat_id m = chatId /\ sender_id m <> uid
                   /\ p = (msg_id m, uid).
Proof.
  unfold markChatMessagesAsRead.
  destruct (insertReads_spec uid
              (List.filter (fun m => (msg_chat_id m =? chatId)%N && negb (sender_id m =? uid))
                           (messages d)) d) as (_ & _ & _ & _ & Hr).
  rewrite Hr. clear Hr. split.
  - intros [H | (m & Hin & ->)]; [auto|]. right. exists m.
    apply filter_In in Hin as [Hin Hc].
    apply andb_true_iff in Hc as [Hc Hs].
    apply N.eqb_eq in Hc. apply negb_true_iff, Z.eqb_neq in Hs. auto.
  - intros [H | (m & Hin & Hc & Hs & ->)]; [auto|]. right. exists m. split; [|reflexivity].
    apply filter_In. split; [exact Hin|].
    apply andb_true_iff. split; [apply N.eqb_eq; exact Hc|].
    apply negb_true_iff, Z.eqb_neq. exact Hs.
Qed.

Lemma filter_none {A} (f : A -> bool) (l : list A) :
  (forall x, In x l -> f x = false) -> List.filter f l = [].
Proof.
  induction l as [|x l IH]; intros H; simpl; [reflexivity|].
  rewrite (H x) by (left; reflexivity). apply IH. intros y Hy. apply H. right. exact Hy.
Qed.

Lemma getUnreadCountForChat_marked chatId uid d :
  getUnreadCountForChat chatId uid (markChatMessagesAsRead chatId uid d) = 0.
Proof.
  unfold getUnreadCountForChat.
  destruct (markChatMessagesAsRead_tables chatId uid d) as (_ & -> & _).
  replace (List.filter (unread chatId uid (markChatMessagesAsRead chatId uid d)) (messages d))
    with (@nil Message); [reflexivity|].
  symmetry. apply filter_none.
  intros m Hin. unfold unread.
  destruct (msg_chat_id m =? chatId)%N eqn:Hc; [|reflexivity].
  destruct (sender_id m =? uid) eqn:Hs; [reflexivity|]. simpl.
  apply N.eqb_eq in Hc. apply Z.eqb_neq in Hs.
  rewrite bool_decide_eq_true_2; [reflexivity|].
  apply markChatMessagesAsRead_receipts. right. exists m. auto.
Qed.



End ReadReceipts.

(** ** Frame facts of the emit and join primitives *)

Lemma fold_left_preserves {A B} (P : A -> Prop) (f : A -> B -> A) (l : list B) :
  (forall a b, P a -> P (f a b)) -> forall a, P a -> P (fold_left f l a).
Proof.
  intros Hf. induction l as [|b l IH]; intros a Ha; simpl; [exact Ha|].
  apply IH, Hf, Ha.
Qed.

Lemma sameButRoomsAndEvents_refl g : sameButRoomsAndEvents g g.
Proof. unfold sameButRoomsAndEvents. split_and!; auto. Qed.

Lemma sameButRoomsAndEvents_trans g1 g2 g3 :
  sameButRoomsAndEvents g1 g2 -> sameButRoomsAndEvents g2 g3 -> sameButRoomsAndEvents g1 g3.
Proof.
  unfold sameButRoomsAndEvents.
  intros (-> & -> & -> & -> & Hs & Hd) (-> & -> & -> & -> & Hs' & Hd').
  split_and!; try reflexivity.
  - intros sid. destruct (Hs sid) as [<- <-]. apply Hs'.
  - congruence.
Qed.

Lemma deliver_same l g : sameButRoomsAndEvents g (deliver l g).
Proof. unfold sameButRoomsAndEvents. simpl. split_and!; auto. Qed.

Lemma socket_join_same sid room g : sameButRoomsAndEvents g (socket_join sid room g).
Proof.
  unfold sameButRoomsAndEvents, socket_join, client. simpl. split_and!; try reflexivity.
  - intros sid'. rewrite lookup_alter.
    destruct (decide (sid = sid')) as [<-|Hne].
    + destruct (sockets g !! sid); simpl; auto.
    + auto.
  - apply dom_alter_L.
Qed.

Lemma joins_same {B} (f : B -> string) (room : B -> Room) (l : list B) g :
  sameButRoomsAndEvents g (fold_left (fun g b => socket_join (f b) (room b) g) l g).
Proof.
  apply (fold_left_preserves (sameButRoomsAndEvents g)); [|apply sameButRoomsAndEvents_refl].
  intros a b Ha. eapply sameButRoomsAndEvents_trans; [exact Ha|apply socket_join_same].
Qed.

Lemma emits_same {B} (room : B -> Room) (e : Event) (l : list B) g :
  sameButRoomsAndEvents g (fold_left (fun g b => server_to_emit (room b) e g) l g).
Proof.
  apply (fold_left_preserves (sameButRoomsAndEvents g)); [|apply sameButRoomsAndEvents_refl].
  intros a b Ha. eapply sameButRoomsAndEvents_trans; [exact Ha|apply deliver_same].
Qed.


(** A successful session test: what it says about the session. *)
Lemma checkSession_Authorized (jwt_decode : string -> Decoded) now sid g uid tok :
  ChatGateway.checkSession jwt_decode now sid g = Authorized uid tok ->
  userId (client sid g) = Some uid /\ token (client sid g) = Some tok
  /\ uid <> 0 /\ tok <> ""
  /\ AuthService.verifyTokenFast jwt_decode now tok (redis g) = Some uid.
Proof.
  unfold ChatGateway.checkSession.
  destruct (userId (client sid g)) as [u|]; [|discriminate].
  destruct (token (client sid g)) as [t|]; [|discriminate].
  destruct (truthy u) eqn:Hu; simpl; [|discriminate].
  destruct (truthy_str t) eqn:Ht; simpl; [|discriminate].
  destruct (AuthService.verifyTokenFast jwt_decode now t (redis g)) as [fast|] eqn:Hfast;
    [|discriminate].
  destruct (truthy fast); simpl; [|discriminate].
  destruct (fast =? u) eqn:Hf; simpl; [|discriminate].
  intros [= <- <-]. apply Z.eqb_eq in Hf. subst fast.
  apply truthy_true in Hu. apply truthy_str_true in Ht. split_and!; auto.
Qed.

(** ** The room [user:${id}] has no member *)

Lemma roomMembers_UserRoom g u : noUserRoom g -> roomMembers (UserRoom u) g = [].
Proof.
  intros Hno. unfold roomMembers.
  rewrite filter_none; [reflexivity|].
  intros [sid s] Hin. simpl. apply bool_decide_eq_false_2.
  apply list_elem_of_In, elem_of_map_to_list in Hin. eapply Hno. exact Hin.
Qed.

Lemma neverRead_deliver l g :
  neverRead g -> Forall (fun p => isMessageRead p = false) l -> neverRead (deliver l g).
Proof.
  intros [Hno Hd] Hl. split; [exact Hno|]. simpl. apply Forall_app. auto.
Qed.

Lemma neverRead_client_emit sid e g :
  neverRead g -> isRead e = false -> neverRead (client_emit sid e g).
Proof.
  intros Hg He. apply neverRead_deliver; [exact Hg|].
  constructor; [|constructor]. unfold isMessageRead. simpl. destruct e; auto; discriminate.
Qed.

Lemma all_not_read {B} (f : B -> string) (e : Event) (l : list B) :
  isRead e = false ->
  Forall (fun p => isMessageRead p = false) (List.map (fun b => (f b, e)) l).
Proof.
  intros He. apply Forall_forall. intros p Hin.
  apply list_elem_of_In, in_map_iff in Hin as (b & <- & _).
  unfold isMessageRead. simpl. destruct e; auto; discriminate.
Qed.

Lemma neverRead_server_emit e g :
  neverRead g -> isRead e = false -> neverRead (server_emit e g).
Proof.
  intros Hg He. apply neverRead_deliver; [exact Hg|].
  apply (all_not_read fst e (map_to_list (sockets g)) He).
Qed.

Lemma neverRead_server_to_emit room e g :
  neverRead g -> isRead e = false \/ isUserRoom room = true ->
  neverRead (server_to_emit room e g).
Proof.
  intros Hg [He | Hroom]; apply neverRead_deliver; try exact Hg.
  - apply (all_not_read (fun s => s) e (roomMembers room g) He).
  - destruct room; try discriminate.
    rewrite roomMembers_UserRoom by apply Hg. constructor.
Qed.

Lemma neverRead_sockets g g' :
  neverRead g -> delivered g' = delivered g ->
  (forall sid s, sockets g' !! sid = Some s ->
     forall u, UserRoom u ∉ rooms s) ->
  neverRead g'.
Proof.
  intros [_ Hd] Hdel Hs. split.
  - intros sid s u H. eapply Hs. exact H.
  - rewrite Hdel. exact Hd.
Qed.

Lemma neverRead_same_sockets g g' :
  neverRead g -> delivered g' = delivered g -> sockets g' = sockets g -> neverRead g'.
Proof.
  intros Hg Hdel Hs. apply (neverRead_sockets g g' Hg Hdel).
  rewrite Hs. intros sid s H u. eapply Hg. exact H.
Qed.

Lemma neverRead_socket_join sid room g :
  neverRead g -> isUserRoom room = false -> neverRead (socket_join sid room g).
Proof.
  intros Hg Hroom. apply (neverRead_sockets g); [exact Hg|reflexivity|].
  intros sid' s. unfold socket_join. simpl. rewrite lookup_alter.
  destruct (decide (sid = sid')) as [<-|Hne].
  - destruct (sockets g !! sid) as [s0|] eqn:Hs0; simpl; [|discriminate].
    intros [= <-] u. simpl. rewrite elem_of_union, elem_of_singleton.
    intros [Heq | Hin]; [subst room; discriminate|]. revert Hin. eapply Hg. exact Hs0.
  - intros H u. eapply Hg. exact H.
Qed.

Lemma neverRead_set_session sid uid tok g :
  neverRead g -> neverRead (set_session sid uid tok g).
Proof.
  intros Hg. apply (neverRead_sockets g); [exact Hg|reflexivity|].
  intros sid' s. unfold set_session. simpl. rewrite lookup_insert.
  destruct (decide (sid = sid')) as [<-|Hne].
  - intros [= <-] u. simpl. unfold client.
    destruct (sockets g !! sid) as [s0|] eqn:Hs0; simpl.
    + eapply Hg. exact Hs0.
    + rewrite elem_of_singleton. discriminate.
  - intros H u. eapply Hg. exact H.
Qed.

Lemma neverRead_new_socket sid g :
  neverRead g -> neverRead (set_sockets (fun m => <[sid := newSocket sid]> m) g).
Proof.
  intros Hg. apply (neverRead_sockets g); [exact Hg|reflexivity|].
  intros sid' s. simpl. rewrite lookup_insert.
  destruct (decide (sid = sid')) as [<-|Hne].
  - intros [= <-] u. simpl. rewrite elem_of_singleton. discriminate.
  - intros H u. eapply Hg. exact H.
Qed.

Lemma neverRead_drop_socket sid g :
  neverRead g -> neverRead (set_sockets (delete sid) g).
Proof.
  intros Hg. apply (neverRead_sockets g); [exact Hg|reflexivity|].
  intros sid' s. simpl. rewrite lookup_delete.
  destruct (decide (sid = sid')); [discriminate|].
  intros H u. eapply Hg. exact H.
Qed.

Section GatewayInvariant.

Variable jwt_decode : string -> Decoded.

Lemma neverRead_requireToken sid g :
  neverRead g -> neverRead (fst (ChatGateway.requireToken sid g)).
Proof. intros Hg. apply neverRead_client_emit; [exact Hg|reflexivity]. Qed.

Lemma neverRead_tokenExpired sid g :
  neverRead g -> neverRead (fst (ChatGateway.tokenExpired sid g)).
Proof. intros Hg. apply neverRead_client_emit; [exact Hg|reflexivity]. Qed.

Lemma neverRead_client_disconnect sid g :
  neverRead g -> neverRead (client_disconnect sid g).
Proof. apply neverRead_drop_socket. Qed.

Lemma neverRead_handleConnection now remote sid tok g :
  neverRead g -> neverRead (ChatGateway.handleConnection jwt_decode now remote sid tok g).
Proof.
  intros Hg. unfold ChatGateway.handleConnection.
  destruct (truthy_str (default "" tok)); simpl.
  2:{ apply neverRead_client_disconnect, neverRead_client_emit; [exact Hg|reflexivity]. }
  destruct (AuthService.verifyToken jwt_decode now remote (default "" tok) true (redis g))
    as [[[userInfo|]|e] r].
  - apply fold_left_preserves.
    + intros a chat Ha. apply neverRead_socket_join; [exact Ha|reflexivity].
    + apply neverRead_server_emit; [|reflexivity].
      eapply neverRead_same_sockets;
        [apply (neverRead_set_session sid (ui_id userInfo) (default "" tok)
                  (set_redis (fun _ => r) g))| reflexivity | reflexivity].
      eapply neverRead_same_sockets; [exact Hg|reflexivity|reflexivity].
  - apply neverRead_client_disconnect, neverRead_client_emit; [|reflexivity].
    eapply neverRead_same_sockets; [exact Hg|reflexivity|reflexivity].
  - apply neverRead_client_disconnect, neverRead_client_emit; [|reflexivity].
    eapply neverRead_same_sockets; [exact Hg|reflexivity|reflexivity].
Qed.

Lemma neverRead_connect now remote sid tok g :
  neverRead g -> neverRead (ChatGateway.connect jwt_decode now remote sid tok g).
Proof.
  intros Hg. apply neverRead_handleConnection, neverRead_new_socket, Hg.
Qed.

Lemma neverRead_handleDisconnect sid g :
  neverRead g -> neverRead (ChatGateway.handleDisconnect sid g).
Proof.
  intros Hg. unfold ChatGateway.handleDisconnect.
  pose proof (neverRead_drop_socket sid g Hg) as Hd.
  destruct (userId (client sid g)) as [uid|]; [|exact Hd].
  destruct (truthy uid); simpl; [|exact Hd].
  destruct (userSockets g !! uid) as [set|]; [|exact Hd].
  destruct (decide (size (set ∖ {[sid]}) = 0%nat)).
  - apply neverRead_server_emit; [|reflexivity].
    eapply neverRead_same_sockets; [exact Hd|reflexivity|reflexivity].
  - eapply neverRead_same_sockets; [exact Hd|reflexivity|reflexivity].
Qed.

Lemma neverRead_handleMessage now data sid g :
  neverRead g -> neverRead (fst (ChatGateway.handleMessage jwt_decode now data sid g)).
Proof.
  intros Hg. unfold ChatGateway.handleMessage.
  destruct (ChatGateway.checkSession jwt_decode now sid g) as [| |uid tok].
  - apply neverRead_requireToken, Hg.
  - apply neverRead_tokenExpired, Hg.
  - destruct (MessagesService.getChatById (sm_chatId data) (db g)) as [chat|]; [|exact Hg].
    destruct (ChatGateway.isParticipant chat uid); cbn [negb]; [|exact Hg].
    destruct (MessagesService.createMessage now (sm_chatId data) uid (sm_text data)
                (sm_productId data) (db g)) as [message d].
    cbn [fst].
    match goal with
    | |- neverRead (if ?c then notify ?e ?x else ?x) =>
        assert (Hx : neverRead x); [|destruct c; [|exact Hx];
          eapply neverRead_same_sockets; [exact Hx|reflexivity|reflexivity]]
    end.
    assert (H1 : neverRead
                   (server_to_emit (ChatRoom (sm_chatId data))
                      (message_new (msg_id message) (msg_chat_id message) (sender_id message)
                         (content message) (product_id message) (msg_created_at message))
                      (set_db d g))).
    { apply neverRead_server_to_emit; [|left; reflexivity].
      eapply neverRead_same_sockets; [exact Hg|reflexivity|reflexivity]. }
    change (userSockets (server_to_emit (ChatRoom (sm_chatId data))
                      (message_new (msg_id message) (msg_chat_id message) (sender_id message)
                         (content message) (product_id message) (msg_created_at message))
                      (set_db d g))) with (userSockets g).
    destruct (userSockets g !! ChatGateway.otherParticipant chat uid) as [set|]; [|exact H1].
    apply fold_left_preserves; [|exact H1].
    intros a s Ha. apply neverRead_server_to_emit; [exact Ha|left; reflexivity].
Qed.

Lemma neverRead_joinAll room ids g :
  isUserRoom room = false -> neverRead g -> neverRead (ChatGateway.joinAll room ids g).
Proof.
  intros Hroom Hg. unfold ChatGateway.joinAll. destruct ids as [ids|]; [|exact Hg].
  apply fold_left_preserves; [|exact Hg].
  intros a s Ha. apply neverRead_socket_join; assumption.
Qed.

Lemma neverRead_handleCreateChat now data sid g :
  neverRead g -> neverRead (fst (ChatGateway.handleCreateChat jwt_decode now data sid g)).
Proof.
  intros Hg. unfold ChatGateway.handleCreateChat.
  destruct (ChatGateway.checkSession jwt_decode now sid g) as [| |uid tok].
  - apply neverRead_requireToken, Hg.
  - apply neverRead_tokenExpired, Hg.
  - destruct (negb (uid =? buyerId data) && negb (uid =? sellerId data)); [exact Hg|].
    destruct (MessagesService.createChat now (buyerId data) (sellerId data) None (db g))
      as [chat d].
    simpl. apply neverRead_server_to_emit; [|left; reflexivity].
    apply neverRead_joinAll; [reflexivity|].
    apply neverRead_joinAll; [reflexivity|].
    eapply neverRead_same_sockets; [exact Hg|reflexivity|reflexivity].
Qed.

Lemma neverRead_handleRefreshToken now remote tok sid g :
  neverRead g ->
  neverRead (fst (ChatGateway.handleRefreshToken jwt_decode now remote tok sid g)).
Proof.
  intros Hg. unfold ChatGateway.handleRefreshToken.
  destruct (truthy_str tok); simpl; [|exact Hg].
  destruct (AuthService.verifyToken jwt_decode now remote tok true (redis g))
    as [[[userInfo|]|e] r]; simpl.
  - eapply neverRead_same_sockets;
      [apply (neverRead_set_session sid (ui_id userInfo) tok (set_redis (fun _ => r) g))
      | reflexivity | reflexivity].
    eapply neverRead_same_sockets; [exact Hg|reflexivity|reflexivity].
  - eapply neverRead_same_sockets; [exact Hg|reflexivity|reflexivity].
  - eapply neverRead_same_sockets; [exact Hg|reflexivity|reflexivity].
Qed.

Lemma neverRead_handleMarkMessagesAsRead now data sid g :
  neverRead g ->
  neverRead (fst (ChatGateway.handleMarkMessagesAsRead jwt_decode now data sid g)).
Proof.
  intros Hg. unfold ChatGateway.handleMarkMessagesAsRead.
  destruct (ChatGateway.checkSession jwt_decode now sid g) as [| |uid tok].
  - apply neverRead_requireToken, Hg.
  - apply neverRead_tokenExpired, Hg.
  - destruct (MessagesService.getChatById (mr_chatId data) (db g)) as [chat|]; [|exact Hg].
    destruct (ChatGateway.isParticipant chat uid); cbn [negb]; [|exact Hg].
    match goal with
    | |- context [let '(ok, d) := ?x in _] => destruct x as [ok d]
    end.
    assert (Hd : neverRead (set_db d g))
      by (eapply neverRead_same_sockets; [exact Hg|reflexivity|reflexivity]).
    destruct ok; simpl; [|exact Hd].
    apply neverRead_server_to_emit; [|right; reflexivity].
    apply neverRead_client_emit; [exact Hd|reflexivity].
Qed.

Lemma neverRead_run g a : neverRead g -> neverRead (run jwt_decode g a).
Proof.
  intros Hg. destruct a; simpl; destruct (isLive socketId g); try exact Hg.
  - apply neverRead_connect, Hg.
  - apply neverRead_handleDisconnect, Hg.
  - apply neverRead_handleMessage, Hg.
  - apply neverRead_handleCreateChat, Hg.
  - apply neverRead_handleRefreshToken, Hg.
  - apply neverRead_handleMarkMessagesAsRead, Hg.
Qed.

Lemma neverRead_empty : neverRead emptyGateway.
Proof.
  split; [|constructor]. intros sid s u H. simpl in H. rewrite lookup_empty in H. discriminate.
Qed.

Lemma neverRead_reachable g : reachable jwt_decode g -> neverRead g.
Proof.
  intros [l ->]. unfold runAll. apply fold_left_preserves.
  - intros a b. apply neverRead_run.
  - apply neverRead_empty.
Qed.

End GatewayInvariant.

(** In every state the service can reach, a mark-read action delivers
    no [message:read] event to any socket: the room [user:${id}] it is
    emitted to has no member. *)
Lemma message_read_never_delivered (jwt_decode : string -> Decoded) g now data sid :
  reachable jwt_decode g ->
  List.filter isMessageRead
    (delivered (fst (ChatGateway.handleMarkMessagesAsRead jwt_decode now data sid g))) = [].
Proof.
  intros Hr. apply filter_none. intros p Hin.
  pose proof (neverRead_handleMarkMessagesAsRead jwt_decode now data sid g
                (neverRead_reachable jwt_decode g Hr)) as [_ Hd].
  rewrite Forall_forall in Hd. apply Hd, list_elem_of_In, Hin.
Qed.

(** C6, on the failing input.  Alice and bob are both connected; bob
    marks the chat read.  The action succeeds with unread count 0, alice
    has the live session [sA], and the only event delivered is bob's own
    [unread:updated]: alice's session gets no [message:read]. *)
Lemma message_read_not_delivered_to_other_participant :
  let g := runAll sampleDecode aliceAndBob emptyGateway in
  let res := ChatGateway.handleMarkMessagesAsRead sampleDecode 100003
               (mkMarkReadDto 0%N None) "sB" g in
  MessagesService.getChatById 0%N (db g) = Some (mkChat 0%N 7 8 100001)
  /\ localSessions 7 g = {[ "sA" ]}
  /\ isLive "sA" g = true
  /\ snd res = ack_unreadCount 0
  /\ delivered (fst res) = (delivered g ++ [("sB", unread_updated 0%N 0)])%list
  /\ List.filter isMessageRead (delivered (fst res)) = [].
Proof. vm_compute. split_and!; reflexivity. Qed.

(** ** Marking a chat read *)





(** ** Creating chats *)


Lemma find_app_some {A} (f : A -> bool) (l l' : list A) x :
  find f l = Some x -> find f (l ++ l') = Some x.
Proof.
  induction l as [|y l IH]; simpl; [discriminate|].
  destruct (f y); [auto|]. exact IH.
Qed.

Lemma insertChat_spec now a b d :
  MessagesService.insertChat now a b d
  = match chatOf a b d with
    | Some c => (c, d)
    | None =>
        (mkChat (next_uuid d) a b now,
         mkDatabase (chats d ++ [mkChat (next_uuid d) a b now]) (messages d)
                    (read_messages d) (chat_context d) (N.succ (next_uuid d)))
    end.
Proof. reflexivity. Qed.










(** ** Offline notifications *)






Lemma sameButRoomsAndEvents_emits (recipientSockets : option (gset string)) e g :
  sameButRoomsAndEvents g
    (match recipientSockets with
     | Some ids => fold_left (fun g sid => server_to_emit (SocketRoom sid) e g) (elements ids) g
     | None => g
     end).
Proof.
  destruct recipientSockets as [ids|]; [|apply sameButRoomsAndEvents_refl].
  apply (emits_same SocketRoom e (elements ids) g).
Qed.


(** A send-message action that is turned away dispatches nothing. *)
Lemma handleMessage_rejected (jwt_decode : string -> Decoded) now data sid g :
  (forall message, snd (ChatGateway.handleMessage jwt_decode now data sid g)
                   <> ack_message message) ->
  notifications (fst (ChatGateway.handleMessage jwt_decode now data sid g)) = notifications g.
Proof.
  unfold ChatGateway.handleMessage.
  destruct (ChatGateway.checkSession jwt_decode now sid g) as [| |uid tok]; try reflexivity.
  destruct (MessagesService.getChatById (sm_chatId data) (db g)) as [chat|]; [|reflexivity].
  destruct (ChatGateway.isParticipant chat uid); cbn [negb]; [|reflexivity].
  destruct (MessagesService.createMessage now (sm_chatId data) uid (sm_text data)
              (sm_productId data) (db g)) as [message d].
  intros H. exfalso. apply (H message). reflexivity.
Qed.



(** ** Presence *)

Section Presence.

Variable jwt_decode : string -> Decoded.

(** A connection whose token verifies: the socket is filed under the
    user, the presence key is written, the session fields are set, and
    no other socket's session changes. *)
Lemma handleConnection_success now remote sid tok g userInfo r :
  tok <> "" ->
  AuthService.verifyToken jwt_decode now remote tok true (redis g) = (Return (Some userInfo), r) ->
  let g' := ChatGateway.handleConnection jwt_decode now remote sid (Some tok) g in
  userSockets g' = ChatGateway.registerSocket (ui_id userInfo) sid (userSockets g)
  /\ redis g' = RedisService.setUserOnline now (ui_id userInfo) sid r
  /\ userId (client sid g') = Some (ui_id userInfo)
  /\ token (client sid g') = Some tok
  /\ (forall other, other <> sid ->
        userId (client other g') = userId (client other g)
        /\ token (client other g') = token (client other g)).
Proof.
  intros Htok Hv. unfold ChatGateway.handleConnection.
  change (default "" (Some tok)) with tok.
  apply truthy_str_true in Htok. rewrite Htok, Hv. cbn [negb].
  cbv zeta.
  match goal with
  | |- context [fold_left ?f ?l ?g0] =>
      pose proof (joins_same (fun _ : Chat => sid) (fun c => ChatRoom (chat_id c)) l g0)
        as Hsame
  end.
  cbv beta in Hsame. destruct Hsame as (Hu & Hr & _ & _ & Hs & _).
  rewrite Hu, Hr. split_and!; try reflexivity.
  - destruct (Hs sid) as [-> _]. unfold client. simpl. rewrite lookup_insert_eq. reflexivity.
  - destruct (Hs sid) as [_ ->]. unfold client. simpl. rewrite lookup_insert_eq. reflexivity.
  - intros other Hne. destruct (Hs other) as [-> ->]. unfold client. simpl.
    rewrite lookup_insert_ne by congruence. auto.
Qed.

Lemma connect_success now remote sid tok g userInfo r :
  tok <> "" ->
  AuthService.verifyToken jwt_decode now remote tok true (redis g) = (Return (Some userInfo), r) ->
  let g' := ChatGateway.connect jwt_decode now remote sid (Some tok) g in
  userSockets g' = ChatGateway.registerSocket (ui_id userInfo) sid (userSockets g)
  /\ redis g' = RedisService.setUserOnline now (ui_id userInfo) sid r
  /\ userId (client sid g') = Some (ui_id userInfo)
  /\ token (client sid g') = Some tok
  /\ (forall other, other <> sid ->
        userId (client other g') = userId (client other g)
        /\ token (client other g') = token (client other g)).
Proof.
  intros Htok Hv. unfold ChatGateway.connect.
  destruct (handleConnection_success now remote sid tok
              (set_sockets (fun m => <[sid := newSocket sid]> m) g) userInfo r Htok Hv)
    as (Hu & Hr & Hi & Ht & Ho).
  cbv zeta. split_and!; try assumption.
  intros other Hne. destruct (Ho other Hne) as [-> ->]. unfold client. simpl.
  rewrite lookup_insert_ne by congruence. auto.
Qed.

(** A disconnection of a socket whose session carries user [uid]. *)
Lemma handleDisconnect_registered sid g uid userSocketSet :
  userId (client sid g) = Some uid -> uid <> 0 ->
  userSockets g !! uid = Some userSocketSet ->
  let g' := ChatGateway.handleDisconnect sid g in
  (userSocketSet ∖ {[sid]} = ∅ ->
     redis g' = RedisService.removeUserOnline uid (redis g)
     /\ userSockets g' = delete uid (userSockets g))
  /\ (userSocketSet ∖ {[sid]} <> ∅ ->
        redis g' = redis g
        /\ userSockets g' = <[uid := userSocketSet ∖ {[sid]}]> (userSockets g))
  /\ (forall other, other <> sid ->
        userId (client other g') = userId (client other g)
        /\ token (client other g') = token (client other g)).
Proof.
  intros Hid Hne Hreg. unfold ChatGateway.handleDisconnect.
  rewrite Hid. apply truthy_true in Hne. rewrite Hne. cbn [negb].
  cbn [userSockets set_sockets]. rewrite Hreg.
  destruct (decide (size (userSocketSet ∖ {[sid]}) = 0%nat)) as [Hz|Hnz]; cbv zeta.
  - apply size_empty_iff in Hz. apply leibniz_equiv in Hz. split_and!.
    + intros _. split; reflexivity.
    + intros Hx. contradiction.
    + intros other Ho. unfold client. simpl. rewrite lookup_delete_ne by congruence. auto.
  - apply size_non_empty_iff in Hnz. split_and!.
    + intros Hx. exfalso. apply Hnz. rewrite Hx. reflexivity.
    + intros _. split; reflexivity.
    + intros other Ho. unfold client. simpl. rewrite lookup_delete_ne by congruence. auto.
Qed.

(** A disconnection with no session user, or of a user the registry
    does not know, writes nothing to Redis. *)
Lemma handleDisconnect_unregistered sid g :
  (userId (client sid g) = None \/ userId (client sid g) = Some 0
   \/ exists uid, userId (client sid g) = Some uid /\ userSockets g !! uid = None) ->
  redis (ChatGateway.handleDisconnect sid g) = redis g
  /\ userSockets (ChatGateway.handleDisconnect sid g) = userSockets g.
Proof.
  unfold ChatGateway.handleDisconnect.
  intros [-> | [-> | (uid & -> & Hreg)]]; try (split; reflexivity).
  destruct (truthy uid); cbn [negb]; [|split; reflexivity].
  cbn [userSockets set_sockets]. rewrite Hreg. split; reflexivity.
Qed.

End Presence.

Lemma localSessions_lookup uid g S : userSockets g !! uid = Some S -> localSessions uid g = S.
Proof. unfold localSessions. intros ->. reflexivity. Qed.

Lemma sessions_two (s1 s2 : string) : {[s2]} ∪ ({[s1]} ∪ ∅) = ({[s1; s2]} : gset string).
Proof.
  apply set_eq. intros x.
  rewrite !elem_of_union, !elem_of_singleton, elem_of_empty. tauto.
Qed.

Lemma sessions_minus_first (s1 s2 : string) :
  s1 <> s2 -> ({[s2]} ∪ ({[s1]} ∪ ∅)) ∖ {[s1]} = ({[s2]} : gset string).
Proof.
  intros Hne. apply set_eq. intros x.
  rewrite elem_of_difference, !elem_of_union, !elem_of_singleton, elem_of_empty.
  intuition congruence.
Qed.

Lemma sessions_minus_last (s : string) : ({[s]} : gset string) ∖ {[s]} = ∅.
Proof.
  apply set_eq. intros x.
  rewrite elem_of_difference, elem_of_singleton, elem_of_empty. tauto.
Qed.

Lemma sessions_one_nonempty (s : string) : ({[s]} : gset string) <> ∅.
Proof.
  intros He. apply (not_elem_of_empty (C := gset string) s).
  rewrite <- He. apply elem_of_singleton. reflexivity.
Qed.

Lemma sessions_added (s : string) (X : gset string) : s ∈ {[s]} ∪ X.
Proof. apply elem_of_union. left. apply elem_of_singleton. reflexivity. Qed.

(** ** No other event deletes a presence key *)

Section PresenceKept.

Variable jwt_decode : string -> Decoded.

Lemma verifyToken_userOnline now remote tok useCache r :
  userOnline (snd (AuthService.verifyToken jwt_decode now remote tok useCache r)) = userOnline r.
Proof.
  destruct (verifyToken_redis jwt_decode now remote tok useCache r) as [-> | [uid ->]];
    reflexivity.
Qed.

Lemma setUserOnline_keeps now uid sid r u :
  is_Some (userOnline r !! u) ->
  is_Some (userOnline (RedisService.setUserOnline now uid sid r) !! u).
Proof.
  intros H. unfold RedisService.setUserOnline. simpl. rewrite lookup_insert.
  destruct (decide (uid = u)); [eexists; reflexivity|exact H].
Qed.

Lemma handleConnection_keeps now remote sid tok g u :
  is_Some (userOnline (redis g) !! u) ->
  is_Some (userOnline (redis (ChatGateway.handleConnection jwt_decode now remote sid tok g)) !! u).
Proof.
  intros H. unfold ChatGateway.handleConnection.
  destruct (truthy_str (default "" tok)); cbn [negb]; [|exact H].
  pose proof (verifyToken_userOnline now remote (default "" tok) true (redis g)) as Hv.
  destruct (AuthService.verifyToken jwt_decode now remote (default "" tok) true (redis g))
    as [[[userInfo|]|e] r]; simpl in Hv.
  - cbv zeta.
    match goal with
    | |- context [fold_left ?f ?l ?g0] =>
        pose proof (joins_same (fun _ : Chat => sid) (fun c => ChatRoom (chat_id c)) l g0)
          as Hsame
    end.
    cbv beta in Hsame. destruct Hsame as (_ & -> & _).
    simpl. rewrite lookup_insert.
    destruct (decide (ui_id userInfo = u)); [eexists; reflexivity|].
    rewrite Hv. exact H.
  - simpl. rewrite Hv. exact H.
  - simpl. rewrite Hv. exact H.
Qed.

Lemma sameSessions_refl g : sameSessions g g.
Proof. unfold sameSessions. split_and!; auto. Qed.

Lemma sameSessions_trans g1 g2 g3 :
  sameSessions g1 g2 -> sameSessions g2 g3 -> sameSessions g1 g3.
Proof.
  unfold sameSessions. intros (-> & -> & Hs) (-> & -> & Hs').
  split_and!; try reflexivity.
  intros sid. destruct (Hs sid) as [<- <-]. apply Hs'.
Qed.

Lemma sameSessions_fields g g' :
  userSockets g' = userSockets g -> redis g' = redis g -> sockets g' = sockets g ->
  sameSessions g g'.
Proof.
  unfold sameSessions, client. intros -> -> ->. split_and!; auto.
Qed.

Lemma sameSessions_rooms g g' : sameButRoomsAndEvents g g' -> sameSessions g g'.
Proof. unfold sameSessions. intros (Hu & Hr & _ & _ & Hs & _). auto. Qed.

Lemma joinAll_same room ids g : sameButRoomsAndEvents g (ChatGateway.joinAll room ids g).
Proof.
  unfold ChatGateway.joinAll. destruct ids as [ids|]; [|apply sameButRoomsAndEvents_refl].
  apply (joins_same (fun s : string => s) (fun _ => room) (elements ids) g).
Qed.

(** The three chat actions leave registry, Redis and sessions alone. *)
Lemma handleMessage_sameSessions now data sid g :
  sameSessions g (fst (ChatGateway.handleMessage jwt_decode now data sid g)).
Proof.
  unfold ChatGateway.handleMessage.
  destruct (ChatGateway.checkSession jwt_decode now sid g) as [| |uid tok];
    try (apply sameSessions_fields; reflexivity).
  destruct (MessagesService.getChatById (sm_chatId data) (db g)) as [chat|];
    [|apply sameSessions_refl].
  destruct (ChatGateway.isParticipant chat uid); cbn [negb]; [|apply sameSessions_refl].
  destruct (MessagesService.createMessage now (sm_chatId data) uid (sm_text data)
              (sm_productId data) (db g)) as [message d].
  cbn [fst].
  match goal with
  | |- sameSessions g (if ?c then notify ?e ?x else ?x) =>
      assert (Hx : sameSessions g x);
        [|destruct c; [|exact Hx];
          apply (sameSessions_trans g x); [exact Hx|apply sameSessions_fields; reflexivity]]
  end.
  match goal with
  | |- sameSessions g
         (match ?o with Some ids => fold_left ?f (elements ids) ?g1 | None => _ end) =>
      apply (sameSessions_trans g g1); [apply sameSessions_fields; reflexivity|];
      apply sameSessions_rooms;
      apply (sameButRoomsAndEvents_emits o
               (unread_updated (sm_chatId data)
                  (MessagesService.getUnreadCountForChat (sm_chatId data)
                     (ChatGateway.otherParticipant chat uid) (db (set_db d g)))) g1)
  end.
Qed.

Lemma handleCreateChat_sameSessions now data sid g :
  sameSessions g (fst (ChatGateway.handleCreateChat jwt_decode now data sid g)).
Proof.
  unfold ChatGateway.handleCreateChat.
  destruct (ChatGateway.checkSession jwt_decode now sid g) as [| |uid tok];
    try (apply sameSessions_fields; reflexivity).
  destruct (negb (uid =? buyerId data) && negb (uid =? sellerId data));
    [apply sameSessions_refl|].
  destruct (MessagesService.createChat now (buyerId data) (sellerId data) None (db g))
    as [chat d].
  cbn [fst]. cbv zeta.
  match goal with
  | |- sameSessions g (server_to_emit ?room ?e
                         (ChatGateway.joinAll ?room ?ids2 (ChatGateway.joinAll ?room ?ids1 ?g0))) =>
      apply (sameSessions_trans g g0); [apply sameSessions_fields; reflexivity|];
      apply (sameSessions_trans g0 (ChatGateway.joinAll room ids1 g0));
        [apply sameSessions_rooms, joinAll_same|];
      apply (sameSessions_trans _
               (ChatGateway.joinAll room ids2 (ChatGateway.joinAll room ids1 g0)));
        [apply sameSessions_rooms, joinAll_same|];
      apply sameSessions_fields; reflexivity
  end.
Qed.

Lemma handleMarkMessagesAsRead_sameSessions now data sid g :
  sameSessions g (fst (ChatGateway.handleMarkMessagesAsRead jwt_decode now data sid g)).
Proof.
  unfold ChatGateway.handleMarkMessagesAsRead.
  destruct (ChatGateway.checkSession jwt_decode now sid g) as [| |uid tok];
    try (apply sameSessions_fields; reflexivity).
  destruct (MessagesService.getChatById (mr_chatId data) (db g)) as [chat|];
    [|apply sameSessions_refl].
  destruct (ChatGateway.isParticipant chat uid); cbn [negb]; [|apply sameSessions_refl].
  match goal with
  | |- context [let '(ok, d) := ?x in _] => destruct x as [ok d]
  end.
  destruct ok; apply sameSessions_fields; reflexivity.
Qed.

Lemma handleRefreshToken_keeps now remote tok sid g u :
  is_Some (userOnline (redis g) !! u) ->
  is_Some (userOnline
             (redis (fst (ChatGateway.handleRefreshToken jwt_decode now remote tok sid g))) !! u).
Proof.
  intros H. unfold ChatGateway.handleRefreshToken.
  destruct (truthy_str tok); cbn [negb]; [|exact H].
  pose proof (verifyToken_userOnline now remote tok true (redis g)) as Hv.
  destruct (AuthService.verifyToken jwt_decode now remote tok true (redis g))
    as [[[userInfo|]|e] r]; simpl in Hv; simpl.
  - rewrite lookup_insert.
    destruct (decide (ui_id userInfo = u)); [eexists; reflexivity|].
    rewrite Hv. exact H.
  - rewrite Hv. exact H.
  - rewrite Hv. exact H.
Qed.

(** Every event other than a disconnection leaves every presence key
    in Redis (it may rewrite one). *)
Lemma run_keeps_presence_key g a u :
  (forall sid, a <> Disconnection sid) ->
  is_Some (userOnline (redis g) !! u) ->
  is_Some (userOnline (redis (run jwt_decode g a)) !! u).
Proof.
  intros Ha H. destruct a; simpl; destruct (isLive socketId g); try exact H.
  - apply handleConnection_keeps. exact H.
  - exfalso. apply (Ha socketId). reflexivity.
  - destruct (handleMessage_sameSessions now data socketId g) as (_ & -> & _). exact H.
  - destruct (handleCreateChat_sameSessions now data socketId g) as (_ & -> & _). exact H.
  - apply handleRefreshToken_keeps. exact H.
  - destruct (handleMarkMessagesAsRead_sameSessions now data socketId g) as (_ & -> & _).
    exact H.
Qed.

End PresenceKept.

(** ** The registry and the sessions agree until a session is re-bound *)

Section RegistryAgrees.

Variable jwt_decode : string -> Decoded.

Lemma verifyToken_cacheNonzero now remote tok useCache r :
  cacheNonzero r ->
  cacheNonzero (snd (AuthService.verifyToken jwt_decode now remote tok useCache r)).
Proof.
  intros Hc. unfold AuthService.verifyToken.
  destruct (truthy_str tok); simpl; [|exact Hc].
  destruct (if useCache then redis_get_tokenUser now tok r else None); simpl; [exact Hc|].
  destruct (AuthService.parseTokenLocally jwt_decode now tok) as [l|]; simpl; [|exact Hc].
  destruct (truthy l); simpl; [|exact Hc].
  destruct remote as [[data|]|e| |]; simpl; try exact Hc.
  destruct (rd_id data) as [i|]; simpl; [|exact Hc].
  destruct (truthy i) eqn:Hi; simpl; [|exact Hc].
  destruct useCache; simpl; [|exact Hc].
  intros t v e. unfold redis_setex_tokenUser. simpl. rewrite lookup_insert.
  destruct (decide (tok = t)).
  - intros [= <- _]. apply truthy_true. exact Hi.
  - apply Hc.
Qed.

Lemma verifyToken_catch_id remote l userInfo :
  AuthService.verifyToken_catch remote l = Return (Some userInfo) -> userInfo = minimalUser l.
Proof.
  unfold AuthService.verifyToken_catch.
  destruct remote as [data|e| |]; destruct (truthy l); try discriminate;
    try (intros [= <-]; reflexivity).
  - destruct (networkError (err_code e)); [intros [= <-]; reflexivity|].
    destruct (status_is (err_status e) 401); [discriminate|].
    destruct (status_is (err_status e) 403); [discriminate|].
    destruct (status_is (err_status e) 500 || status_is (err_status e) 502
              || status_is (err_status e) 503 || status_is (err_status e) 504);
      intros [= <-]; reflexivity.
  - destruct (networkError (err_code e)); [discriminate|].
    destruct (status_is (err_status e) 401); [discriminate|].
    destruct (status_is (err_status e) 403); [discriminate|].
    destruct (status_is (err_status e) 500 || status_is (err_status e) 502
              || status_is (err_status e) 503 || status_is (err_status e) 504);
      discriminate.
Qed.

(** Full verify never yields the falsy id 0. *)
Lemma verifyToken_id_nonzero now remote tok useCache r userInfo :
  cacheNonzero r ->
  fst (AuthService.verifyToken jwt_decode now remote tok useCache r) = Return (Some userInfo) ->
  ui_id userInfo <> 0.
Proof.
  intros Hc. unfold AuthService.verifyToken.
  destruct (truthy_str tok); simpl; [|discriminate].
  destruct (if useCache then redis_get_tokenUser now tok r else None) as [c|] eqn:Hhit; simpl.
  - intros [= <-]. simpl.
    destruct useCache; [|discriminate].
    unfold redis_get_tokenUser, live in Hhit.
    destruct (tokenUser r !! tok) as [[v e]|] eqn:Hl; [|discriminate].
    destruct (now <? e); [|discriminate]. injection Hhit as <-. eapply Hc. exact Hl.
  - destruct (AuthService.parseTokenLocally jwt_decode now tok) as [l|]; simpl; [|discriminate].
    destruct (truthy l) eqn:Hl; simpl; [|discriminate].
    assert (Hcatch : forall rem, AuthService.verifyToken_catch rem l = Return (Some userInfo) ->
                                 ui_id userInfo <> 0).
    { intros rem H. apply verifyToken_catch_id in H. subst userInfo. simpl.
      apply truthy_true. exact Hl. }
    destruct remote as [[data|]|e| |]; cbn [fst]; try discriminate; try apply Hcatch.
    destruct (rd_id data) as [i|]; cbn [fst]; [|discriminate].
    destruct (truthy i) eqn:Hi; cbn [fst]; [|discriminate].
    intros [= <-]. simpl. apply truthy_true. exact Hi.
Qed.

Lemma registryAgrees_sameSessions g g' :
  sameSessions g g' -> registryAgrees g -> registryAgrees g'.
Proof.
  intros (Hu & Hr & Hs) [Hf Hc]. split.
  - intros uid ids sid. rewrite Hu. intros Hreg Hin.
    destruct (Hs sid) as [-> _]. eapply Hf; eassumption.
  - rewrite Hr. exact Hc.
Qed.

Lemma client_not_live sid g : isLive sid g = false -> userId (client sid g) = None.
Proof.
  unfold isLive, client. destruct (sockets g !! sid); [discriminate|reflexivity].
Qed.

Lemma client_other_insert_delete sid sid' s g :
  sid' <> sid ->
  client sid' (set_sockets (delete sid) (set_sockets (fun m => <[sid := s]> m) g))
  = client sid' g.
Proof.
  intros Hne. unfold client. simpl.
  rewrite lookup_delete_ne, lookup_insert_ne by congruence. reflexivity.
Qed.

Lemma registryAgrees_connect now remote sid tok g :
  isLive sid g = false -> registryAgrees g ->
  registryAgrees (ChatGateway.connect jwt_decode now remote sid tok g).
Proof.
  intros Hlive [Hf Hc].
  assert (Hfresh : forall uid ids, userSockets g !! uid = Some ids -> sid ∉ ids).
  { intros uid ids Hreg Hin. destruct (Hf uid ids sid Hreg Hin) as [_ Hid].
    rewrite (client_not_live sid g Hlive) in Hid. discriminate. }
  assert (Hfail : forall (r : Redis) e, cacheNonzero r ->
            registryAgrees
              (client_disconnect sid
                 (client_emit sid e
                    (set_redis (fun _ => r)
                       (set_sockets (fun m => <[sid := newSocket sid]> m) g))))).
  { intros r e Hr. split; [|exact Hr].
    intros uid ids sid' Hreg Hin. simpl in Hreg.
    destruct (Hf uid ids sid' Hreg Hin) as [Hne Hid]. split; [exact Hne|].
    rewrite <- Hid. unfold client. simpl.
    assert (sid' <> sid) by (intros ->; exact (Hfresh uid ids Hreg Hin)).
    rewrite lookup_delete_ne, lookup_insert_ne by congruence. reflexivity. }
  unfold ChatGateway.connect, ChatGateway.handleConnection.
  destruct (truthy_str (default "" tok)) eqn:Htok; cbn [negb].
  2:{ split; [|exact Hc].
      intros uid ids sid' Hreg Hin. simpl in Hreg.
      destruct (Hf uid ids sid' Hreg Hin) as [Hne Hid]. split; [exact Hne|].
      rewrite <- Hid. unfold client. simpl.
      assert (sid' <> sid) by (intros ->; exact (Hfresh uid ids Hreg Hin)).
      rewrite lookup_delete_ne, lookup_insert_ne by congruence. reflexivity. }
  cbn [redis set_sockets].
  pose proof (verifyToken_cacheNonzero now remote (default "" tok) true (redis g) Hc) as Hc'.
  pose proof (verifyToken_id_nonzero now remote (default "" tok) true (redis g)) as Hnz.
  destruct (AuthService.verifyToken jwt_decode now remote (default "" tok) true (redis g))
    as [[[userInfo|]|e] r] eqn:Hv; simpl in Hc'.
  - specialize (Hnz userInfo Hc eq_refl).
    apply truthy_str_true in Htok.
    destruct tok as [tok|]; [|contradiction]. change (default "" (Some tok)) with tok in *.
    destruct (connect_success jwt_decode now remote sid tok g userInfo r Htok Hv)
      as (Hu & Hr & Hi & _ & Ho).
    unfold ChatGateway.connect, ChatGateway.handleConnection in Hu, Hr, Hi, Ho.
    change (default "" (Some tok)) with tok in *.
    apply truthy_str_true in Htok. rewrite Htok in Hu, Hr, Hi, Ho. cbn [negb] in Hu, Hr, Hi, Ho.
    cbn [redis set_sockets] in Hu, Hr, Hi, Ho. rewrite Hv in Hu, Hr, Hi, Ho.
    cbv zeta in Hu, Hr, Hi, Ho.
    split.
    + intros uid ids sid' Hreg Hin. rewrite Hu in Hreg.
      unfold ChatGateway.registerSocket in Hreg. rewrite lookup_insert in Hreg.
      destruct (decide (ui_id userInfo = uid)) as [<-|Hne].
      * injection Hreg as <-. split; [exact Hnz|].
        apply elem_of_union in Hin as [Hin | Hin].
        -- apply elem_of_singleton in Hin. subst sid'. exact Hi.
        -- destruct (userSockets g !! ui_id userInfo) as [old|] eqn:Hold; simpl in Hin;
             [|exfalso; revert Hin; apply not_elem_of_empty].
           destruct (Hf _ _ _ Hold Hin) as [_ Hid].
           assert (sid' <> sid) by (intros ->; exact (Hfresh _ _ Hold Hin)).
           destruct (Ho sid' H) as [-> _]. exact Hid.
      * destruct (Hf _ _ _ Hreg Hin) as [Hn Hid]. split; [exact Hn|].
        assert (sid' <> sid) by (intros ->; exact (Hfresh _ _ Hreg Hin)).
        destruct (Ho sid' H) as [-> _]. exact Hid.
    + rewrite Hr. intros t v e. unfold RedisService.setUserOnline. simpl. apply Hc'.
  - apply Hfail. exact Hc'.
  - apply Hfail. exact Hc'.
Qed.

Lemma registryAgrees_handleDisconnect sid g :
  registryAgrees g -> registryAgrees (ChatGateway.handleDisconnect sid g).
Proof.
  intros [Hf Hc].
  assert (Hother : forall sid', sid' <> sid ->
            userId (client sid' (set_sockets (delete sid) g)) = userId (client sid' g)).
  { intros sid' Hne. unfold client. simpl. rewrite lookup_delete_ne by congruence. reflexivity. }
  assert (Hkeep : (forall uid ids, userSockets g !! uid = Some ids -> sid ∉ ids) ->
            registryAgrees (set_sockets (delete sid) g)).
  { intros Hnot. split; [|exact Hc]. intros uid ids sid' Hreg Hin. simpl in Hreg.
    destruct (Hf _ _ _ Hreg Hin) as [Hn Hid]. split; [exact Hn|].
    rewrite Hother; [exact Hid|]. intros ->. exact (Hnot _ _ Hreg Hin). }
  unfold ChatGateway.handleDisconnect.
  destruct (userId (client sid g)) as [uid0|] eqn:Hid0.
  2:{ apply Hkeep. intros uid ids Hreg Hin. destruct (Hf _ _ _ Hreg Hin) as [_ H].
      rewrite Hid0 in H. discriminate. }
  destruct (truthy uid0) eqn:Ht; cbn [negb].
  2:{ apply Hkeep. intros uid ids Hreg Hin. destruct (Hf _ _ _ Hreg Hin) as [Hn H].
      rewrite Hid0 in H. injection H as ->. apply truthy_false in Ht. contradiction. }
  cbn [userSockets set_sockets].
  destruct (userSockets g !! uid0) as [set0|] eqn:Hreg0.
  2:{ apply Hkeep. intros uid ids Hreg Hin. destruct (Hf _ _ _ Hreg Hin) as [_ H].
      rewrite Hid0 in H. injection H as ->. rewrite Hreg0 in Hreg. discriminate. }
  assert (Hmine : forall uid ids sid', userSockets g !! uid = Some ids -> sid' ∈ ids ->
                    uid <> uid0 -> sid' <> sid).
  { intros uid ids sid' Hreg Hin Hne ->. destruct (Hf _ _ _ Hreg Hin) as [_ H].
    rewrite Hid0 in H. injection H as ->. contradiction. }
  destruct (decide (size (set0 ∖ {[sid]}) = 0%nat)).
  - split; [|exact Hc]. intros uid ids sid' Hreg Hin. simpl in Hreg.
    rewrite lookup_delete in Hreg. destruct (decide (uid0 = uid)); [discriminate|].
    destruct (Hf _ _ _ Hreg Hin) as [Hn Hid]. split; [exact Hn|].
    change (userId (client sid' (set_sockets (delete sid) g)) = Some uid).
    rewrite Hother; [exact Hid|]. eapply Hmine; eauto.
  - split; [|exact Hc]. intros uid ids sid' Hreg Hin. simpl in Hreg.
    rewrite lookup_insert in Hreg.
    change (uid <> 0 /\ userId (client sid' (set_sockets (delete sid) g)) = Some uid).
    destruct (decide (uid0 = uid)) as [<-|Hne].
    + injection Hreg as <-. apply elem_of_difference in Hin as [Hin Hns].
      destruct (Hf _ _ _ Hreg0 Hin) as [Hn Hid]. split; [exact Hn|].
      rewrite Hother; [exact Hid|]. intros ->. apply Hns, elem_of_singleton. reflexivity.
    + destruct (Hf _ _ _ Hreg Hin) as [Hn Hid]. split; [exact Hn|].
      rewrite Hother; [exact Hid|]. eapply Hmine; eauto.
Qed.

Lemma registryAgrees_handleRefreshToken now remote tok sid g :
  ~ rebinds jwt_decode g (AuthRefreshToken now remote tok sid) ->
  registryAgrees g ->
  registryAgrees (fst (ChatGateway.handleRefreshToken jwt_decode now remote tok sid g)).
Proof.
  intros Hnr [Hf Hc]. unfold rebinds in Hnr. revert Hnr.
  unfold ChatGateway.handleRefreshToken.
  destruct (truthy_str tok); cbn [negb]; [|intros _; split; assumption].
  pose proof (verifyToken_cacheNonzero now remote tok true (redis g) Hc) as Hc'.
  destruct (AuthService.verifyToken jwt_decode now remote tok true (redis g))
    as [[[userInfo|]|e] r]; simpl in Hc'; cbn [fst snd]; intros Hnr.
  - assert (Hsame : userId (client sid g) = Some (ui_id userInfo)).
    { destruct (decide (userId (client sid g) = Some (ui_id userInfo))) as [H|H]; [exact H|].
      exfalso. apply Hnr. exists (ui_id userInfo). split; [reflexivity|exact H]. }
    split.
    + intros uid ids sid' Hreg Hin. simpl in Hreg.
      destruct (Hf _ _ _ Hreg Hin) as [Hn Hid]. split; [exact Hn|].
      unfold client. simpl. rewrite lookup_insert.
      destruct (decide (sid = sid')) as [<-|Hne]; simpl.
      * rewrite <- Hsame. exact Hid.
      * exact Hid.
    + intros t v e. simpl. apply Hc'.
  - split; [|exact Hc']. intros uid ids sid' Hreg Hin. apply (Hf _ _ _ Hreg Hin).
  - split; [|exact Hc']. intros uid ids sid' Hreg Hin. apply (Hf _ _ _ Hreg Hin).
Qed.

Lemma registryAgrees_run g a :
  ~ rebinds jwt_decode g a -> registryAgrees g -> registryAgrees (run jwt_decode g a).
Proof.
  intros Hnr Hg. destruct a; simpl; destruct (isLive socketId g) eqn:Hlive; try exact Hg.
  - apply registryAgrees_connect; assumption.
  - apply registryAgrees_handleDisconnect. exact Hg.
  - eapply registryAgrees_sameSessions; [apply handleMessage_sameSessions|exact Hg].
  - eapply registryAgrees_sameSessions; [apply handleCreateChat_sameSessions|exact Hg].
  - apply registryAgrees_handleRefreshToken; assumption.
  - eapply registryAgrees_sameSessions; [apply handleMarkMessagesAsRead_sameSessions|exact Hg].
Qed.

Lemma registryAgrees_empty : registryAgrees emptyGateway.
Proof.
  split.
  - intros uid ids sid H. simpl in H. rewrite lookup_empty in H. discriminate.
  - intros tok v e H. simpl in H. rewrite lookup_empty in H. discriminate.
Qed.

Lemma registryAgrees_reachable g : reachableUnrebound jwt_decode g -> registryAgrees g.
Proof.
  induction 1 as [|g a _ IH Hnr].
  - apply registryAgrees_empty.
  - apply registryAgrees_run; assumption.
Qed.

End RegistryAgrees.

(** C5 (as amended).  (1) A connection whose token authenticates as
    [uid] leaves the presence key of [uid] set (seen for its 300 s) and
    the socket among the local sessions of [uid].  (2) When a socket
    whose session carries [uid] disconnects, the presence key of [uid]
    is deleted if the registry holds no other local session of [uid],
    and Redis is left as it is if it holds one.  (3) A user without
    local sessions opens two sessions and closes them one after the
    other: the presence key is set after each connection, the first
    disconnection leaves Redis untouched, and after the second the user
    is offline.  (4) No event other than a disconnection removes a
    presence key.  (5) In every state reached without a token refresh
    that changes a session's user id, (2) holds for every socket the
    registry files under [uid]. *)
Theorem presence_cleared_with_last_session (jwt_decode : string -> Decoded) :
  (forall now remote sid tok g uid,
     authenticatesAs jwt_decode now remote tok (redis g) uid ->
     let g' := ChatGateway.connect jwt_decode now remote sid (Some tok) g in
     (forall t, t < now + 300 * 1000 -> RedisService.isUserOnline t uid (redis g') = true)
     /\ sid ∈ localSessions uid g'
     /\ userId (client sid g') = Some uid)
  /\ (forall sid g uid userSocketSet,
        userId (client sid g) = Some uid -> uid <> 0 ->
        userSockets g !! uid = Some userSocketSet ->
        let g' := ChatGateway.handleDisconnect sid g in
        (userSocketSet ∖ {[sid]} = ∅ ->
           redis g' = RedisService.removeUserOnline uid (redis g)
           /\ (forall t, RedisService.isUserOnline t uid (redis g') = false)
           /\ localSessions uid g' = ∅)
        /\ (userSocketSet ∖ {[sid]} <> ∅ ->
              redis g' = redis g
              /\ localSessions uid g' = userSocketSet ∖ {[sid]}))
  /\ (forall t1 t2 remote1 remote2 s1 s2 tok1 tok2 uid g0,
        let g1 := ChatGateway.connect jwt_decode t1 remote1 s1 (Some tok1) g0 in
        let g2 := ChatGateway.connect jwt_decode t2 remote2 s2 (Some tok2) g1 in
        let g3 := ChatGateway.handleDisconnect s1 g2 in
        let g4 := ChatGateway.handleDisconnect s2 g3 in
        s1 <> s2 -> uid <> 0 -> userSockets g0 !! uid = None ->
        authenticatesAs jwt_decode t1 remote1 tok1 (redis g0) uid ->
        authenticatesAs jwt_decode t2 remote2 tok2 (redis g1) uid ->
        RedisService.isUserOnline t1 uid (redis g1) = true
        /\ RedisService.isUserOnline t2 uid (redis g2) = true
        /\ localSessions uid g2 = {[s1; s2]}
        /\ redis g3 = redis g2
        /\ (forall t, t < t2 + 300 * 1000 -> RedisService.isUserOnline t uid (redis g3) = true)
        /\ localSessions uid g3 = {[s2]}
        /\ (forall t, RedisService.isUserOnline t uid (redis g4) = false)
        /\ localSessions uid g4 = ∅)
  /\ (forall g a uid,
        (forall sid, a <> Disconnection sid) ->
        is_Some (userOnline (redis g) !! uid) ->
        is_Some (userOnline (redis (run jwt_decode g a)) !! uid))
  /\ (forall g uid userSocketSet sid,
        reachableUnrebound jwt_decode g ->
        userSockets g !! uid = Some userSocketSet -> sid ∈ userSocketSet ->
        let g' := ChatGateway.handleDisconnect sid g in
        (userSocketSet ∖ {[sid]} = ∅ ->
           redis g' = RedisService.removeUserOnline uid (redis g)
           /\ (forall t, RedisService.isUserOnline t uid (redis g') = false)
           /\ localSessions uid g' = ∅)
        /\ (userSocketSet ∖ {[sid]} <> ∅ ->
              redis g' = redis g
              /\ localSessions uid g' = userSocketSet ∖ {[sid]})).
Proof.
  assert (Hconnect : forall now remote sid tok g uid,
     authenticatesAs jwt_decode now remote tok (redis g) uid ->
     let g' := ChatGateway.connect jwt_decode now remote sid (Some tok) g in
     (forall t, t < now + 300 * 1000 -> RedisService.isUserOnline t uid (redis g') = true)
     /\ userSockets g' !! uid = Some ({[sid]} ∪ localSessions uid g)
     /\ userId (client sid g') = Some uid
     /\ (forall other, other <> sid -> userId (client other g') = userId (client other g))).
  { intros now remote sid tok g uid (Htok & userInfo & r & Hv & <-) g'.
    destruct (connect_success jwt_decode now remote sid tok g userInfo r Htok Hv)
      as (Hu & Hr & Hi & _ & Ho).
    fold g' in Hu, Hr, Hi, Ho. split_and!.
    - intros t Ht. rewrite Hr. apply isUserOnline_within_ttl. exact Ht.
    - rewrite Hu. unfold ChatGateway.registerSocket. rewrite lookup_insert_eq. reflexivity.
    - exact Hi.
    - intros other Hne. apply Ho. exact Hne. }
  assert (Hdisconnect : forall sid g uid userSocketSet,
        userId (client sid g) = Some uid -> uid <> 0 ->
        userSockets g !! uid = Some userSocketSet ->
        let g' := ChatGateway.handleDisconnect sid g in
        (userSocketSet ∖ {[sid]} = ∅ ->
           redis g' = RedisService.removeUserOnline uid (redis g)
           /\ (forall t, RedisService.isUserOnline t uid (redis g') = false)
           /\ localSessions uid g' = ∅)
        /\ (userSocketSet ∖ {[sid]} <> ∅ ->
              redis g' = redis g
              /\ localSessions uid g' = userSocketSet ∖ {[sid]})).
  { intros sid g uid S Hid Hne Hreg g'.
    destruct (handleDisconnect_registered sid g uid S Hid Hne Hreg) as (Hlast & Hmore & _).
    fold g' in Hlast, Hmore. split.
    - intros He. destruct (Hlast He) as [Hr Hu]. split_and!.
      + exact Hr.
      + intros t. rewrite Hr. apply isUserOnline_removeUserOnline.
      + unfold localSessions. rewrite Hu, lookup_delete_eq. reflexivity.
    - intros He. destruct (Hmore He) as [Hr Hu]. split; [exact Hr|].
      unfold localSessions. rewrite Hu, lookup_insert_eq. reflexivity. }
  split_and!.
  - intros now remote sid tok g uid Ha g'.
    destruct (Hconnect now remote sid tok g uid Ha) as (Ho & Hu & Hi & _).
    fold g' in Ho, Hu, Hi. split_and!; [exact Ho| |exact Hi].
    rewrite (localSessions_lookup _ _ _ Hu). apply sessions_added.
  - exact Hdisconnect.
  - intros t1 t2 remote1 remote2 s1 s2 tok1 tok2 uid g0 g1 g2 g3 g4 Hs Hne Hnone Ha1 Ha2.
    destruct (Hconnect t1 remote1 s1 tok1 g0 uid Ha1) as (Ho1 & Hu1 & Hi1 & _).
    fold g1 in Ho1, Hu1, Hi1.
    destruct (Hconnect t2 remote2 s2 tok2 g1 uid Ha2) as (Ho2 & Hu2 & Hi2 & Hk2).
    fold g2 in Ho2, Hu2, Hi2, Hk2.
    assert (Hl0 : localSessions uid g0 = ∅) by (unfold localSessions; rewrite Hnone; reflexivity).
    rewrite Hl0 in Hu1. rewrite (localSessions_lookup _ _ _ Hu1) in Hu2.
    assert (Hi12 : userId (client s1 g2) = Some uid) by (rewrite Hk2 by congruence; exact Hi1).
    destruct (handleDisconnect_registered s1 g2 uid _ Hi12 Hne Hu2) as (_ & Hmore3 & Hk3).
    fold g3 in Hmore3, Hk3.
    rewrite (sessions_minus_first s1 s2 Hs) in Hmore3.
    destruct Hmore3 as [Hr3 Hu3]; [apply sessions_one_nonempty|].
    assert (Hi23 : userId (client s2 g3) = Some uid).
    { destruct (Hk3 s2) as [-> _]; [congruence|exact Hi2]. }
    assert (Hreg3 : userSockets g3 !! uid = Some {[s2]})
      by (rewrite Hu3; apply lookup_insert_eq).
    destruct (Hdisconnect s2 g3 uid {[s2]} Hi23 Hne Hreg3) as (Hlast4 & _).
    fold g4 in Hlast4.
    destruct Hlast4 as (_ & Hoff & Hl4); [apply sessions_minus_last|].
    split_and!; try assumption.
    + apply Ho1. lia.
    + apply Ho2. lia.
    + rewrite (localSessions_lookup _ _ _ Hu2). apply sessions_two.
    + intros t Ht. rewrite Hr3. apply Ho2. exact Ht.
    + apply (localSessions_lookup _ _ _ Hreg3).
  - apply run_keeps_presence_key.
  - intros g uid S sid Hreach Hreg Hin.
    destruct (registryAgrees_reachable jwt_decode g Hreach) as [Hf _].
    destruct (Hf uid S sid Hreg Hin) as [Hne Hid].
    apply Hdisconnect; assumption.
Qed.

Lemma presence_cleared_with_last_session_witness :
  let g1 := ChatGateway.connect sampleDecode 100000 (identityOf 7) "s1" (Some "alice.valid")
              emptyGateway in
  let g2 := ChatGateway.connect sampleDecode 130000 (identityOf 7) "s2" (Some "alice.valid") g1 in
  let g3 := ChatGateway.handleDisconnect "s1" g2 in
  let g4 := ChatGateway.handleDisconnect "s2" g3 in
  RedisService.isUserOnline 100000 7 (redis g1) = true
  /\ RedisService.isUserOnline 130000 7 (redis g2) = true
  /\ localSessions 7 g2 = {[ "s1"; "s2" ]}
  /\ redis g3 = redis g2
  /\ (forall t, t < 130000 + 300 * 1000 -> RedisService.isUserOnline t 7 (redis g3) = true)
  /\ localSessions 7 g3 = {[ "s2" ]}
  /\ (forall t, RedisService.isUserOnline t 7 (redis g4) = false)
  /\ localSessions 7 g4 = ∅.
Proof.
  apply (proj1 (proj2 (proj2 (presence_cleared_with_last_session sampleDecode)))
           100000 130000 (identityOf 7) (identityOf 7) "s1" "s2" "alice.valid" "alice.valid"
           7 emptyGateway).
  - discriminate.
  - lia.
  - reflexivity.
  - split; [discriminate|].
    exists (mkUserInfo 7 "" ""), (redis_setex_tokenUser 100000 "alice.valid" 600 7 emptyRedis).
    split; reflexivity.
  - split; [discriminate|].
    exists (mkUserInfo 7 "" ""),
      (redis (ChatGateway.connect sampleDecode 100000 (identityOf 7) "s1" (Some "alice.valid")
                emptyGateway)).
    split; reflexivity.
Defined.

(** C5, the claim as stated fails once a session is re-bound: socket
    [s1] opens as user 7 and refreshes with a token of user 8; the
    registry still files it under 7.  When it disconnects (no socket is
    left) the handler looks under 8, finds no entry and clears nothing:
    the presence keys of 7 and of 8 both stay, and the registry keeps
    [s1] under 7. *)
Lemma presence_after_rebound_session_counterexample :
  let g1 := ChatGateway.connect sampleDecode 100000 (identityOf 7) "s1" (Some "alice.valid")
              emptyGateway in
  let g2 := fst (ChatGateway.handleRefreshToken sampleDecode 110000 (identityOf 8)
                   "bob.valid" "s1" g1) in
  let g3 := ChatGateway.handleDisconnect "s1" g2 in
  localSessions 7 g2 = {[ "s1" ]}
  /\ userId (client "s1" g2) = Some 8
  /\ sockets g3 = ∅
  /\ RedisService.isUserOnline 120000 7 (redis g3) = true
  /\ RedisService.isUserOnline 120000 8 (redis g3) = true
  /\ localSessions 7 g3 = {[ "s1" ]}
  /\ localSessions 8 g3 = ∅.
Proof. vm_compute. split_and!; reflexivity. Qed.

(** * Further properties of AuthService *)

Section AuthMore.

Variable jwt_decode : string -> Decoded.

Lemma verifyToken_catch_returns remote l :
  truthy l = true ->
  exists v, AuthService.verifyToken_catch remote l = Return v.
Proof.
  intros Hl. unfold AuthService.verifyToken_catch. rewrite Hl.
  destruct remote as [data|e| |]; eauto.
  destruct (networkError (err_code e)); eauto.
  destruct (status_is (err_status e) 401); eauto.
  destruct (status_is (err_status e) 403); eauto.
  destruct (status_is (err_status e) 500 || status_is (err_status e) 502
            || status_is (err_status e) 503 || status_is (err_status e) 504); eauto.
Qed.

Lemma verifyToken_returns now remote tok useCache r :
  exists v, fst (AuthService.verifyToken jwt_decode now remote tok useCache r) = Return v.
Proof.
  unfold AuthService.verifyToken.
  destruct (truthy_str tok); simpl; eauto.
  destruct (if useCache then redis_get_tokenUser now tok r else None); simpl; eauto.
  destruct (AuthService.parseTokenLocally jwt_decode now tok) as [l|]; simpl; eauto.
  destruct (truthy l) eqn:Hl; simpl; eauto.
  destruct remote as [[data|]|e| |]; cbn [fst]; eauto using verifyToken_catch_returns.
  destruct (rd_id data) as [i|]; cbn [fst]; eauto.
  destruct (truthy i); cbn [fst]; eauto.
Qed.

(** X1.  [verifyToken] never throws: the [UnauthorizedException] of its
    network branch cannot be reached, because a token the local check
    refuses returns before the remote call. *)
Theorem verifyToken_never_throws now remote tok useCache r :
  exists v, fst (AuthService.verifyToken jwt_decode now remote tok useCache r) = Return v.
Proof. exact (verifyToken_returns now remote tok useCache r). Qed.

(** X2.  When the remote call is made and fails in any way other than an
    answered 401 or 403 (a network error, a 5xx, any other status, an
    error that is no [AxiosError]), the token is accepted on the local
    check alone: the result is the identity of the locally decoded id,
    with blank email and username, and nothing is cached. *)
Theorem verifyToken_failure_falls_back now remote tok useCache r l :
  callsRemote jwt_decode now tok useCache r = true ->
  AuthService.parseTokenLocally jwt_decode now tok = Some l ->
  (forall data, remote <> AxiosResponse data) ->
  (forall e, remote = AxiosRejected e ->
             networkError (err_code e) = true
             \/ (err_status e <> Some 401 /\ err_status e <> Some 403)) ->
  AuthService.verifyToken jwt_decode now remote tok useCache r
  = (Return (Some (minimalUser l)), r).
Proof.
  intros Hcall Hp Hresp Hrej.
  pose proof (parseTokenLocally_truthy jwt_decode now tok l Hp) as Hl.
  unfold callsRemote in Hcall. unfold AuthService.verifyToken.
  destruct (truthy_str tok); simpl in *; [|discriminate].
  destruct (if useCache then redis_get_tokenUser now tok r else None); [discriminate|].
  rewrite Hp, Hl. cbn [negb].
  destruct remote as [data|e| |].
  - exfalso. apply (Hresp data). reflexivity.
  - f_equal. unfold AuthService.verifyToken_catch. rewrite Hl.
    destruct (networkError (err_code e)) eqn:Hnet; [reflexivity|].
    destruct (Hrej e eq_refl) as [H | [H401 H403]]; [congruence|].
    assert (Hs : forall n, err_status e <> Some n -> status_is (err_status e) n = false).
    { intros n Hn. unfold status_is. destruct (err_status e) as [s|]; [|reflexivity].
      apply Z.eqb_neq. congruence. }
    rewrite (Hs 401 H401), (Hs 403 H403).
    destruct (status_is (err_status e) 500 || status_is (err_status e) 502
              || status_is (err_status e) 503 || status_is (err_status e) 504); reflexivity.
  - unfold AuthService.verifyToken_catch. rewrite Hl. reflexivity.
  - unfold AuthService.verifyToken_catch. rewrite Hl. reflexivity.
Qed.

(** X3.  A remote success is cached for 600 s: until then fast verify
    returns the id the identity service gave (whatever id the token
    itself carries), and full verify returns that id with blank email
    and username, without a remote call. *)
Theorem verifyToken_then_cached now tok r data uid :
  callsRemote jwt_decode now tok true r = true ->
  rd_id data = Some uid -> uid <> 0 ->
  let res := AuthService.verifyToken jwt_decode now (AxiosResponse (Some data)) tok true r in
  fst res = Return (Some (mkUserInfo uid (rd_email data) (rd_username data)))
  /\ forall t, t < now + 600 * 1000 ->
       AuthService.verifyTokenFast jwt_decode t tok (snd res) = Some uid
       /\ forall remote,
            AuthService.verifyToken jwt_decode t remote tok true (snd res)
            = (Return (Some (minimalUser uid)), snd res).
Proof.
  intros Hcall Hid Hne res.
  assert (Htok : tok <> "").
  { unfold callsRemote in Hcall. apply andb_true_iff in Hcall as [H _].
    apply truthy_str_true. exact H. }
  assert (Hres : res = (Return (Some (mkUserInfo uid (rd_email data) (rd_username data))),
                        redis_setex_tokenUser now tok AuthService.tokenCacheTTL uid r)).
  { subst res. unfold callsRemote in Hcall. unfold AuthService.verifyToken.
    destruct (truthy_str tok); simpl in *; [|discriminate].
    destruct (redis_get_tokenUser now tok r); [discriminate|].
    destruct (AuthService.parseTokenLocally jwt_decode now tok) as [l|] eqn:Hp; [|discriminate].
    rewrite (parseTokenLocally_truthy jwt_decode now tok l Hp). cbn [negb].
    rewrite Hid. apply truthy_true in Hne. rewrite Hne. reflexivity. }
  rewrite Hres. cbn [fst snd]. split; [reflexivity|].
  intros t Ht.
  assert (Hhit : redis_get_tokenUser t tok
                   (redis_setex_tokenUser now tok AuthService.tokenCacheTTL uid r) = Some uid).
  { unfold redis_get_tokenUser, redis_setex_tokenUser, live. simpl.
    rewrite lookup_insert_eq. unfold AuthService.tokenCacheTTL.
    replace (t <? now + 600 * 1000) with true by (symmetry; apply Z.ltb_lt; exact Ht).
    reflexivity. }
  split.
  - apply verifyTokenFast_cache_hit; assumption.
  - intros remote. apply verifyToken_cache_hit; assumption.
Qed.

(** X4.  After [invalidateTokenCache] fast verify decides the token by the
    local check alone; the cache entries of other tokens and the
    presence keys are as before. *)
Theorem invalidateTokenCache_forgets tok r :
  (forall t, AuthService.verifyTokenFast jwt_decode t tok (AuthService.invalidateTokenCache tok r)
             = if truthy_str tok then AuthService.parseTokenLocally jwt_decode t tok else None)
  /\ (forall t tok', tok' <> tok ->
        redis_get_tokenUser t tok' (AuthService.invalidateTokenCache tok r)
        = redis_get_tokenUser t tok' r)
  /\ userOnline (AuthService.invalidateTokenCache tok r) = userOnline r
  /\ onlineUsers (AuthService.invalidateTokenCache tok r) = onlineUsers r.
Proof.
  split_and!; try reflexivity.
  - intros t. apply verifyTokenFast_cache_miss.
    unfold redis_get_tokenUser, AuthService.invalidateTokenCache, redis_del_tokenUser. simpl.
    rewrite lookup_delete_eq. reflexivity.
  - intros t tok' Hne.
    unfold redis_get_tokenUser, AuthService.invalidateTokenCache, redis_del_tokenUser. simpl.
    rewrite lookup_delete_ne by congruence. reflexivity.
Qed.

(** X5.  With [useCache = false], [verifyToken] neither reads nor writes
    Redis. *)
Theorem verifyToken_without_cache now remote tok r r' :
  snd (AuthService.verifyToken jwt_decode now remote tok false r) = r
  /\ fst (AuthService.verifyToken jwt_decode now remote tok false r)
     = fst (AuthService.verifyToken jwt_decode now remote tok false r').
Proof.
  unfold AuthService.verifyToken.
  destruct (truthy_str tok); simpl; [|auto].
  destruct (AuthService.parseTokenLocally jwt_decode now tok) as [l|]; simpl; [|auto].
  destruct (truthy l); simpl; [|auto].
  destruct remote as [[data|]|e| |]; simpl; auto.
  destruct (rd_id data) as [i|]; simpl; [|auto].
  destruct (truthy i); simpl; auto.
Qed.

End AuthMore.

Lemma verifyToken_failure_falls_back_witness :
  AuthService.verifyToken sampleDecode 1500000
    (AxiosRejected (mkAxiosError (Some "ERR_BAD_REQUEST") (Some 429)))
    "alice.valid" true emptyRedis
  = (Return (Some (minimalUser 7)), emptyRedis).
Proof.
  apply (verifyToken_failure_falls_back sampleDecode 1500000
           (AxiosRejected (mkAxiosError (Some "ERR_BAD_REQUEST") (Some 429)))
           "alice.valid" true emptyRedis 7).
  - reflexivity.
  - reflexivity.
  - discriminate.
  - intros e [= <-]. right. split; discriminate.
Defined.

Lemma verifyToken_then_cached_witness :
  let data := mkResponseData (Some 8) "bob@example.org" "bob" in
  let res := AuthService.verifyToken sampleDecode 100000 (AxiosResponse (Some data))
               "alice.valid" true emptyRedis in
  fst res = Return (Some (mkUserInfo 8 "bob@example.org" "bob"))
  /\ forall t, t < 100000 + 600 * 1000 ->
       AuthService.verifyTokenFast sampleDecode t "alice.valid" (snd res) = Some 8
       /\ forall remote,
            AuthService.verifyToken sampleDecode t remote "alice.valid" true (snd res)
            = (Return (Some (minimalUser 8)), snd res).
Proof.
  apply (verifyToken_then_cached sampleDecode 100000 "alice.valid" emptyRedis
           (mkResponseData (Some 8) "bob@example.org" "bob") 8).
  - reflexivity.
  - reflexivity.
  - lia.
Defined.

(** * Further properties of RedisService *)

Lemma isUserOnline_srem now u v r :
  RedisService.isUserOnline now u (redis_srem_onlineUsers v r)
  = RedisService.isUserOnline now u r.
Proof. reflexivity. Qed.

Lemma getOnlineUsers_fold now r0 (l : list Z) : forall acc,
  userOnline (snd acc) = userOnline r0 ->
  let res := fold_left (fun acc uid =>
               if RedisService.isUserOnline now uid (snd acc)
               then ((fst acc ++ [uid])%list, snd acc)
               else (fst acc, redis_srem_onlineUsers uid (snd acc))) l acc in
  fst res = (fst acc ++ List.filter (fun u => RedisService.isUserOnline now u r0) l)%list
  /\ userOnline (snd res) = userOnline r0
  /\ tokenUser (snd res) = tokenUser (snd acc)
  /\ (forall u, u ∈ onlineUsers (snd res)
                <-> u ∈ onlineUsers (snd acc)
                    /\ ~ (In u l /\ RedisService.isUserOnline now u r0 = false)).
Proof.
  induction l as [|x l IH]; intros acc Hacc; simpl.
  - split_and!; auto using app_nil_r. intros u. tauto.
  - assert (Hx : RedisService.isUserOnline now x (snd acc) = RedisService.isUserOnline now x r0).
    { unfold RedisService.isUserOnline, redis_exists_userOnline. rewrite Hacc. reflexivity. }
    rewrite Hx. destruct (RedisService.isUserOnline now x r0) eqn:Hlive.
    + destruct (IH ((fst acc ++ [x])%list, snd acc) Hacc) as (Hf & Hu & Ht & Hs).
      split_and!; try assumption.
      * rewrite Hf. simpl. rewrite <- app_assoc. reflexivity.
      * intros u. rewrite Hs. simpl. split.
        -- intros [Hin Hn]. split; [exact Hin|]. intros [[-> | Hl] Hd]; [congruence|].
           apply Hn. auto.
        -- intros [Hin Hn]. split; [exact Hin|]. intros [Hl Hd]. apply Hn. auto.
    + destruct (IH (fst acc, redis_srem_onlineUsers x (snd acc)) Hacc) as (Hf & Hu & Ht & Hs).
      split_and!; try assumption.
      intros u. rewrite Hs. simpl. rewrite elem_of_difference, elem_of_singleton. split.
      * intros [[Hin Hne] Hn]. split; [exact Hin|]. intros [[-> | Hl] Hd]; [congruence|].
        apply Hn. auto.
      * intros [Hin Hn]. split; [split; [exact Hin|]|].
        -- intros ->. apply Hn. auto.
        -- intros [Hl Hd]. apply Hn. auto.
Qed.

Lemma getOnlineUsers_spec now r :
  let res := RedisServiceRest.getOnlineUsers now r in
  (forall u, In u (fst res)
             <-> u ∈ onlineUsers r /\ RedisService.isUserOnline now u r = true)
  /\ List.NoDup (fst res)
  /\ (forall u, u ∈ onlineUsers (snd res)
                <-> u ∈ onlineUsers r /\ RedisService.isUserOnline now u r = true)
  /\ userOnline (snd res) = userOnline r
  /\ tokenUser (snd res) = tokenUser r.
Proof.
  unfold RedisServiceRest.getOnlineUsers.
  destruct (getOnlineUsers_fold now r (elements (onlineUsers r)) ([], r) eq_refl)
    as (Hf & Hu & Ht & Hs).
  cbv zeta. split_and!; try assumption.
  - intros u. rewrite Hf. simpl. rewrite filter_In.
    rewrite <- list_elem_of_In, elem_of_elements. tauto.
  - rewrite Hf. simpl. apply List.NoDup_filter. apply NoDup_ListNoDup, NoDup_elements.
  - intros u. rewrite Hs. simpl. rewrite <- list_elem_of_In, elem_of_elements.
    destruct (RedisService.isUserOnline now u r); split.
    + tauto.
    + intros [Hin _]. split; [exact Hin|]. intros [_ H]. discriminate.
    + intros [Hin Hn]. exfalso. apply Hn. auto.
    + intros [_ H]. discriminate.
Qed.

(** X6.  [getOnlineUsers] returns, without repetition, exactly the members
    of [online:users] whose presence key is live, removes the other
    members from the set, and touches neither the presence keys nor the
    token cache. *)
Theorem getOnlineUsers_lists_live_users now r :
  let res := RedisServiceRest.getOnlineUsers now r in
  (forall u, In u (fst res)
             <-> u ∈ onlineUsers r /\ RedisService.isUserOnline now u r = true)
  /\ List.NoDup (fst res)
  /\ (forall u, u ∈ onlineUsers (snd res)
                <-> u ∈ onlineUsers r /\ RedisService.isUserOnline now u r = true)
  /\ userOnline (snd res) = userOnline r
  /\ tokenUser (snd res) = tokenUser r.
Proof. exact (getOnlineUsers_spec now r). Qed.

Lemma redis_eq r1 r2 :
  tokenUser r1 = tokenUser r2 -> userOnline r1 = userOnline r2 ->
  onlineUsers r1 = onlineUsers r2 -> r1 = r2.
Proof. destruct r1, r2; simpl; intros; subst; reflexivity. Qed.

(** X7.  Listing the online users twice at the same instant: the second
    call finds nothing more to remove and lists the same users. *)
Theorem getOnlineUsers_twice now r :
  let res1 := RedisServiceRest.getOnlineUsers now r in
  let res2 := RedisServiceRest.getOnlineUsers now (snd res1) in
  snd res2 = snd res1 /\ forall u, In u (fst res2) <-> In u (fst res1).
Proof.
  intros res1 res2.
  destruct (getOnlineUsers_spec now r) as (H1 & _ & S1 & U1 & T1).
  destruct (getOnlineUsers_spec now (snd res1)) as (H2 & _ & S2 & U2 & T2).
  fold res1 in H1, S1, U1, T1. fold res1 res2 in H2, S2, U2, T2.
  assert (Hlive : forall u, RedisService.isUserOnline now u (snd res1)
                            = RedisService.isUserOnline now u r).
  { intros u. unfold RedisService.isUserOnline, redis_exists_userOnline. rewrite U1.
    reflexivity. }
  split.
  - apply redis_eq; try assumption.
    apply set_eq. intros u. rewrite S2, S1, Hlive. tauto.
  - intros u. rewrite H2, H1, S1, Hlive. tauto.
Qed.

Lemma isUserOnline_expired now t uid socketId r :
  now + 300 * 1000 <= t ->
  RedisService.isUserOnline t uid (RedisService.setUserOnline now uid socketId r) = false.
Proof.
  intros Ht.
  unfold RedisService.isUserOnline, RedisService.setUserOnline, redis_exists_userOnline.
  simpl. rewrite lookup_insert_eq. simpl.
  replace (t <? now + 300 * 1000) with false by (symmetry; apply Z.ltb_ge; exact Ht).
  reflexivity.
Qed.

(** X8.  A user set online is listed by [getOnlineUsers] for 300 s; from
    then on the user is not listed and the next listing removes the
    user from [online:users]; a user removed with [removeUserOnline] is
    not listed. *)
Theorem online_user_listed_until_expiry now uid socketId r :
  (forall t, t < now + 300 * 1000 ->
     In uid (fst (RedisServiceRest.getOnlineUsers t
                    (RedisService.setUserOnline now uid socketId r))))
  /\ (forall t, now + 300 * 1000 <= t ->
        let res := RedisServiceRest.getOnlineUsers t
                     (RedisService.setUserOnline now uid socketId r) in
        ~ In uid (fst res) /\ uid ∉ onlineUsers (snd res))
  /\ (forall t, ~ In uid (fst (RedisServiceRest.getOnlineUsers t
                                 (RedisService.removeUserOnline uid r)))).
Proof.
  split_and!.
  - intros t Ht.
    apply (proj1 (getOnlineUsers_spec t
                    (RedisService.setUserOnline now uid socketId r))).
    split; [|apply isUserOnline_within_ttl; exact Ht].
    unfold RedisService.setUserOnline. simpl.
    apply elem_of_union. left. apply elem_of_singleton. reflexivity.
  - intros t Ht res.
    destruct (getOnlineUsers_spec t
                (RedisService.setUserOnline now uid socketId r)) as (H1 & _ & S1 & _).
    fold res in H1, S1. rewrite H1, S1.
    rewrite (isUserOnline_expired now t uid socketId r Ht).
    split; intros [_ H]; discriminate.
  - intros t Hin.
    apply (proj1 (getOnlineUsers_spec t (RedisService.removeUserOnline uid r)))
      in Hin as [_ H].
    rewrite isUserOnline_removeUserOnline in H. discriminate.
Qed.

(** X9.  Any caller of [cacheTokenVerification] with a positive time to
    live (Redis refuses another one) makes the token resolve to the
    given user for that time: [getCachedTokenUserId] and the fast
    verify of [AuthService] return that id until the entry expires,
    whatever the token's own claims; after [invalidateTokenCache] the
    entry is gone. *)
Theorem cacheTokenVerification_round_trip (jwt_decode : string -> Decoded)
    now token uid ttl r (Httl : 0 < ttl) :
  (forall t, t < now + ttl * 1000 ->
     RedisServiceRest.getCachedTokenUserId t token
       (RedisServiceRest.cacheTokenVerification now token uid ttl r) = Some uid
     /\ (token <> "" ->
         AuthService.verifyTokenFast jwt_decode t token
           (RedisServiceRest.cacheTokenVerification now token uid ttl r) = Some uid))
  /\ (forall t, now + ttl * 1000 <= t ->
        RedisServiceRest.getCachedTokenUserId t token
          (RedisServiceRest.cacheTokenVerification now token uid ttl r) = None)
  /\ (forall t, RedisServiceRest.getCachedTokenUserId t token
                  (RedisServiceRest.invalidateTokenCache token
                     (RedisServiceRest.cacheTokenVerification now token uid ttl r)) = None).
Proof.
  unfold RedisServiceRest.getCachedTokenUserId, RedisServiceRest.cacheTokenVerification,
    RedisServiceRest.invalidateTokenCache.
  split_and!.
  - intros t Ht.
    assert (Hhit : redis_get_tokenUser t token (redis_setex_tokenUser now token ttl uid r)
                   = Some uid).
    { unfold redis_get_tokenUser, redis_setex_tokenUser, live. simpl.
      rewrite lookup_insert_eq.
      replace (t <? now + ttl * 1000) with true by (symmetry; apply Z.ltb_lt; exact Ht).
      reflexivity. }
    split; [exact Hhit|]. intros Htok. apply verifyTokenFast_cache_hit; assumption.
  - intros t Ht. unfold redis_get_tokenUser, redis_setex_tokenUser, live. simpl.
    rewrite lookup_insert_eq.
    replace (t <? now + ttl * 1000) with false by (symmetry; apply Z.ltb_ge; exact Ht).
    reflexivity.
  - intros t. unfold redis_get_tokenUser, redis_del_tokenUser, live. simpl.
    rewrite lookup_delete_eq. reflexivity.
Qed.

Lemma cacheTokenVerification_round_trip_witness :
  0 < 600
  /\ RedisServiceRest.getCachedTokenUserId 1500 "anonymous"
       (RedisServiceRest.cacheTokenVerification 1000 "anonymous" 7 600 emptyRedis) = Some 7
  /\ AuthService.verifyTokenFast sampleDecode 1500 "anonymous"
       (RedisServiceRest.cacheTokenVerification 1000 "anonymous" 7 600 emptyRedis) = Some 7.
Proof.
  assert (H : 0 < 600) by lia.
  split; [exact H|].
  destruct (cacheTokenVerification_round_trip sampleDecode 1000 "anonymous" 7 600
              emptyRedis H) as [Hhit _].
  destruct (Hhit 1500 ltac:(lia)) as [H1 H2].
  split; [exact H1|]. apply H2. discriminate.
Defined.

(** * Further properties of MessagesService *)

(** ** Pages of messages *)


Lemma orderByCreatedAt_sorted l : StronglySorted createdNotAfter (orderByCreatedAt l).
Proof. apply StronglySorted_merge_sort; apply _. Qed.

Lemma orderByCreatedAt_In l m : In m (orderByCreatedAt l) <-> In m l.
Proof.
  unfold orderByCreatedAt.
  split; intros H.
  - eapply Permutation_in; [apply (merge_sort_Permutation createdNotAfter l)|exact H].
  - eapply Permutation_in;
      [symmetry; apply (merge_sort_Permutation createdNotAfter l)|exact H].
Qed.

Lemma orderByCreatedAt_length l : length (orderByCreatedAt l) = length l.
Proof. apply Permutation_length, (merge_sort_Permutation createdNotAfter l). Qed.




(** ** The legacy mark-as-read updates *)






(** ** Marking a chat as read over HTTP *)

Lemma filter_same {A} (f g : A -> bool) (l : list A) :
  (forall x, In x l -> f x = g x) -> List.filter f l = List.filter g l.
Proof.
  induction l as [|x l IH]; intros H; simpl; [reflexivity|].
  rewrite (H x) by (left; reflexivity).
  rewrite IH by (intros y Hy; apply H; right; exact Hy). reflexivity.
Qed.

Lemma getUnreadCountForChat_other_user chatId uid d c u :
  u <> uid ->
  MessagesService.getUnreadCountForChat c u (MessagesService.markChatMessagesAsRead chatId uid d)
  = MessagesService.getUnreadCountForChat c u d.
Proof.
  intros Hu. unfold MessagesService.getUnreadCountForChat.
  destruct (markChatMessagesAsRead_tables chatId uid d) as (_ & -> & _).
  f_equal. f_equal. apply filter_same. intros m _.
  unfold MessagesService.unread. f_equal. f_equal.
  apply bool_decide_ext. rewrite markChatMessagesAsRead_receipts.
  split; [|auto]. intros [H | (m' & _ & _ & _ & Heq)]; [exact H|].
  injection Heq as _ Heq. contradiction.
Qed.

(** X12.  [PUT :chatId/mark-read] succeeds exactly for a participant of an
    existing chat.  It then answers the count 0, which is the caller's
    unread count of the chat afterwards; no message is added or removed
    and no other user's unread count changes.  A refused request
    answers 404 and leaves the store as it is. *)
Theorem http_markChatAsRead_answers_zero userId chatId d :
  match ChatsController.markChatAsRead userId chatId d with
  | (Ok n, d') =>
      n = 0
      /\ (exists chat, MessagesService.getChatById chatId d = Some chat
                       /\ ChatGateway.isParticipant chat userId = true)
      /\ MessagesService.getUnreadCountForChat chatId userId d' = 0
      /\ messages d' = messages d
      /\ (forall c u, u <> userId ->
            MessagesService.getUnreadCountForChat c u d'
            = MessagesService.getUnreadCountForChat c u d)
  | (Fail e, d') =>
      d' = d
      /\ e = NotFoundException "Chat not found or access denied"
      /\ (forall chat, MessagesService.getChatById chatId d = Some chat ->
                       ChatGateway.isParticipant chat userId = false)
  end.
Proof.
  unfold ChatsController.markChatAsRead, ChatGateway.isParticipant.
  destruct (MessagesService.getChatById chatId d) as [chat|] eqn:Hchat.
  - destruct (buyer_id chat =? userId) eqn:Hb; destruct (seller_id chat =? userId) eqn:Hs;
      cbn [negb andb orb].
    4: { split_and!; try reflexivity. intros c [= <-]. rewrite Hb, Hs. reflexivity. }
    all: split_and!;
      [ apply getUnreadCountForChat_marked
      | exists chat; rewrite ?Hb, ?Hs; split; reflexivity
      | apply getUnreadCountForChat_marked
      | apply markChatMessagesAsRead_tables
      | intros c u Hu; apply getUnreadCountForChat_other_user; exact Hu ].
  - split_and!; try reflexivity. intros c H. discriminate.
Qed.

(** ** Receipts and unread counts *)

Lemma wellFormed_empty : wellFormed emptyDatabase.
Proof.
  unfold wellFormed, emptyDatabase. simpl. split_and!.
  - constructor.
  - intros m [].
  - intros i u H. apply elem_of_empty in H. destruct H.
Qed.

Lemma wellFormed_insertMessage now chatId senderId text productId d :
  wellFormed d ->
  wellFormed (snd (MessagesService.insertMessage now chatId senderId text productId d)).
Proof.
  intros (Hnd & Hlt & Hfk). unfold wellFormed, MessagesService.insertMessage. simpl.
  split_and!.
  - rewrite map_app. simpl. apply NoDup_ListNoDup.
    apply NoDup_app. split_and!.
    + apply NoDup_ListNoDup. exact Hnd.
    + intros i Hi Hi'. apply list_elem_of_In in Hi, Hi'.
      apply in_map_iff in Hi as (m & <- & Hin).
      destruct Hi' as [Heq|[]]. specialize (Hlt m Hin). lia.
    + apply NoDup_singleton.
  - intros m Hin. apply in_app_or in Hin as [Hin | [<- | []]].
    + specialize (Hlt m Hin). lia.
    + simpl. lia.
  - intros i u Hr. destruct (Hfk i u Hr) as (m & Hin & Hid).
    exists m. split; [apply in_or_app; left; exact Hin | exact Hid].
Qed.

Lemma messageExists_In messageId d :
  MessagesService.messageExists messageId d = true
  <-> exists m, In m (messages d) /\ msg_id m = messageId.
Proof.
  unfold MessagesService.messageExists. rewrite existsb_exists.
  split; intros (m & Hin & H); exists m; (split; [exact Hin|]); apply N.eqb_eq; exact H.
Qed.

Lemma wellFormed_insertRead messageId uid d :
  wellFormed d -> MessagesService.messageExists messageId d = true ->
  wellFormed (MessagesService.insertRead messageId uid d).
Proof.
  intros (Hnd & Hlt & Hfk) Hex. unfold wellFormed, MessagesService.insertRead. simpl.
  split_and!; [exact Hnd | exact Hlt |].
  intros i u Hr. apply elem_of_union in Hr as [Hr | Hr].
  - apply elem_of_singleton in Hr. injection Hr as -> ->.
    apply messageExists_In. exact Hex.
  - apply Hfk with u. exact Hr.
Qed.

Lemma wellFormed_markChatMessagesAsRead chatId uid d :
  wellFormed d -> wellFormed (MessagesService.markChatMessagesAsRead chatId uid d).
Proof.
  intros (Hnd & Hlt & Hfk). unfold wellFormed.
  destruct (markChatMessagesAsRead_tables chatId uid d) as (_ & Hm & _ & Hn).
  rewrite Hm, Hn. split_and!; [exact Hnd | exact Hlt |].
  intros i u Hr. apply markChatMessagesAsRead_receipts in Hr.
  destruct Hr as [Hr | (m & Hin & _ & _ & Heq)].
  - apply Hfk with u. exact Hr.
  - injection Heq as -> ->. exists m. auto.
Qed.


Lemma filter_length_without {A} (key : A -> N) (f : A -> bool) (l : list A) x :
  List.NoDup (List.map key l) -> In x l ->
  Z.of_nat (length (List.filter (fun y => f y && negb (key y =? key x)%N) l))
  = Z.of_nat (length (List.filter f l)) - (if f x then 1 else 0).
Proof.
  induction l as [|a l IH]; simpl; intros Hnd Hx; [destruct Hx|].
  inversion Hnd as [|? ? Hna Hnd']; subst.
  destruct Hx as [-> | Hx].
  - rewrite N.eqb_refl, andb_false_r.
    assert (Hrest : List.filter (fun y => f y && negb (key y =? key x)%N) l = List.filter f l).
    { apply filter_same. intros y Hy.
      destruct (N.eqb_spec (key y) (key x)) as [Heq|Hne].
      - exfalso. apply Hna. rewrite <- Heq. apply in_map. exact Hy.
      - rewrite andb_true_r. reflexivity. }
    rewrite Hrest. destruct (f x); simpl length; lia.
  - specialize (IH Hnd' Hx).
    destruct (N.eqb_spec (key a) (key x)) as [Heq|Hne].
    + exfalso. apply Hna. rewrite Heq. apply in_map. exact Hx.
    + rewrite andb_true_r. destruct (f a); simpl length; lia.
Qed.

Lemma unread_insertRead c u d i uid y :
  MessagesService.unread c u (MessagesService.insertRead i uid d) y
  = MessagesService.unread c u d y && negb ((msg_id y =? i)%N && (u =? uid)).
Proof.
  unfold MessagesService.unread, MessagesService.insertRead. simpl.
  destruct (msg_chat_id y =? c)%N; [|reflexivity].
  destruct (negb (sender_id y =? u)); [|reflexivity]. simpl.
  destruct (N.eqb_spec (msg_id y) i) as [Hi|Hi]; destruct (Z.eqb_spec u uid) as [Hu|Hu];
    simpl; subst; rewrite ?andb_true_r.
  - rewrite bool_decide_eq_true_2; [|apply elem_of_union; left; apply elem_of_singleton;
                                     reflexivity].
    destruct (bool_decide _); reflexivity.
  - f_equal. apply bool_decide_ext. rewrite elem_of_union, elem_of_singleton.
    split; [|auto]. intros [H | H]; [congruence | exact H].
  - f_equal. apply bool_decide_ext. rewrite elem_of_union, elem_of_singleton.
    split; [|auto]. intros [H | H]; [congruence | exact H].
  - f_equal. apply bool_decide_ext. rewrite elem_of_union, elem_of_singleton.
    split; [|auto]. intros [H | H]; [congruence | exact H].
Qed.

(** X13.  In a store that meets its table constraints, [markMessageAsRead]
    of an unknown message is refused and changes nothing; of a known
    message [m] it succeeds, the message then counts as read by the
    user, and every unread count stays as it was except the user's
    count of the chat of [m], which drops by one if [m] was unread by
    that user (not the user's own and without a receipt). *)
Theorem markMessageAsRead_unread_count messageId uid d :
  wellFormed d ->
  (MessagesService.messageExists messageId d = false ->
   MessagesService.markMessageAsRead messageId uid d = (false, d))
  /\ forall m, In m (messages d) -> msg_id m = messageId ->
       fst (MessagesService.markMessageAsRead messageId uid d) = true
       /\ MessagesServiceRest.isMessageRead messageId uid
            (snd (MessagesService.markMessageAsRead messageId uid d)) = true
       /\ wellFormed (snd (MessagesService.markMessageAsRead messageId uid d))
       /\ forall c u,
            MessagesService.getUnreadCountForChat c u
              (snd (MessagesService.markMessageAsRead messageId uid d))
            = MessagesService.getUnreadCountForChat c u d
              - (if MessagesService.unread c u d m && (u =? uid) then 1 else 0).
Proof.
  intros Hwf. split.
  - intros Hex. unfold MessagesService.markMessageAsRead. rewrite Hex. reflexivity.
  - intros m Hin Hid.
    assert (Hex : MessagesService.messageExists messageId d = true)
      by (apply messageExists_In; eauto).
    unfold MessagesService.markMessageAsRead. rewrite Hex. cbn [fst snd].
    split_and!.
    + reflexivity.
    + unfold MessagesServiceRest.isMessageRead, MessagesService.insertRead. simpl.
      apply bool_decide_eq_true_2, elem_of_union. left. apply elem_of_singleton. reflexivity.
    + apply wellFormed_insertRead; assumption.
    + intros c u. unfold MessagesService.getUnreadCountForChat.
      change (messages (MessagesService.insertRead messageId uid d)) with (messages d).
      destruct Hwf as (Hnd & _ & _).
      destruct (Z.eqb_spec u uid) as [->|Hu].
      * rewrite andb_true_r.
        rewrite <- (filter_length_without msg_id (MessagesService.unread c uid d)
                      (messages d) m Hnd Hin).
        f_equal. f_equal. apply filter_same. intros y _.
        rewrite unread_insertRead, Z.eqb_refl, andb_true_r, Hid. reflexivity.
      * rewrite andb_false_r, Z.sub_0_r.
        f_equal. f_equal. apply filter_same. intros y _.
        rewrite unread_insertRead.
        replace (u =? uid) with false by (symmetry; apply Z.eqb_neq; exact Hu).
        rewrite andb_false_r, andb_true_r. reflexivity.
Qed.


Lemma markMessageAsRead_unread_count_witness :
  wellFormed (snd (MessagesService.createMessage 1000 5%N 7 [104%N] None emptyDatabase))
  /\ MessagesService.getUnreadCountForChat 5%N 8
       (snd (MessagesService.markMessageAsRead 0%N 8
               (snd (MessagesService.createMessage 1000 5%N 7 [104%N] None emptyDatabase)))) = 0.
Proof.
  assert (H : wellFormed (snd (MessagesService.createMessage 1000 5%N 7 [104%N] None
                                 emptyDatabase)))
    by (apply wellFormed_insertMessage, wellFormed_empty).
  split; [exact H|].
  destruct (markMessageAsRead_unread_count 0%N 8 _ H) as [_ Hm].
  destruct (Hm (mkMessage 0%N 5%N 7 [104%N] None 1000) ltac:(left; reflexivity) eq_refl)
    as (_ & _ & _ & Hc).
  rewrite Hc. reflexivity.
Defined.


(** ** Unread counts of all chats of a user *)

Lemma filter_twice {A} (f g : A -> bool) (l : list A) :
  List.filter f (List.filter g l) = List.filter (fun x => g x && f x) l.
Proof.
  induction l as [|x l IH]; simpl; [reflexivity|].
  destruct (g x); simpl; [destruct (f x)|]; rewrite IH; reflexivity.
Qed.

Lemma countByChat_lookup (l : list Message) (k : uuid) : forall acc : gmap uuid Z,
  fold_left (fun acc m => <[msg_chat_id m := default 0 (acc !! msg_chat_id m) + 1]> acc)
            l acc !! k
  = if 0 <? Z.of_nat (length (List.filter (inChat k) l))
    then Some (default 0 (acc !! k) + Z.of_nat (length (List.filter (inChat k) l)))
    else acc !! k.
Proof.
  induction l as [|m l IH]; intros acc; simpl; [reflexivity|].
  rewrite IH.
  destruct (inChat k m) eqn:Hk; unfold inChat in Hk.
  - apply N.eqb_eq in Hk. rewrite Hk, lookup_insert_eq. cbn [default length].
    set (n := length (List.filter (inChat k) l)).
    replace (0 <? Z.of_nat (S n)) with true by (symmetry; apply Z.ltb_lt; lia).
    destruct (0 <? Z.of_nat n) eqn:Hpos.
    + f_equal. unfold id. lia.
    + apply Z.ltb_ge in Hpos. f_equal. unfold id. lia.
  - apply N.eqb_neq in Hk. rewrite lookup_insert_ne by exact Hk. reflexivity.
Qed.

(** X15.  The map of [getUnreadCountsForUserChats] has an entry for a chat
    exactly when the chat exists, the user takes part in it and the
    user's unread count of it is positive; the entry then is that
    count.  So for a chat of the user the lookup with the default 0,
    as the chat list does it, is [getUnreadCountForChat]. *)
Theorem getUnreadCountsForUserChats_agrees uid d chatId :
  MessagesServiceRest.getUnreadCountsForUserChats uid d !! chatId
  = match MessagesService.getChatById chatId d with
    | Some c =>
        if ChatGateway.isParticipant c uid
           && (0 <? MessagesService.getUnreadCountForChat chatId uid d)
        then Some (MessagesService.getUnreadCountForChat chatId uid d)
        else None
    | None => None
    end
  /\ (forall c, MessagesService.getChatById chatId d = Some c ->
                ChatGateway.isParticipant c uid = true ->
                default 0 (MessagesServiceRest.getUnreadCountsForUserChats uid d !! chatId)
                = MessagesService.getUnreadCountForChat chatId uid d).
Proof.
  assert (Hmain :
    MessagesServiceRest.getUnreadCountsForUserChats uid d !! chatId
    = match MessagesService.getChatById chatId d with
      | Some c =>
          if ChatGateway.isParticipant c uid
             && (0 <? MessagesService.getUnreadCountForChat chatId uid d)
          then Some (MessagesService.getUnreadCountForChat chatId uid d)
          else None
      | None => None
      end).
  { unfold MessagesServiceRest.getUnreadCountsForUserChats.
    rewrite countByChat_lookup, lookup_empty. cbn [default]. rewrite Z.add_0_l.
    rewrite filter_twice.
    unfold MessagesService.getUnreadCountForChat, ChatGateway.isParticipant.
    destruct (MessagesService.getChatById chatId d) as [c|] eqn:Hc.
    - destruct ((buyer_id c =? uid) || (seller_id c =? uid)) eqn:Hp.
      + rewrite (filter_same _ (MessagesService.unread chatId uid d)); [reflexivity|].
        intros m _. unfold MessagesServiceRest.unreadOfUser, inChat, MessagesService.unread.
        destruct (N.eqb_spec (msg_chat_id m) chatId) as [->|Hne].
        * rewrite Hc, Hp, andb_true_r. reflexivity.
        * rewrite andb_false_r. reflexivity.
      + rewrite filter_none; [reflexivity|].
        intros m _. unfold MessagesServiceRest.unreadOfUser, inChat.
        destruct (N.eqb_spec (msg_chat_id m) chatId) as [->|Hne].
        * rewrite Hc, Hp. reflexivity.
        * apply andb_false_r.
    - rewrite filter_none; [reflexivity|].
      intros m _. unfold MessagesServiceRest.unreadOfUser, inChat.
      destruct (N.eqb_spec (msg_chat_id m) chatId) as [->|Hne].
      + rewrite Hc. reflexivity.
      + apply andb_false_r. }
  split; [exact Hmain|].
  intros c Hc Hp. rewrite Hmain, Hc, Hp. cbn [andb].
  destruct (0 <? MessagesService.getUnreadCountForChat chatId uid d) eqn:Hpos;
    [reflexivity|].
  apply Z.ltb_ge in Hpos. cbn [default].
  unfold MessagesService.getUnreadCountForChat in *. lia.
Qed.

(** ** Lists of unread ids and read status *)

(** X16.  [getUnreadMessageIds] lists the ids of exactly the messages counted
    by [getUnreadCountForChat], oldest first, as many as the count;
    after [markChatMessagesAsRead] the list is empty. *)
Theorem getUnreadMessageIds_matches_count chatId uid d :
  Z.of_nat (length (MessagesServiceRest.getUnreadMessageIds chatId uid d))
  = MessagesService.getUnreadCountForChat chatId uid d
  /\ (exists ms,
        MessagesServiceRest.getUnreadMessageIds chatId uid d = List.map msg_id ms
        /\ StronglySorted createdNotAfter ms
        /\ Permutation ms (List.filter (MessagesService.unread chatId uid d) (messages d)))
  /\ (forall i, In i (MessagesServiceRest.getUnreadMessageIds chatId uid d)
                <-> exists m, In m (messages d) /\ msg_id m = i
                              /\ MessagesService.unread chatId uid d m = true)
  /\ MessagesServiceRest.getUnreadMessageIds chatId uid
       (MessagesService.markChatMessagesAsRead chatId uid d) = [].
Proof.
  unfold MessagesServiceRest.getUnreadMessageIds, MessagesService.getUnreadCountForChat.
  split_and!.
  - rewrite length_map, orderByCreatedAt_length. reflexivity.
  - eexists. split; [reflexivity|]. split; [apply orderByCreatedAt_sorted|].
    apply (merge_sort_Permutation createdNotAfter).
  - intros i. rewrite in_map_iff. split.
    + intros (m & Hid & Hin). apply orderByCreatedAt_In, filter_In in Hin. exists m. tauto.
    + intros (m & Hin & Hid & Hu). exists m. split; [exact Hid|].
      apply orderByCreatedAt_In, filter_In. auto.
  - pose proof (getUnreadCountForChat_marked chatId uid d) as H0.
    unfold MessagesService.getUnreadCountForChat in H0.
    destruct (List.filter _ _) as [|x l] eqn:Hf in H0; [|simpl in H0; lia].
    rewrite Hf. reflexivity.
Qed.

Lemma setAll_lookup {V} (v : V) (l : list uuid) (i : uuid) : forall acc : gmap uuid V,
  fold_left (fun acc j => <[j := v]> acc) l acc !! i
  = if existsb (fun j => (j =? i)%N) l then Some v else acc !! i.
Proof.
  induction l as [|j l IH]; intros acc; simpl; [reflexivity|].
  rewrite IH. destruct (existsb (fun j => (j =? i)%N) l);
    [rewrite orb_true_r; reflexivity|].
  rewrite orb_false_r. destruct (N.eqb_spec j i) as [->|Hne].
  - apply lookup_insert_eq.
  - apply lookup_insert_ne. exact Hne.
Qed.

Lemma existsb_In_uuid (l : list uuid) (i : uuid) :
  existsb (fun j => (j =? i)%N) l = true <-> In i l.
Proof.
  rewrite existsb_exists. split.
  - intros (j & Hin & Hj). apply N.eqb_eq in Hj. subst. exact Hin.
  - intros Hin. exists i. split; [exact Hin | apply N.eqb_refl].
Qed.

Lemma getMessagesReadStatus_In ids uid d i :
  In i ids ->
  MessagesServiceRest.getMessagesReadStatus ids uid d !! i
  = Some (MessagesServiceRest.isMessageRead i uid d).
Proof.
  intros Hin. unfold MessagesServiceRest.getMessagesReadStatus.
  destruct ids as [|j ids]; [destruct Hin|].
  cbv zeta. rewrite !setAll_lookup, lookup_empty.
  replace (existsb (fun k => (k =? i)%N) (j :: ids)) with true
    by (symmetry; apply existsb_In_uuid; exact Hin).
  match goal with
  | |- context [existsb ?f (List.filter ?g ?l)] =>
      destruct (existsb f (List.filter g l)) eqn:Hr
  end.
  - apply existsb_In_uuid, filter_In in Hr as [_ ->]. reflexivity.
  - destruct (MessagesServiceRest.isMessageRead i uid d) eqn:Hread; [|reflexivity].
    exfalso. apply not_true_iff_false in Hr. apply Hr.
    apply existsb_In_uuid, filter_In. auto.
Qed.

(** X17.  The map of [getMessagesReadStatus] has an entry for exactly the
    ids asked for, and the entry tells whether the user has a receipt
    for that message (repeated ids and ids of no message included). *)
Theorem getMessagesReadStatus_lookup ids uid d i :
  (In i ids ->
   MessagesServiceRest.getMessagesReadStatus ids uid d !! i
   = Some (MessagesServiceRest.isMessageRead i uid d))
  /\ (~ In i ids -> MessagesServiceRest.getMessagesReadStatus ids uid d !! i = None).
Proof.
  split; [apply getMessagesReadStatus_In|].
  intros Hn. unfold MessagesServiceRest.getMessagesReadStatus.
  destruct ids as [|j ids]; [apply lookup_empty|].
  cbv zeta. rewrite !setAll_lookup, lookup_empty.
  match goal with
  | |- context [existsb ?f (List.filter ?g ?l)] =>
      destruct (existsb f (List.filter g l)) eqn:Hr
  end.
  - apply existsb_In_uuid, filter_In in Hr as [Hin _]. contradiction.
  - destruct (existsb (fun k => (k =? i)%N) (j :: ids)) eqn:He; [|reflexivity].
    apply existsb_In_uuid in He. contradiction.
Qed.

(** ** The last message of a chat *)

Lemma latest_fold (l : list Message) : forall best,
  match fold_left (fun best m =>
                     match best with
                     | None => Some m
                     | Some b => if msg_created_at b <=? msg_created_at m then Some m else Some b
                     end) l best with
  | None => best = None /\ l = []
  | Some x =>
      (In x l \/ best = Some x)
      /\ (forall m, In m l -> msg_created_at m <= msg_created_at x)
      /\ (forall b, best = Some b -> msg_created_at b <= msg_created_at x)
  end.
Proof.
  induction l as [|a l IH]; intros best; simpl.
  - destruct best as [b|]; [|auto].
    split_and!; [auto | intros m [] | intros b' [= ->]; lia].
  - match goal with |- context [fold_left ?f l ?b0] => specialize (IH b0) end.
    match goal with |- context [fold_left ?f l ?b0] =>
      destruct (fold_left f l b0) as [x|] end.
    + destruct IH as (Hin & Hmax & Hbest). split_and!.
      * destruct Hin as [Hin | Hin]; [auto|].
        destruct best as [b|]; [|injection Hin as <-; auto].
        destruct (msg_created_at b <=? msg_created_at a); injection Hin as <-; auto.
      * intros m [<- | Hm]; [|auto].
        destruct best as [b|]; [|apply Hbest; reflexivity].
        destruct (Z.leb_spec (msg_created_at b) (msg_created_at a)) as [Hle|Hlt].
        -- apply Hbest. reflexivity.
        -- specialize (Hbest b eq_refl). lia.
      * intros b ->.
        destruct (Z.leb_spec (msg_created_at b) (msg_created_at a)) as [Hle|Hlt].
        -- specialize (Hbest a eq_refl). lia.
        -- apply Hbest. reflexivity.
    + destruct IH as [IH _]. destruct best as [b|]; [|discriminate].
      destruct (msg_created_at b <=? msg_created_at a); discriminate.
Qed.

Lemma maxCreatedAt_spec chatId d :
  match MessagesServiceRest.maxCreatedAt chatId d with
  | None => List.filter (inChat chatId) (messages d) = []
  | Some t =>
      (exists x, In x (List.filter (inChat chatId) (messages d)) /\ msg_created_at x = t)
      /\ forall m, In m (List.filter (inChat chatId) (messages d)) -> msg_created_at m <= t
  end.
Proof.
  unfold MessagesServiceRest.maxCreatedAt.
  generalize (List.filter (inChat chatId) (messages d)). intros l.
  assert (H : forall acc,
    match fold_left (fun acc m =>
                       match acc with
                       | None => Some (msg_created_at m)
                       | Some t => Some (Z.max t (msg_created_at m))
                       end) l acc with
    | None => acc = None /\ l = []
    | Some t =>
        ((exists x, In x l /\ msg_created_at x = t) \/ acc = Some t)
        /\ (forall m, In m l -> msg_created_at m <= t)
        /\ (forall a, acc = Some a -> a <= t)
    end).
  { induction l as [|a l IH]; intros acc; simpl.
    - destruct acc as [t|]; [|auto].
      split_and!; [auto | intros m [] | intros a [= ->]; lia].
    - match goal with |- context [fold_left ?f l ?b0] => specialize (IH b0) end.
      match goal with |- context [fold_left ?f l ?b0] =>
        destruct (fold_left f l b0) as [t|] end.
      + destruct IH as (Hin & Hmax & Hacc). split_and!.
        * destruct Hin as [(x & Hx & Ht) | Hin]; [left; exists x; auto|].
          destruct acc as [t0|]; injection Hin as <-.
          -- destruct (Z.max_spec t0 (msg_created_at a)) as [[_ ->] | [_ ->]];
               [left; exists a; auto | right; reflexivity].
          -- left. exists a. auto.
        * intros m [<- | Hm]; [|auto].
          destruct acc as [t0|]; [specialize (Hacc _ eq_refl); lia|].
          apply Hacc. reflexivity.
        * intros t0 ->. specialize (Hacc _ eq_refl). lia.
      + destruct IH as [IH _]. destruct acc; discriminate. }
  specialize (H None).
  match goal with |- context [fold_left ?f l None] =>
    destruct (fold_left f l None) as [t|] end.
  - destruct H as ([Hx | Hx] & Hmax & _); [|discriminate]. auto.
  - destruct H as [_ H]. exact H.
Qed.

Lemma setByChat_lookup (rows : list Message) (k : uuid) : forall acc : gmap uuid Message,
  match fold_left (fun acc row => <[msg_chat_id row := row]> acc) rows acc !! k with
  | Some r => (In r rows /\ msg_chat_id r = k) \/ acc !! k = Some r
  | None => acc !! k = None /\ forall r, In r rows -> msg_chat_id r <> k
  end.
Proof.
  induction rows as [|a rows IH]; intros acc; simpl.
  - destruct (acc !! k); [auto|]. split; [reflexivity | intros r []].
  - specialize (IH (<[msg_chat_id a := a]> acc)).
    destruct (fold_left _ rows _ !! k) as [r|].
    + destruct IH as [[Hin Hk] | Hacc]; [auto|].
      destruct (N.eqb_spec (msg_chat_id a) k) as [Heq|Hne].
      * rewrite Heq, lookup_insert_eq in Hacc. injection Hacc as <-. auto.
      * rewrite lookup_insert_ne in Hacc by exact Hne. auto.
    + destruct IH as [Hacc Hrows].
      destruct (N.eqb_spec (msg_chat_id a) k) as [Heq|Hne].
      * rewrite Heq, lookup_insert_eq in Hacc. discriminate.
      * rewrite lookup_insert_ne in Hacc by exact Hne.
        split; [exact Hacc|]. intros r [<- | Hr]; auto.
Qed.

(** X18.  [getLastMessage] answers null exactly for a chat without messages,
    and otherwise a message of the chat that no message of the chat is
    newer than.  The map of [getLastMessagesForChats] has such a
    message for every asked chat that has messages, and no entry for
    any other chat. *)
Theorem last_message_is_newest chatId chatIds d :
  match MessagesServiceRest.getLastMessage chatId d with
  | None => forall m, In m (messages d) -> msg_chat_id m <> chatId
  | Some x =>
      In x (messages d) /\ msg_chat_id x = chatId
      /\ forall m, In m (messages d) -> msg_chat_id m = chatId ->
                   msg_created_at m <= msg_created_at x
  end
  /\ match MessagesServiceRest.getLastMessagesForChats chatIds d !! chatId with
     | None => ~ In chatId chatIds \/ forall m, In m (messages d) -> msg_chat_id m <> chatId
     | Some x =>
         In chatId chatIds /\ In x (messages d) /\ msg_chat_id x = chatId
         /\ forall m, In m (messages d) -> msg_chat_id m = chatId ->
                      msg_created_at m <= msg_created_at x
     end.
Proof.
  assert (HinChat : forall m, In m (List.filter (inChat chatId) (messages d))
                              <-> In m (messages d) /\ msg_chat_id m = chatId).
  { intros m. rewrite filter_In. unfold inChat. rewrite N.eqb_eq. tauto. }
  split.
  - unfold MessagesServiceRest.getLastMessage, MessagesService.latest.
    pose proof (latest_fold (List.filter (inChat chatId) (messages d)) None) as H.
    match goal with |- context [fold_left ?f ?l None] =>
      destruct (fold_left f l None) as [x|] end.
    + destruct H as ([Hin | Hin] & Hmax & _); [|discriminate].
      apply HinChat in Hin as [Hin Hc]. split_and!; [exact Hin | exact Hc |].
      intros m Hm Hmc. apply Hmax, HinChat. auto.
    + destruct H as [_ Hnil]. intros m Hm Hc.
      assert (Hin : In m (List.filter (inChat chatId) (messages d))) by (apply HinChat; auto).
      rewrite Hnil in Hin. destruct Hin.
  - pose proof (maxCreatedAt_spec chatId d) as Hmax.
    unfold MessagesServiceRest.getLastMessagesForChats.
    destruct chatIds as [|c0 ids]; [rewrite lookup_empty; left; intros []|].
    cbv zeta. set (asked := c0 :: ids).
    match goal with |- context [fold_left ?f ?rows ∅] =>
      pose proof (setByChat_lookup rows chatId ∅) as H;
      destruct (fold_left f rows ∅ !! chatId) as [x|] end.
    + destruct H as [[Hin Hc] | H]; [|rewrite lookup_empty in H; discriminate].
      apply filter_In in Hin as [Hin Hrow]. apply andb_true_iff in Hrow as [Hask Ht].
      rewrite Hc in Hask, Ht.
      apply existsb_exists in Hask as (c & Hcin & Hceq). apply N.eqb_eq in Hceq. subst c.
      split_and!; try assumption.
      destruct (MessagesServiceRest.maxCreatedAt chatId d) as [t|]; [|discriminate].
      apply Z.eqb_eq in Ht. destruct Hmax as [_ Hmax].
      intros m Hm Hmc. rewrite Ht. apply Hmax, HinChat. auto.
    + destruct H as [_ Hrows].
      destruct (existsb (fun c => (chatId =? c)%N) asked) eqn:Hask.
      * right. intros m Hm Hc.
        destruct (MessagesServiceRest.maxCreatedAt chatId d) as [t|] eqn:Hmx.
        -- destruct Hmax as [(x & Hx & Ht) _]. apply HinChat in Hx as [Hx Hxc].
           apply (Hrows x); [|exact Hxc].
           apply filter_In. split; [exact Hx|]. rewrite Hxc.
           rewrite Hask, Hmx. cbn [andb]. apply Z.eqb_eq. exact Ht.
        -- assert (Hin : In m (List.filter (inChat chatId) (messages d)))
             by (apply HinChat; auto).
           rewrite Hmax in Hin. destruct Hin.
      * left. intros Hin. apply not_true_iff_false in Hask. apply Hask.
        apply existsb_exists. exists chatId. split; [exact Hin | apply N.eqb_refl].
Qed.

(** ** The product context of a chat *)

Lemma upsertContext_find_other row l k :
  ctx_chat_id row <> k ->
  find (fun x => (ctx_chat_id x =? k)%N) (MessagesService.upsertContext row l)
  = find (fun x => (ctx_chat_id x =? k)%N) l.
Proof.
  intros Hne. induction l as [|x l IH]; simpl.
  - replace (ctx_chat_id row =? k)%N with false by (symmetry; apply N.eqb_neq; exact Hne).
    reflexivity.
  - destruct (N.eqb_spec (ctx_chat_id x) (ctx_chat_id row)) as [Heq|Hx]; simpl.
    + replace (ctx_chat_id row =? k)%N with false by (symmetry; apply N.eqb_neq; exact Hne).
      replace (ctx_chat_id x =? k)%N with false
        by (symmetry; apply N.eqb_neq; rewrite Heq; exact Hne).
      reflexivity.
    + destruct (ctx_chat_id x =? k)%N; [reflexivity | exact IH].
Qed.

Lemma updateChatContext_keeps now chatId p d cid x :
  MessagesService.getChatContext cid d = Some x ->
  truthy_opt (current_product_id x) = true ->
  MessagesService.getChatContext cid (MessagesService.updateChatContext now chatId p d)
  = Some x.
Proof.
  intros Hx Ht. unfold MessagesService.updateChatContext.
  destruct (0 <? _); [exact Hx|].
  destruct (N.eq_dec chatId cid) as [->|Hne].
  - rewrite Hx, Ht. exact Hx.
  - destruct (match MessagesService.getChatContext chatId d with
              | Some y => negb (truthy_opt (current_product_id y))
              | None => true
              end); [|exact Hx].
    unfold MessagesService.getChatContext in *. simpl.
    rewrite upsertContext_find_other by exact Hne. exact Hx.
Qed.

Lemma updateChatContext_messages now chatId p d :
  messages (MessagesService.updateChatContext now chatId p d) = messages d
  /\ read_messages (MessagesService.updateChatContext now chatId p d) = read_messages d.
Proof.
  unfold MessagesService.updateChatContext.
  destruct (0 <? _); [auto|].
  destruct (match MessagesService.getChatContext chatId d with
            | Some y => negb (truthy_opt (current_product_id y))
            | None => true
            end); auto.
Qed.

(** X19.  [createChat] never replaces a product that the context of any chat
    already names.  It leaves all receipts and all messages in place,
    and adds at most one message: one with empty text that carries the
    given product, in the chat it returns and sent by the buyer. *)
Theorem createChat_keeps_product_context now a b p d :
  (forall cid x,
     MessagesService.getChatContext cid d = Some x ->
     truthy_opt (current_product_id x) = true ->
     MessagesService.getChatContext cid (snd (MessagesService.createChat now a b p d))
     = Some x)
  /\ read_messages (snd (MessagesService.createChat now a b p d)) = read_messages d
  /\ (messages (snd (MessagesService.createChat now a b p d)) = messages d
      \/ exists q i,
           p = Some q /\ q <> 0
           /\ messages (snd (MessagesService.createChat now a b p d))
              = (messages d
                 ++ [mkMessage i (chat_id (fst (MessagesService.createChat now a b p d)))
                               a [] (Some q) now])%list).
Proof.
  unfold MessagesService.createChat.
  assert (Hins : chat_context (snd (MessagesService.insertChat now a b d)) = chat_context d
                 /\ messages (snd (MessagesService.insertChat now a b d)) = messages d
                 /\ read_messages (snd (MessagesService.insertChat now a b d))
                    = read_messages d).
  { rewrite insertChat_spec. destruct (chatOf a b d); simpl; auto. }
  destruct (MessagesService.insertChat now a b d) as [chat d1].
  cbn [snd] in Hins. destruct Hins as (Hctx & Hmsg & Hread).
  assert (Hget : forall cid, MessagesService.getChatContext cid d1
                             = MessagesService.getChatContext cid d).
  { intros cid. unfold MessagesService.getChatContext. rewrite Hctx. reflexivity. }
  destruct p as [q|]; [|cbn [fst snd]; split_and!; [intros; rewrite Hget| |]; auto].
  destruct (truthy q) eqn:Hq; [|cbn [fst snd]; split_and!; [intros; rewrite Hget| |]; auto].
  apply truthy_true in Hq.
  destruct (match MessagesService.getChatContext (chat_id chat) d1 with
            | Some y => negb (truthy_opt (current_product_id y))
            | None => true
            end); cbn [fst snd].
  - destruct (updateChatContext_messages now (chat_id chat) q d1) as [Hm Hr].
    split_and!.
    + intros cid x Hx Ht. apply updateChatContext_keeps; [rewrite Hget|]; assumption.
    + rewrite Hr. exact Hread.
    + left. rewrite Hm. exact Hmsg.
  - unfold MessagesService.createProductContextMessage.
    destruct (match MessagesService.latest _ with Some _ => _ | None => _ end);
      cbn [snd MessagesService.insertMessage messages read_messages].
    + split_and!; [intros; rewrite Hget| |]; auto.
    + split_and!.
      * intros cid x Hx Ht. unfold MessagesService.getChatContext in *. simpl.
        rewrite Hctx. exact Hx.
      * exact Hread.
      * right. exists q, (next_uuid d1). rewrite Hmsg. auto.
Qed.

(** ** Creating and reading a chat over HTTP *)



(** X21.  [GET /api/chats/:chatId] answers a chat only to a participant of
    it: the stored chat of that id, the product of its context (never
    the falsy 0) and the page [getMessages chatId 100 0].  To anyone
    else, and for an unknown id, it answers 404. *)
Theorem http_getChat_participants_only userId chatId d :
  match ChatsController.getChat userId chatId d with
  | Ok (chat, current, msgs) =>
      In chat (chats d) /\ chat_id chat = chatId
      /\ ChatGateway.isParticipant chat userId = true
      /\ MessagesServiceRest.getMessages chatId 100 0 d = Some msgs
      /\ current <> Some 0
      /\ (forall p, current = Some p ->
            exists context, MessagesService.getChatContext chatId d = Some context
                            /\ current_product_id context = Some p)
  | Fail e =>
      e = NotFoundException "Chat not found"
      /\ forall chat, In chat (chats d) -> chat_id chat = chatId ->
                      ChatGateway.isParticipant chat userId = false
  end.
Proof.
  unfold ChatsController.getChat, MessagesServiceRest.getChatWithMessages,
    ChatGateway.isParticipant.
  destruct (find _ (chats d)) as [chat|] eqn:Hfind.
  - apply find_some in Hfind as [Hin Hp]. apply andb_true_iff in Hp as [Hid Hp].
    apply N.eqb_eq in Hid.
    change (MessagesServiceRest.getMessages chatId 100 0 d)
      with (Some (rev (firstn (Z.to_nat 100) (skipn (Z.to_nat 0)
              (rev (orderByCreatedAt (List.filter (inChat chatId) (messages d)))))))).
    cbv iota beta. split_and!; try assumption; try reflexivity.
    + destruct (MessagesService.getChatContext chatId d) as [context|]; [|discriminate].
      destruct (truthy_opt (current_product_id context)) eqn:Ht; [|discriminate].
      intros Heq. rewrite Heq in Ht. discriminate.
    + intros p Hp'.
      destruct (MessagesService.getChatContext chatId d) as [context|]; [|discriminate].
      destruct (truthy_opt (current_product_id context)); [|discriminate].
      exists context. auto.
  - split; [reflexivity|]. intros chat Hin Hid.
    pose proof (find_none _ _ Hfind chat Hin) as H. cbv beta in H.
    rewrite Hid, N.eqb_refl in H. exact H.
Qed.

(** ** Read marks in the message list *)







(** ** Archive and favourite flags *)

Lemma settings_lookup_other (s : gmap (uuid * Z) ChatSettings) k k' row :
  k' <> k -> default (mkChatSettings false false) (<[k := row]> s !! k')
             = default (mkChatSettings false false) (s !! k').
Proof. intros Hne. rewrite lookup_insert_ne by congruence. reflexivity. Qed.

(** X23.  [PUT :chatId/archive] and [PUT :chatId/favorite] succeed exactly for
    a participant of an existing chat.  Each then sets its own flag of
    the caller's settings for that chat to the given value and answers
    it, keeps the other flag, and touches the settings of no other user
    or chat.  A refused request answers 404 and changes nothing. *)
Theorem http_toggle_sets_one_flag userId chatId value d s :
  match ChatsController.toggleArchive userId chatId value d s with
  | (Ok v, s') =>
      v = value
      /\ (exists chat, MessagesService.getChatById chatId d = Some chat
                       /\ ChatGateway.isParticipant chat userId = true)
      /\ is_archived (MessagesServiceRest.getChatSettings chatId userId s') = value
      /\ is_favorite (MessagesServiceRest.getChatSettings chatId userId s')
         = is_favorite (MessagesServiceRest.getChatSettings chatId userId s)
      /\ (forall c u, (c, u) <> (chatId, userId) ->
            MessagesServiceRest.getChatSettings c u s'
            = MessagesServiceRest.getChatSettings c u s)
  | (Fail e, s') =>
      s' = s /\ e = NotFoundException "Chat not found or access denied"
      /\ (forall chat, MessagesService.getChatById chatId d = Some chat ->
                       ChatGateway.isParticipant chat userId = false)
  end
  /\ match ChatsController.toggleFavorite userId chatId value d s with
     | (Ok v, s') =>
         v = value
         /\ (exists chat, MessagesService.getChatById chatId d = Some chat
                          /\ ChatGateway.isParticipant chat userId = true)
         /\ is_favorite (MessagesServiceRest.getChatSettings chatId userId s') = value
         /\ is_archived (MessagesServiceRest.getChatSettings chatId userId s')
            = is_archived (MessagesServiceRest.getChatSettings chatId userId s)
         /\ (forall c u, (c, u) <> (chatId, userId) ->
               MessagesServiceRest.getChatSettings c u s'
               = MessagesServiceRest.getChatSettings c u s)
     | (Fail e, s') =>
         s' = s /\ e = NotFoundException "Chat not found or access denied"
         /\ (forall chat, MessagesService.getChatById chatId d = Some chat ->
                          ChatGateway.isParticipant chat userId = false)
     end.
Proof.
  unfold ChatsController.toggleArchive, ChatsController.toggleFavorite,
    MessagesServiceRest.toggleChatArchive, MessagesServiceRest.toggleChatFavorite,
    MessagesServiceRest.getChatSettings, ChatGateway.isParticipant.
  destruct (MessagesService.getChatById chatId d) as [chat|] eqn:Hchat.
  2: { split; (split_and!; [reflexivity | reflexivity | intros c H; discriminate]). }
  destruct (negb (buyer_id chat =? userId) && negb (seller_id chat =? userId)) eqn:Hp.
  { apply andb_true_iff in Hp as [Hb Hs]. apply negb_true_iff in Hb, Hs.
    split; (split_and!; [reflexivity | reflexivity |]);
      intros c [= <-]; rewrite Hb, Hs; reflexivity. }
  assert (Hpart : (buyer_id chat =? userId) || (seller_id chat =? userId) = true).
  { destruct (buyer_id chat =? userId); [reflexivity|].
    destruct (seller_id chat =? userId); [reflexivity | discriminate]. }
  split; (split_and!; [reflexivity | exists chat; auto | | |]).
  all: try (intros c u Hne; apply settings_lookup_other; exact Hne).
  all: unfold UserChatSettings in *.
  all: rewrite lookup_insert_eq; cbn [default is_archived is_favorite].
  all: destruct (s !! (chatId, userId)); reflexivity.
Qed.

(** * HttpAuthGuard *)

Section Guard.

Variable jwt_decode : string -> Decoded.

(** X24.  [canActivate] lets a request pass only when its [Authorization]
    header starts with [Bearer ] and [verifyToken] accepts the rest of
    it, which then is not empty; the user attached to the request is
    the one [verifyToken] returned, with an id other than 0 when no
    cache entry holds 0.  Every other request is refused with an
    [UnauthorizedException]: for a missing or malformed header without
    touching the cache, otherwise because the token is invalid. *)
Theorem canActivate_bearer_only now remote authorization r :
  match HttpAuthGuard.canActivate jwt_decode now remote authorization r with
  | (Return userInfo, r') =>
      exists authHeader,
        authorization = Some authHeader
        /\ String.prefix "Bearer " authHeader = true
        /\ String.substring 7 (String.length authHeader - 7) authHeader <> ""
        /\ AuthService.verifyToken jwt_decode now remote
             (String.substring 7 (String.length authHeader - 7) authHeader) true r
           = (Return (Some userInfo), r')
        /\ (cacheNonzero r -> ui_id userInfo <> 0)
  | (Throw e, r') =>
      (e = UnauthorizedException "Missing or invalid authorization header"
       /\ r' = r
       /\ forall authHeader, authorization = Some authHeader ->
                             String.prefix "Bearer " authHeader = false)
      \/ (e = UnauthorizedException "Invalid or expired token"
          /\ exists authHeader,
               authorization = Some authHeader
               /\ String.prefix "Bearer " authHeader = true
               /\ AuthService.verifyToken jwt_decode now remote
                    (String.substring 7 (String.length authHeader - 7) authHeader) true r
                  = (Return None, r'))
  end.
Proof.
  unfold HttpAuthGuard.canActivate.
  destruct authorization as [authHeader|].
  2: { left. split_and!; try reflexivity. intros h H. discriminate. }
  destruct (String.prefix "Bearer " authHeader) eqn:Hpre.
  2: { rewrite orb_true_r. left. split_and!; try reflexivity.
       intros h [= <-]. exact Hpre. }
  destruct (truthy_str authHeader) eqn:Hh.
  2: { destruct authHeader; discriminate. }
  cbn [negb orb].
  set (tok := String.substring 7 (String.length authHeader - 7) authHeader).
  destruct (verifyToken_returns jwt_decode now remote tok true r) as [v Hv].
  pose proof (verifyToken_id_nonzero jwt_decode now remote tok true r) as Hnz.
  destruct (AuthService.verifyToken jwt_decode now remote tok true r) as [res r'] eqn:Hres.
  cbn [fst] in Hv, Hnz. subst res.
  destruct v as [userInfo|].
  - exists authHeader. split_and!; try reflexivity; try assumption.
    + intros Hempty. unfold tok in Hres. rewrite Hempty in Hres.
      unfold AuthService.verifyToken in Hres. simpl in Hres. discriminate.
    + intros Hc. apply Hnz; [exact Hc | reflexivity].
  - right. split; [reflexivity|]. exists authHeader. auto.
Qed.

End Guard.

(** * ChatGateway: joining a chat, listing who is online *)

Section GatewayRest.

Variable jwt_decode : string -> Decoded.

(** X25.  [chat:join] succeeds exactly for a socket whose session is valid
    and whose user takes part in the chat.  The socket then is in the
    room of the chat, it gets the page [getMessages chatId 50 0], and
    nothing else changes: no other socket, no session, no event, and
    not the registry, the cache or the store.  A refused request
    leaves every socket in the rooms it was in. *)
Theorem handleJoinChat_participants_only now chatId sid g :
  match ChatGatewayRest.handleJoinChat jwt_decode now chatId sid g with
  | (g', join_success msgs) =>
      (exists uid tok chat,
         ChatGateway.checkSession jwt_decode now sid g = Authorized uid tok
         /\ MessagesService.getChatById chatId (db g) = Some chat
         /\ ChatGateway.isParticipant chat uid = true)
      /\ ChatRoom chatId ∈ rooms (client sid g')
      /\ (forall s, s <> sid -> sockets g' !! s = sockets g !! s)
      /\ MessagesServiceRest.getMessages chatId 50 0 (db g) = Some msgs
      /\ sameButRoomsAndEvents g g'
      /\ delivered g' = delivered g
  | (g', join_error error code) =>
      sockets g' = sockets g /\ db g' = db g /\ redis g' = redis g
      /\ userSockets g' = userSockets g
      /\ (forall uid tok chat,
            ChatGateway.checkSession jwt_decode now sid g = Authorized uid tok ->
            MessagesService.getChatById chatId (db g) = Some chat ->
            ChatGateway.isParticipant chat uid = false)
  end.
Proof.
  unfold ChatGatewayRest.handleJoinChat, ChatGateway.isParticipant.
  destruct (ChatGateway.checkSession jwt_decode now sid g) as [| |uid tok] eqn:Hs.
  - split_and!; try reflexivity. intros u t c H. discriminate.
  - split_and!; try reflexivity. intros u t c H. discriminate.
  - destruct (MessagesService.getChatById chatId (db g)) as [chat|] eqn:Hchat.
    2: { split_and!; try reflexivity. intros u t c _ H. discriminate. }
    destruct (negb (buyer_id chat =? uid) && negb (seller_id chat =? uid)) eqn:Hp.
    { split_and!; try reflexivity. intros u t c [= <- <-] [= <-].
      apply andb_true_iff in Hp as [Hb Hse]. apply negb_true_iff in Hb, Hse.
      rewrite Hb, Hse. reflexivity. }
    change (db (socket_join sid (ChatRoom chatId) g)) with (db g).
    change (MessagesServiceRest.getMessages chatId 50 0 (db g))
      with (Some (rev (firstn (Z.to_nat 50) (skipn (Z.to_nat 0)
              (rev (orderByCreatedAt (List.filter (inChat chatId) (messages (db g))))))))).
    cbv iota beta.
    apply checkSession_Authorized in Hs as Hsess. destruct Hsess as (Hu & _).
    split_and!.
    + exists uid, tok, chat. split_and!; try reflexivity.
      destruct (buyer_id chat =? uid); [reflexivity|].
      destruct (seller_id chat =? uid); [reflexivity | discriminate].
    + unfold client in Hu |- *. unfold socket_join, set_sockets. cbn [sockets].
      rewrite lookup_alter_eq.
      destruct (sockets g !! sid) as [so|]; cbn [fmap option_fmap option_map default rooms];
        [|discriminate].
      apply elem_of_union. left. apply elem_of_singleton. reflexivity.
    + intros s Hne. unfold socket_join, set_sockets. cbn [sockets].
      apply lookup_alter_ne. congruence.
    + reflexivity.
    + apply socket_join_same.
    + reflexivity.
Qed.

(** X26.  [users:online] answers a socket with a valid session, and no other,
    with exactly the users of the online set whose presence key is
    live, none twice; it delivers no event then and changes neither the
    sockets, the registry, the store nor anyone's presence.  A refused
    request leaves the cache as it is. *)
Theorem handleGetOnlineUsers_lists_live_users now sid g :
  match ChatGatewayRest.handleGetOnlineUsers jwt_decode now sid g with
  | (g', online_success users) =>
      (exists uid tok, ChatGateway.checkSession jwt_decode now sid g = Authorized uid tok)
      /\ (forall u, In u users
                    <-> u ∈ onlineUsers (redis g)
                        /\ RedisService.isUserOnline now u (redis g) = true)
      /\ List.NoDup users
      /\ (forall t u, RedisService.isUserOnline t u (redis g')
                      = RedisService.isUserOnline t u (redis g))
      /\ sockets g' = sockets g /\ userSockets g' = userSockets g /\ db g' = db g
      /\ delivered g' = delivered g
  | (g', online_error error code) =>
      redis g' = redis g
      /\ (forall uid tok, ChatGateway.checkSession jwt_decode now sid g <> Authorized uid tok)
  end.
Proof.
  unfold ChatGatewayRest.handleGetOnlineUsers.
  destruct (ChatGateway.checkSession jwt_decode now sid g) as [| |uid tok] eqn:Hs.
  - split; [reflexivity|]. intros u t H. discriminate.
  - split; [reflexivity|]. intros u t H. discriminate.
  - pose proof (getOnlineUsers_spec now (redis g)) as Hspec. cbv zeta in Hspec.
    destruct (RedisServiceRest.getOnlineUsers now (redis g)) as [users r'].
    cbn [fst snd] in Hspec. destruct Hspec as (Hin & Hnd & _ & Hu & _).
    split_and!; try reflexivity; try assumption.
    + eauto.
    + intros t u. unfold RedisService.isUserOnline, redis_exists_userOnline. simpl.
      rewrite Hu. reflexivity.
Qed.

End GatewayRest.

(** * Who can write to the store through the gateway *)

Lemma markEach_onlyReceiptsOf ids uid d :
  onlyReceiptsOf uid d (snd (ChatGateway.markEach ids uid d)).
Proof.
  unfold ChatGateway.markEach.
  apply (fold_left_preserves (fun acc => onlyReceiptsOf uid d (snd acc))).
  - intros [ok d1] msgId (Hc & Hm & Hx & Hn & Hr). cbn [fst snd] in *.
    unfold MessagesService.markMessageAsRead.
    destruct (MessagesService.messageExists msgId d1) eqn:Hex; cbn [snd].
    + unfold onlyReceiptsOf, MessagesService.insertRead. simpl.
      split_and!; try assumption.
      intros i u Hin. apply elem_of_union in Hin as [Hin | Hin]; [|auto].
      apply elem_of_singleton in Hin. injection Hin as -> ->. right.
      split; [reflexivity|].
      unfold MessagesService.messageExists in *. rewrite <- Hm. exact Hex.
    + unfold onlyReceiptsOf. auto.
  - unfold onlyReceiptsOf. simpl. split_and!; auto.
Qed.

Lemma markChatMessagesAsRead_onlyReceiptsOf chatId uid d :
  onlyReceiptsOf uid d (MessagesService.markChatMessagesAsRead chatId uid d).
Proof.
  destruct (markChatMessagesAsRead_tables chatId uid d) as (Hc & Hm & Hx & Hn).
  unfold onlyReceiptsOf. split_and!; try assumption.
  intros i u Hin. apply markChatMessagesAsRead_receipts in Hin.
  destruct Hin as [Hin | (m & Hm' & _ & _ & Heq)]; [auto|].
  injection Heq as -> ->. right. split; [reflexivity|].
  apply messageExists_In. eauto.
Qed.

Section GatewayWrites.

Variable jwt_decode : string -> Decoded.

(** X27.  The three socket actions that write to the store do so only for a
    socket with a valid session, and then only this much: [message:send]
    stores one message, sent by the session's user, in a chat that user
    takes part in; [chat:create] runs [createChat] for a pair that
    includes the session's user; [messages:mark-read] adds receipts of
    the session's user, for stored messages, in no other table, and
    only when that user takes part in the chat named.  In every other
    case the store stays as it is. *)
Theorem gateway_writes_need_participant now sid g :
  (forall data,
     db (fst (ChatGateway.handleMessage jwt_decode now data sid g)) = db g
     \/ exists uid tok chat,
          ChatGateway.checkSession jwt_decode now sid g = Authorized uid tok
          /\ MessagesService.getChatById (sm_chatId data) (db g) = Some chat
          /\ ChatGateway.isParticipant chat uid = true
          /\ db (fst (ChatGateway.handleMessage jwt_decode now data sid g))
             = snd (MessagesService.createMessage now (sm_chatId data) uid (sm_text data)
                      (sm_productId data) (db g)))
  /\ (forall data,
        db (fst (ChatGateway.handleCreateChat jwt_decode now data sid g)) = db g
        \/ exists uid tok,
             ChatGateway.checkSession jwt_decode now sid g = Authorized uid tok
             /\ (uid = buyerId data \/ uid = sellerId data)
             /\ db (fst (ChatGateway.handleCreateChat jwt_decode now data sid g))
                = snd (MessagesService.createChat now (buyerId data) (sellerId data) None
                         (db g)))
  /\ (forall data,
        db (fst (ChatGateway.handleMarkMessagesAsRead jwt_decode now data sid g)) = db g
        \/ exists uid tok chat,
             ChatGateway.checkSession jwt_decode now sid g = Authorized uid tok
             /\ MessagesService.getChatById (mr_chatId data) (db g) = Some chat
             /\ ChatGateway.isParticipant chat uid = true
             /\ onlyReceiptsOf uid (db g)
                  (db (fst (ChatGateway.handleMarkMessagesAsRead jwt_decode now data sid g)))).
Proof.
  split_and!.
  - intros data. unfold ChatGateway.handleMessage.
    destruct (ChatGateway.checkSession jwt_decode now sid g) as [| |uid tok] eqn:Hs;
      [left; reflexivity | left; reflexivity |].
    destruct (MessagesService.getChatById (sm_chatId data) (db g)) as [chat|] eqn:Hc;
      [|left; reflexivity].
    destruct (ChatGateway.isParticipant chat uid) eqn:Hp; cbn [negb]; [|left; reflexivity].
    right. exists uid, tok, chat. split_and!; try reflexivity; try assumption.
    destruct (MessagesService.createMessage now (sm_chatId data) uid (sm_text data)
                (sm_productId data) (db g)) as [message d].
    match goal with
    | |- db (fst (if ?c then notify ?e ?x else ?x, _)) = _ =>
        assert (Hx : db x = d); [|destruct c; cbn [fst notify db]; exact Hx]
    end.
    match goal with
    | |- db (match ?o with Some ids => fold_left ?f (elements ids) ?g1 | None => _ end) = _ =>
        destruct (sameButRoomsAndEvents_emits o
                    (unread_updated (sm_chatId data)
                       (MessagesService.getUnreadCountForChat (sm_chatId data)
                          (ChatGateway.otherParticipant chat uid) (db (set_db d g)))) g1)
          as (_ & _ & Hd & _)
    end.
    rewrite Hd. reflexivity.
  - intros data. unfold ChatGateway.handleCreateChat.
    destruct (ChatGateway.checkSession jwt_decode now sid g) as [| |uid tok] eqn:Hs;
      [left; reflexivity | left; reflexivity |].
    destruct (uid =? buyerId data) eqn:Hb; destruct (uid =? sellerId data) eqn:Hse;
      cbn [negb andb]; [| | |left; reflexivity].
    all: right; exists uid, tok; split; [reflexivity|];
      split; [first [left; apply Z.eqb_eq; assumption | right; apply Z.eqb_eq; assumption]|].
    all: destruct (MessagesService.createChat now (buyerId data) (sellerId data) None (db g))
           as [chat d]; cbn [fst snd deliver server_to_emit db].
    all: match goal with
         | |- db (ChatGateway.joinAll ?room ?o (ChatGateway.joinAll ?room ?o' ?g1)) = _ =>
             destruct (joinAll_same room o (ChatGateway.joinAll room o' g1)) as (_ & _ & -> & _);
             destruct (joinAll_same room o' g1) as (_ & _ & -> & _)
         end; reflexivity.
  - intros data. unfold ChatGateway.handleMarkMessagesAsRead.
    destruct (ChatGateway.checkSession jwt_decode now sid g) as [| |uid tok] eqn:Hs;
      [left; reflexivity | left; reflexivity |].
    destruct (MessagesService.getChatById (mr_chatId data) (db g)) as [chat|] eqn:Hc;
      [|left; reflexivity].
    destruct (ChatGateway.isParticipant chat uid) eqn:Hp; cbn [negb]; [|left; reflexivity].
    right. exists uid, tok, chat. split_and!; try reflexivity; try assumption.
    assert (Hd : onlyReceiptsOf uid (db g)
                   (snd match mr_messageIds data with
                        | Some (msgId :: ids) => ChatGateway.markEach (msgId :: ids) uid (db g)
                        | _ => (true, MessagesService.markChatMessagesAsRead
                                        (mr_chatId data) uid (db g))
                        end)).
    { destruct (mr_messageIds data) as [[|i ids]|]; cbn [snd];
        first [apply markEach_onlyReceiptsOf | apply markChatMessagesAsRead_onlyReceiptsOf]. }
    destruct (match mr_messageIds data with
              | Some (msgId :: ids) => ChatGateway.markEach (msgId :: ids) uid (db g)
              | _ => (true, MessagesService.markChatMessagesAsRead (mr_chatId data) uid (db g))
              end) as [ok d]. cbn [snd] in Hd.
    destruct ok; cbn [negb fst]; exact Hd.
Qed.

End GatewayWrites.
